(** * A distributed audio-streaming network: coordinator, auth, content, client

    Shallow embedding of the Python sources

      - [SharedNodes/Node.py]               (registry, connect-with-retry, write driver)
      - [Server/ServerNodes/AuthNode.py]      (cookie manager, login handler)
      - [Server/ServerNodes/BootstrapNode.py] (node-request handler)
      - [Server/ServerNodes/ContentNode.py]   (catalog, sample rate, frame sender)
      - [Client/ClientNodes/ClientNode.py]    (frame receiver, content dialogue)

    Python objects that are mutated through aliases (the thread objects held
    in [node_threads]) live in an explicit object store keyed by identity.
    A [str] is a [string] with one character per code point (not per byte
    of an encoding), so the texts covered are those of code points below
    256; on them [lower], [strip] and [int] below are the interpreter's.
    The letter [À], code point 192, is the character [ascii_of_nat 192];
    [text] turns a literal of this file, which is UTF-8, into such a text.
    Everything the operating system decides (what [recv] returns, whether a
    socket call raises, what the random generator draws, what a directory
    holds) is an explicit argument of the function that consumes it. *)

From Stdlib Require Import ZArith String Ascii List Lia Strings.Byte.
From Stdlib Require Import DecimalString DecimalPos DecimalZ.
From stdpp Require Import gmap strings list sorting.
From coqutil Require Import Word.LittleEndianList Byte.

Local Open Scope string_scope.

(** ** Python values and string helpers *)

Module Py.

(** The values that reach an f-string in the modelled code. *)
Inductive pyval :=
| PyNone
| PyStr (s : string)
| PyInt (n : Z)
| PyHalves (k : Z).  (* the float k/2: what [n / 2] yields for an int n *)

(** [str(n)] for an [int]. *)
Definition str_of_Z (n : Z) : string := NilZero.string_of_int (Z.to_int n).

(** [str(x)] for the float [x = k/2] (exact, and printed without exponent,
    for [abs x < 10^16]): the integer part, then [.0] or [.5]. *)
Definition str_of_halves (k : Z) : string :=
  (if (k <? 0)%Z then "-" else "") ++ str_of_Z (Z.abs k / 2)
  ++ (if Z.even k then ".0" else ".5").

(** [str(v)], as an f-string field renders it. *)
Definition str (v : pyval) : string :=
  match v with
  | PyNone => "None"
  | PyStr s => s
  | PyInt n => str_of_Z n
  | PyHalves k => str_of_halves k
  end.

(** [a / 2] for an [int] a. *)
Definition truediv2 (a : Z) : pyval := PyHalves a.

(** [sep.join(l)]. *)
Definition join (sep : string) (l : list string) : string := String.concat sep l.

(** [s.split(sep)] for a one-character separator: never the empty list. *)
Fixpoint split (sep : ascii) (s : string) : list string :=
  match s with
  | EmptyString => [EmptyString]
  | String c s' =>
      if Ascii.eqb c sep then EmptyString :: split sep s'
      else match split sep s' with
           | [] => [String c EmptyString]
           | w :: ws => String c w :: ws
           end
  end.

(** [c.lower()] for a code point below 256: the letters [A]-[Z] and the
    accented capitals 192-214 and 216-222 move up by 32, and no other code
    point changes (215 is the multiplication sign, 223 the sharp s). *)
Definition lower_char (c : ascii) : ascii :=
  let n := nat_of_ascii c in
  if ((Nat.leb 65 n && Nat.leb n 90) || (Nat.leb 192 n && Nat.leb n 214)
      || (Nat.leb 216 n && Nat.leb n 222))%bool
  then ascii_of_nat (n + 32) else c.

(** [s.lower()]: below 256 no code point lowers to more than one character
    and none depends on its neighbours, so the text is lowered character by
    character. *)
Fixpoint lower (s : string) : string :=
  match s with
  | EmptyString => EmptyString
  | String c s' => String (lower_char c) (lower s')
  end.

(** [s.endswith(suffix)]. *)
Definition endswith (s suffix : string) : bool :=
  let n := String.length s in
  let m := String.length suffix in
  (Nat.leb m n && String.eqb (substring (n - m) m s) suffix)%bool.

(** [s.rfind(c)]: the last index of [c], or [-1]. *)
Fixpoint rfind (c : ascii) (s : string) : Z :=
  match s with
  | EmptyString => (-1)%Z
  | String a s' =>
      let r := rfind c s' in
      if (0 <=? r)%Z then (r + 1)%Z
      else if Ascii.eqb a c then 0%Z else (-1)%Z
  end.

(** [s[:i]] and [s[i:]] for [0 <= i]. *)
Definition take (i : nat) (s : string) : string := substring 0 i s.
Definition drop (i : nat) (s : string) : string := substring i (String.length s - i) s.

(** Every character of [s] is [c]. *)
Fixpoint all_chars (c : ascii) (s : string) : bool :=
  match s with
  | EmptyString => true
  | String a s' => (Ascii.eqb a c && all_chars c s')%bool
  end.

(** [os.path.splitext(p)] (posixpath: [sep = '/'], no [altsep]): the
    extension starts at the last dot, unless that dot is not after the last
    separator or only dots stand between the separator and it. *)
Definition splitext (p : string) : string * string :=
  let sepIndex := rfind "/" p in
  let dotIndex := rfind "." p in
  if (sepIndex <? dotIndex)%Z then
    let filenameIndex := Z.to_nat (sepIndex + 1) in
    let d := Z.to_nat dotIndex in
    if all_chars "." (substring filenameIndex (d - filenameIndex) p)
    then (p, EmptyString)
    else (take d p, drop d p)
  else (p, EmptyString).

(** The characters [str.strip()] removes, among code points below 256. *)
Definition is_space (c : ascii) : bool :=
  let n := nat_of_ascii c in
  ((Nat.leb 9 n && Nat.leb n 13) || (Nat.leb 28 n && Nat.leb n 32)
   || Nat.eqb n 133 || Nat.eqb n 160)%bool.

Fixpoint lstrip (s : string) : string :=
  match s with
  | EmptyString => EmptyString
  | String c s' => if is_space c then lstrip s' else s
  end.

Fixpoint rstrip (s : string) : string :=
  match s with
  | EmptyString => EmptyString
  | String c s' =>
      match rstrip s' with
      | EmptyString => if is_space c then EmptyString else String c EmptyString
      | r => String c r
      end
  end.

(** [s.strip()]. *)
Definition strip (s : string) : string := rstrip (lstrip s).

Definition is_digit (c : ascii) : bool :=
  let n := nat_of_ascii c in (Nat.leb 48 n && Nat.leb n 57)%bool.

Fixpoint all_digits (s : string) : bool :=
  match s with
  | EmptyString => true
  | String c s' => (is_digit c && all_digits s')%bool
  end.

(** [int(float(s))] on the texts [str] above produces: an optional sign and
    digits, then optionally a dot and digits; the value is the integer part.
    [None] stands for [ValueError], and also for a magnitude of [2^53] or
    more, where [float] would round and this model does not follow it. *)
Definition int_of_float_text (s : string) : option Z :=
  let integer_part (i : string) :=
    match NilZero.int_of_string i with
    | Some d => if (Z.abs (Z.of_int d) <? 2 ^ 53)%Z then Some (Z.of_int d) else None
    | None => None
    end in
  match split "." s with
  | [i] => integer_part i
  | [i; f] => if all_digits f then integer_part i else None
  | _ => None
  end.

(** The digits of a base-ten literal: at least one digit, and single
    underscores only between two digits.  [after_digit] tells whether the
    character before was a digit. *)
Fixpoint digit_part (after_digit : bool) (s : string) : bool :=
  match s with
  | EmptyString => after_digit
  | String c s' =>
      if is_digit c then digit_part true s'
      else if Ascii.eqb c "_" then (after_digit && digit_part false s')%bool
      else false
  end.

Fixpoint without_underscores (s : string) : string :=
  match s with
  | EmptyString => EmptyString
  | String c s' =>
      if Ascii.eqb c "_" then without_underscores s'
      else String c (without_underscores s')
  end.

(** An optional sign, and what follows it. *)
Definition sign_and_body (t : string) : bool * string :=
  match t with
  | String "-" r => (true, r)
  | String "+" r => (false, r)
  | _ => (false, t)
  end.

(** [int(s)] for a [str], base ten: surrounding whitespace is dropped, a
    sign may come first, then the digits.  [None] stands for [ValueError].
    (The cap on the number of digits that recent interpreters apply, 4300
    by default, is not modelled.) *)
Definition int_of_str (s : string) : option Z :=
  let '(negative, body) := sign_and_body (strip s) in
  if digit_part false body then
    match NilEmpty.uint_of_string (without_underscores body) with
    | Some u => Some (if negative then (- Z.of_uint u)%Z else Z.of_uint u)
    | None => None
    end
  else None.


End Py.

(** ** SharedNodes/Node.py *)

Module Node.

(** What the registry reads of a registered thread object. *)
Record node := mk_node {
  conn_type : string;
  conn_name : string;
  conn_host : Py.pyval;
  conn_port : Py.pyval;
  load : Z }.

Definition set_load (n : node) (l : Z) : node :=
  mk_node (conn_type n) (conn_name n) (conn_host n) (conn_port n) l.

(** [NodeThreadManager]: the objects by identity, and [self.node_threads]
    as the list of their identities in registration order. *)
Record NodeThreadManager := mk_manager {
  objects : gmap nat node;
  node_threads : list nat }.

(** [register]: [self.node_threads.append(node)]. *)
Definition register (r : nat) (tm : NodeThreadManager) : NodeThreadManager :=
  mk_manager (objects tm) (node_threads tm ++ [r]).

(** [list.remove(x)] once [x in list] is known: the first occurrence goes. *)
Fixpoint remove_first (r : nat) (l : list nat) : list nat :=
  match l with
  | [] => []
  | x :: l' => if Nat.eqb x r then l' else x :: remove_first r l'
  end.

(** [unregister]. *)
Definition unregister (r : nat) (tm : NodeThreadManager) : NodeThreadManager :=
  if existsb (Nat.eqb r) (node_threads tm)
  then mk_manager (objects tm) (remove_first r (node_threads tm))
  else tm.

Definition has_type (tm : NodeThreadManager) (ct : string) (r : nat) : bool :=
  match objects tm !! r with
  | Some n => String.eqb (conn_type n) ct
  | None => false
  end.

(** [get_nodes_by_type]. *)
Definition get_nodes_by_type (ct : string) (tm : NodeThreadManager) : list nat :=
  List.filter (has_type tm ct) (node_threads tm).

Definition load_of (tm : NodeThreadManager) (r : nat) : Z :=
  match objects tm !! r with
  | Some n => load n
  | None => 0%Z
  end.

(** [min(nodes, key=...)] from a first candidate on: a later element
    replaces the candidate only when its key is strictly smaller. *)
Fixpoint py_min (key : nat -> Z) (best : nat) (rest : list nat) : nat :=
  match rest with
  | [] => best
  | x :: rest' => py_min key (if (key x <? key best)%Z then x else best) rest'
  end.

(** [least_load_node.load += 1] on the object itself. *)
Definition incr_load (r : nat) (tm : NodeThreadManager) : NodeThreadManager :=
  mk_manager (alter (fun n => set_load n (load n + 1)) r (objects tm)) (node_threads tm).

(** [load_balancer]: the selected object (or [None]) and the registry after. *)
Definition load_balancer (ct : string) (tm : NodeThreadManager)
  : option nat * NodeThreadManager :=
  match get_nodes_by_type ct tm with
  | [] => (None, tm)
  | r0 :: rest =>
      let least_load_node := py_min (load_of tm) r0 rest in
      (Some least_load_node, incr_load least_load_node tm)
  end.

(** [update_main_load]. *)
Definition update_main_load (tm : NodeThreadManager) : Z :=
  fold_left (fun acc r => (acc + load_of tm r)%Z) (node_threads tm) 0%Z.

(** *** NodeConnectionHandler.connect_to_node *)

(** The identity the caller announces in its handshake. *)
Record identity := mk_identity {
  node_type : string;
  node_name : string;
  node_host : Py.pyval;
  node_port : Py.pyval }.

(** The handshake f-string. *)
Definition handshake (me : identity) : string :=
  node_type me ++ "|" ++ node_name me ++ "|" ++ Py.str (node_host me) ++ "|"
  ++ Py.str (node_port me).

(** What the operating system answers during one attempt.  The first [try]
    block holds three calls: [socket.socket(...)] may raise before
    [new_sock] is rebound, [setblocking]/[connect_ex] may raise after. *)
Inductive open_result := SocketRaises | ConnectRaises | Opened.
(** The [select] loop ends with a ready event or with an exception. *)
Inductive select_result := Ready | SelectRaises.
(** [send] of the handshake returns or raises [OSError]; registering the
    new socket with the selectors is taken to succeed. *)
Inductive send_result := Sent | SendRaises.

Record attempt := mk_attempt {
  opening : open_result;
  waiting : select_result;
  sending : send_result }.

(** How a call ends: [return value] or an exception that escapes. *)
Inductive outcome (A : Type) :=
| Returned (v : A)
| Raised (exn : string).
Arguments Returned {A} v.
Arguments Raised {A} exn.

(** What the call did: attempts started, sockets closed ([close()] calls in
    order), handshakes sent, sockets registered with the owner's selector.
    The socket created by attempt [k] is named [k]. *)
Record effects := mk_effects {
  attempts : nat;
  closed : list nat;
  handshakes : list (nat * string);
  registered : list nat }.

Definition try_limit : nat := 6.

(** The [for attempt in range(try_limit)] loop; [new_sock] is the Python
    variable of that name, [None] before the first socket exists. *)
Fixpoint connect_loop (me : identity) (env : nat -> attempt) (remaining attempt_no : nat)
    (new_sock : option nat) (fx : effects) : outcome (option nat) * effects :=
  match remaining with
  | O => (Returned None, fx)
  | S remaining' =>
      let fx := mk_effects (S (attempts fx)) (closed fx) (handshakes fx) (registered fx) in
      match opening (env attempt_no) with
      | SocketRaises =>
          (* except Exception: new_sock.close(); continue *)
          match new_sock with
          | None => (Raised "AttributeError", fx)
          | Some s =>
              connect_loop me env remaining' (S attempt_no) new_sock
                (mk_effects (attempts fx) (closed fx ++ [s]) (handshakes fx) (registered fx))
          end
      | ConnectRaises =>
          connect_loop me env remaining' (S attempt_no) (Some attempt_no)
            (mk_effects (attempts fx) (closed fx ++ [attempt_no]) (handshakes fx) (registered fx))
      | Opened =>
          match waiting (env attempt_no) with
          | SelectRaises =>
              (Returned None,
               mk_effects (attempts fx) (closed fx ++ [attempt_no]) (handshakes fx) (registered fx))
          | Ready =>
              match sending (env attempt_no) with
              | SendRaises =>
                  connect_loop me env remaining' (S attempt_no) (Some attempt_no)
                    (mk_effects (attempts fx) (closed fx ++ [attempt_no]) (handshakes fx)
                       (registered fx))
              | Sent =>
                  (Returned (Some attempt_no),
                   mk_effects (attempts fx) (closed fx)
                     (handshakes fx ++ [(attempt_no, handshake me)])
                     (registered fx ++ [attempt_no]))
              end
          end
      end
  end.

Definition connect_to_node (me : identity) (env : nat -> attempt)
  : outcome (option nat) * effects :=
  connect_loop me env try_limit 0 None (mk_effects 0 [] [] []).

(** *** NodeWriteHandler *)

(** The classes whose instances own a [NodeWriteHandler] ([parent_node]). *)
Inductive node_class :=
| BootstrapNodeThread
| AuthNodeThread
| AuthNode
| ContentNodeThread
| ContentNode
| ClientNode.

Record NodeWriteHandler := mk_writer {
  running : bool;
  out_buffer : list string }.

(** [NodeWriteHandler.kill_connection]. *)
Definition kill_connection (wh : NodeWriteHandler) : NodeWriteHandler :=
  mk_writer false (out_buffer wh).

(** [push_message]. *)
Definition push_message (m : string) (wh : NodeWriteHandler) : NodeWriteHandler :=
  mk_writer (running wh) (out_buffer wh ++ [m]).

(** The names [parent_node.<name>] resolves for an instance of each class:
    what its [__init__] assigns, the methods of the class, and those of
    [threading.Thread].  No class of the repository defines
    [kill_connection]; only [NodeWriteHandler] does. *)
Definition thread_attributes : list string :=
  ["start"; "run"; "join"; "name"; "ident"; "is_alive"; "daemon"; "native_id"].

Definition attributes (c : node_class) : list string :=
  thread_attributes ++
  match c with
  | BootstrapNodeThread =>
      ["node_type"; "node_name"; "node_host"; "node_port"; "prime_host"; "prime_port";
       "conn_type"; "conn_name"; "conn_host"; "conn_port"; "sock"; "addr"; "selector";
       "load"; "write_handler"; "read"; "handle_node_request"]
  | AuthNodeThread =>
      ["node_type"; "node_name"; "node_host"; "node_port";
       "conn_type"; "conn_name"; "conn_host"; "conn_port"; "sock"; "addr"; "selector";
       "load"; "write_handler"; "read"; "handle_client"; "handle_content"]
  | AuthNode =>
      ["node_name"; "node_type"; "node_host"; "node_port";
       "conn_name"; "conn_type"; "conn_host"; "conn_port";
       "prime_host"; "prime_port"; "prime_sock"; "selector"; "load"; "cookie_manager";
       "connection_handler"; "write_handler"; "shutdown"]
  | ContentNodeThread =>
      ["node_type"; "node_name"; "node_host"; "node_port";
       "conn_type"; "conn_name"; "conn_host"; "conn_port"; "sock"; "addr"; "client_cookie";
       "path_to_music_files"; "music_files"; "file_to_stream"; "stream_mode";
       "auth_host"; "auth_port"; "auth_sock"; "selector"; "load"; "connection_handler";
       "write_handler"; "disconnect_from_auth_node"; "get_music_files";
       "process_file_request"; "read"; "handle_client"; "handle_auth"]
  | ContentNode =>
      ["node_name"; "node_type"; "node_host"; "node_port";
       "conn_name"; "conn_type"; "conn_host"; "conn_port";
       "prime_host"; "prime_port"; "prime_sock"; "selector"; "load";
       "connection_handler"; "write_handler"; "shutdown"; "read"]
  | ClientNode =>
      ["node_name"; "node_type"; "node_host"; "node_port"; "conn_name"; "cookie";
       "prime_host"; "prime_port"; "prime_sock"; "auth_host"; "auth_port"; "auth_sock";
       "content_host"; "content_port"; "content_sock"; "stream_mode"; "music_rate";
       "selector"; "connection_handler"; "write_handler"; "read"; "handle_stream_mode";
       "handle_prime"; "handle_auth"; "handle_content"]
  end.

Definition has_attribute (c : node_class) (name : string) : bool :=
  existsb (String.eqb name) (attributes c).

(** What [write] observes of [key.fileobj]: whether [getsockname()] (in the
    opening [print]) succeeds, what [fileno()] returns afterwards (another
    thread may have closed the socket in between), whether [send] raises. *)
Record socket_view := mk_view {
  getsockname_ok : bool;
  fileno : Z;
  send_ok : bool }.

(** [NodeWriteHandler.write]: how the call ends, the handler after it, and
    the messages handed to [send]. *)
Definition write (parent : node_class) (sock : socket_view) (wh : NodeWriteHandler)
  : outcome unit * NodeWriteHandler * list string :=
  if negb (getsockname_ok sock) then (Raised "OSError", wh, [])
  else
    (* message = self.out_buffer.get_nowait(), None on queue.Empty *)
    let '(message, wh) :=
      match out_buffer wh with
      | [] => (None, wh)
      | m :: q => (Some m, mk_writer (running wh) q)
      end in
    if (fileno sock =? -1)%Z then
      (* self.parent_node.kill_connection(): a method of the parent, if it
         had one, would run here *)
      if has_attribute parent "kill_connection"
      then (Returned tt, wh, [])
      else (Raised "AttributeError", wh, [])
    else
      match message with
      | Some m =>
          if String.eqb m "" then (Returned tt, wh, [])
          else if send_ok sock then (Returned tt, wh, [m])
          else (Raised "OSError", wh, [m])
      | None => (Returned tt, wh, [])
      end.

(** *** NodeThreadManager.close *)

(** The [for node in self.node_threads] loop of [close].  Its body looks up
    [kill_connection], [selector], [sock] and [join] on the registered
    object, and [AttributeError] leaves the loop at the first object that
    lacks one of them; the calls themselves are taken to succeed. *)
Fixpoint close_loop (class_of : nat -> node_class) (l : list nat) : outcome unit :=
  match l with
  | [] => Returned tt
  | node :: l' =>
      if (has_attribute (class_of node) "kill_connection"
          && has_attribute (class_of node) "selector"
          && has_attribute (class_of node) "sock"
          && has_attribute (class_of node) "join")%bool
      then close_loop class_of l'
      else Raised "AttributeError"
  end.

(** [close]: [self.node_threads] is rebound to the empty list after the
    loop, so not when the loop was left by an exception. *)
Definition close (class_of : nat -> node_class) (tm : NodeThreadManager)
  : outcome unit * NodeThreadManager :=
  match close_loop class_of (node_threads tm) with
  | Returned _ => (Returned tt, mk_manager (objects tm) [])
  | Raised e => (Raised e, tm)
  end.

(** *** NodeConnectionHandler.accept_wrapper *)

(** What [recv(1024).decode()] does on a non-blocking socket: it gives a
    text (the empty one once the peer has closed), or raises
    [BlockingIOError], or raises something else (a reset connection, bytes
    that do not decode). *)
Inductive recv_event :=
| Data (text : string)
| Blocking
| Fails (exn : string).

(** The [while True] loop of [accept_wrapper], entered once [sock.accept()]
    has returned the connection: [recvs i] is what the [i]-th [recv] on it
    does.  The result is [handshake_args] and the number of [recv] calls
    made; [None] when the fuel ran out inside the loop. *)
Fixpoint accept_wrapper (fuel : nat) (recvs : nat -> recv_event) (i : nat)
  : option (outcome (list string) * nat) :=
  match fuel with
  | O => None
  | S fuel' =>
      match recvs i with
      | Data handshake_message =>
          if String.eqb handshake_message "" then accept_wrapper fuel' recvs (S i)
          else Some (Returned (Py.split "|" handshake_message), S i)
      | Blocking => accept_wrapper fuel' recvs (S i)
      | Fails exn => Some (Raised exn, S i)
      end
  end.


End Node.

(** ** Server/ServerNodes/AuthNode.py *)

Module AuthNode.

(** [AuthNodeCookieManager._chars]. *)
Definition _chars : list ascii :=
  list_ascii_of_string "abcdefghijklmnopqrstuvwxyzABCDEFGHIJKLMNOPQRSTUVWXYZ0123456789".

(** The random generator: [draws k] is the number behind the [k]-th call of
    [random.choice] since start-up, and the state is the count of calls made. *)
Definition generator := nat -> nat.

(** [random.choice(seq)]: an element of [seq] at an index below its length. *)
Definition choice (draws : generator) (pos : nat) (seq : list ascii) : ascii :=
  nth (draws pos mod length seq) seq "000"%char.

(** [''.join(random.choice(cls._chars) for _ in range(n))] from call [pos] on. *)
Fixpoint random_string (draws : generator) (pos n : nat) : string :=
  match n with
  | O => EmptyString
  | S n' => String (choice draws pos _chars) (random_string draws (S pos) n')
  end.

(** [is_authenticated]: [cookie in cls._client_cookies]. *)
Definition is_authenticated (cookie : string) (_client_cookies : list string) : bool :=
  existsb (String.eqb cookie) _client_cookies.

(** [generate_cookie]: the [while True] loop, one candidate per unit of
    fuel.  Returns the cookie, the generator position and the cookie list
    after the call; [None] when the fuel ran out inside the loop. *)
Fixpoint generate_cookie (fuel : nat) (draws : generator) (pos : nat)
    (_client_cookies : list string) : option (string * nat * list string) :=
  match fuel with
  | O => None
  | S fuel' =>
      let new_cookie := random_string draws pos (length _chars) in
      let pos' := pos + length _chars in
      if negb (is_authenticated new_cookie _client_cookies)
      then Some (new_cookie, pos', (_client_cookies ++ [new_cookie])%list)
      else generate_cookie fuel' draws pos' _client_cookies
  end.

(** [list.remove(x)]: the first occurrence goes. *)
Fixpoint remove_first (c : string) (l : list string) : list string :=
  match l with
  | [] => []
  | x :: l' => if String.eqb x c then l' else x :: remove_first c l'
  end.

(** [remove_cookie]. *)
Definition remove_cookie (cookie : string) (_client_cookies : list string) : list string :=
  if is_authenticated cookie _client_cookies
  then remove_first cookie _client_cookies
  else _client_cookies.

(** [clear_cookies]. *)
Definition clear_cookies (_client_cookies : list string) : list string := [].

(** The process-wide state a connection thread of the Auth role works on:
    the class-level cookie list, the generator position, and the thread's
    own write handler. *)
Record state := mk_state {
  _client_cookies : list string;
  rng_pos : nat;
  write_handler : Node.NodeWriteHandler }.

(** [AuthNodeThread.handle_client]; [messages] is a [split] result, so it
    has a first element. *)
Definition handle_client (fuel : nat) (draws : generator) (messages : list string)
    (st : state) : option state :=
  match messages with
  | [] => Some st
  | opcode :: _ =>
      if String.eqb opcode "LOGIN_DATA" then
        match generate_cookie fuel draws (rng_pos st) (_client_cookies st) with
        | None => None
        | Some (new_cookie, pos', cookies') =>
            Some (mk_state cookies' pos'
                    (Node.push_message ("LOGIN_SUCCESS|" ++ new_cookie) (write_handler st)))
        end
      else if String.eqb opcode "DISCONNECT" then
        Some (mk_state (_client_cookies st) (rng_pos st)
                (Node.kill_connection (write_handler st)))
      else Some st
  end.

(** [AuthNodeThread.handle_content]: [messages[1]] raises [IndexError] when
    the packet has no second field. *)
Definition handle_content (messages : list string) (st : state)
  : Node.outcome unit * state :=
  match messages with
  | [] => (Node.Returned tt, st)
  | opcode :: args =>
      if String.eqb opcode "AUTH_COOKIE" then
        match args with
        | [] => (Node.Raised "IndexError", st)
        | cookie :: _ =>
            (Node.Returned tt,
             mk_state (_client_cookies st) (rng_pos st)
               (Node.push_message
                  (if is_authenticated cookie (_client_cookies st)
                   then "COOKIE_VALID" else "COOKIE_INVALID")
                  (write_handler st)))
        end
      else if String.eqb opcode "DISCONNECT" then
        (Node.Returned tt,
         mk_state (_client_cookies st) (rng_pos st) (Node.kill_connection (write_handler st)))
      else (Node.Returned tt, st)
  end.

(** The start of [AuthNodeThread.run]: the first message queued depends on
    the role the peer announced. *)
Definition run_greeting (conn_type : string) (wh : Node.NodeWriteHandler)
  : Node.NodeWriteHandler :=
  if String.eqb conn_type "CLIENT" then Node.push_message "LOGIN_REQUEST" wh
  else if String.eqb conn_type "CONTENT" then Node.push_message "COOKIE_CHECK" wh
  else wh.

(** [AuthNodeThread.read] for the thread object [self] with the given
    [conn_type], on a socket that is open when the call starts.  The result
    is how the call ends, the state, the registry of the module, and whether
    the socket was unregistered from the selector and closed. *)
Definition read (fuel : nat) (draws : generator) (conn_type : string) (self : nat)
    (event : Node.recv_event) (tm : Node.NodeThreadManager) (st : state)
  : option (Node.outcome unit * state * Node.NodeThreadManager * bool) :=
  match event with
  | Node.Blocking => Some (Node.Raised "BlockingIOError", st, tm, false)
  | Node.Fails exn => Some (Node.Raised exn, st, tm, false)
  | Node.Data recv_data =>
      if String.eqb recv_data "" then
        Some (Node.Returned tt, st, Node.unregister self tm, true)
      else
        let messages := Py.split "|" recv_data in
        if String.eqb conn_type "CLIENT" then
          match handle_client fuel draws messages st with
          | None => None
          | Some st => Some (Node.Returned tt, st, tm, false)
          end
        else if String.eqb conn_type "CONTENT" then
          let '(o, st) := handle_content messages st in Some (o, st, tm, false)
        else Some (Node.Returned tt, st, tm, false)
  end.


(** [AuthNode.shutdown] (the same two lines stand in
    [ContentNode.shutdown]): [kill_connection] comes after
    [thread_manager.close()], so not when that call raises. *)
Definition shutdown (class_of : nat -> Node.node_class) (tm : Node.NodeThreadManager)
    (wh : Node.NodeWriteHandler)
  : Node.outcome unit * Node.NodeThreadManager * Node.NodeWriteHandler :=
  match Node.close class_of tm with
  | (Node.Returned _, tm) => (Node.Returned tt, tm, Node.kill_connection wh)
  | (Node.Raised exn, tm) => (Node.Raised exn, tm, wh)
  end.

(** What one [selector.select(timeout=1)] of [AuthNodeThread.run] returns
    for the only socket the thread has registered, with what the calls of
    that turn then meet: the two bits of the mask, what [recv] does if the
    thread reads, what [write] sees of the socket if the thread writes, and
    the class of the exception if [send] raises. *)
Record ready_event := mk_ready {
  readable : bool;
  writable : bool;
  received : Node.recv_event;
  seen : Node.socket_view;
  send_error : string }.

(** The exceptions [run] swallows. *)
Definition swallowed (exn : string) : bool :=
  (String.eqb exn "KeyboardInterrupt" || String.eqb exn "ConnectionResetError")%bool.

(** [self.write_handler.write(key)] inside [run]: a socket that [read] has
    just closed fails in the opening [print], and an exception of [send]
    has the class the turn gives it. *)
Definition write_in_turn (ev : ready_event) (closed : bool) (wh : Node.NodeWriteHandler)
  : Node.outcome unit * Node.NodeWriteHandler * list string :=
  let sock := if closed then Node.mk_view false (-1) false else seen ev in
  match Node.write Node.AuthNodeThread sock wh with
  | (Node.Raised exn, wh, m :: ms) => (Node.Raised (send_error ev), wh, m :: ms)
  | r => r
  end.

(** The [while self.write_handler.running] loop of [AuthNodeThread.run]:
    [turns i] is the [i]-th result of [select] ([None]: no event within the
    timeout), [fuel] bounds the number of turns and [cookie_fuel] the
    candidates of one [generate_cookie] call.  The result is how the loop is
    left, the state, the registry and the messages sent; [None] when either
    fuel ran out. *)
Fixpoint run_loop (fuel cookie_fuel : nat) (draws : generator) (conn_type : string)
    (self : nat) (turns : nat -> option ready_event) (i : nat)
    (tm : Node.NodeThreadManager) (st : state) (sent : list string)
  : option (Node.outcome unit * state * Node.NodeThreadManager * list string) :=
  if negb (Node.running (write_handler st)) then Some (Node.Returned tt, st, tm, sent)
  else
    match fuel with
    | O => None
    | S fuel' =>
        match turns i with
        | None => run_loop fuel' cookie_fuel draws conn_type self turns (S i) tm st sent
        | Some ev =>
            (* if mask & selectors.EVENT_READ: self.read(key) *)
            match (if readable ev
                   then read cookie_fuel draws conn_type self (received ev) tm st
                   else Some (Node.Returned tt, st, tm, false)) with
            | None => None
            | Some (Node.Raised exn, st, tm, _) => Some (Node.Raised exn, st, tm, sent)
            | Some (Node.Returned _, st, tm, closed) =>
                (* if mask & selectors.EVENT_WRITE and not out_buffer.empty(): write(key) *)
                let '(o, wh, now) :=
                  match writable ev, Node.out_buffer (write_handler st) with
                  | true, _ :: _ => write_in_turn ev closed (write_handler st)
                  | _, _ => (Node.Returned tt, write_handler st, [])
                  end in
                let st := mk_state (_client_cookies st) (rng_pos st) wh in
                let sent := (sent ++ now)%list in
                match o with
                | Node.Raised exn => Some (Node.Raised exn, st, tm, sent)
                | Node.Returned _ =>
                    (* if not self.selector.get_map(): break *)
                    if closed then Some (Node.Returned tt, st, tm, sent)
                    else run_loop fuel' cookie_fuel draws conn_type self turns (S i) tm st
                           sent
                end
            end
        end
    end.

(** [AuthNodeThread.run]: the greeting, the loop, and the [except] and
    [finally] clauses. *)
Definition run (fuel cookie_fuel : nat) (draws : generator) (conn_type : string)
    (self : nat) (turns : nat -> option ready_event) (tm : Node.NodeThreadManager)
    (st : state)
  : option (Node.outcome unit * state * Node.NodeThreadManager * list string) :=
  let st := mk_state (_client_cookies st) (rng_pos st)
              (run_greeting conn_type (write_handler st)) in
  match run_loop fuel cookie_fuel draws conn_type self turns 0 tm st [] with
  | None => None
  | Some (o, st, tm, sent) =>
      let o := match o with
               | Node.Raised exn => if swallowed exn then Node.Returned tt else Node.Raised exn
               | Node.Returned _ => Node.Returned tt
               end in
      Some (o, st, Node.unregister self tm, sent)
  end.


End AuthNode.

(** ** Server/ServerNodes/BootstrapNode.py *)

Module BootstrapNode.

(** The objects [AuthNode.AuthNode("auth1", ...)] and
    [ContentNode.ContentNode("content1", ...)] right after construction:
    both constructors leave [conn_host] and [conn_port] at [None] and set
    [load = 0]. *)
Definition new_auth_node : Node.node :=
  Node.mk_node "AUTH" "auth1" Py.PyNone Py.PyNone 0.
Definition new_content_node : Node.node :=
  Node.mk_node "CONTENT" "content1" Py.PyNone Py.PyNone 0.

(** A fresh identity for a newly constructed object. *)
Definition fresh_id (tm : Node.NodeThreadManager) : nat :=
  fresh (dom (Node.objects tm) ∪ list_to_set (Node.node_threads tm) : gset nat).

(** [thread_manager.register(new_node); new_node.start(); time.sleep(0.1)]:
    the new object enters the store and the registry; [address] is what the
    started thread has written to its [conn_host]/[conn_port] by the end of
    the sleep ([None]/[None] when it has not bound its server yet). *)
Definition spawn (new_node : Node.node) (address : Py.pyval * Py.pyval)
    (tm : Node.NodeThreadManager) : Node.NodeThreadManager :=
  let r := fresh_id tm in
  let started :=
    Node.mk_node (Node.conn_type new_node) (Node.conn_name new_node)
      (fst address) (snd address) (Node.load new_node) in
  Node.register r (Node.mk_manager (<[r := started]> (Node.objects tm)) (Node.node_threads tm)).

(** The [while True] loop of [handle_node_request] for the wanted role
    [messages[2]]: the selected node ([None] when the handler returns
    early), the registry, and the number of nodes spawned.  [startup k] is
    the address the [k]-th spawned node reports after the sleep. *)
Fixpoint select_or_spawn (fuel : nat) (startup : nat -> Py.pyval * Py.pyval)
    (wanted : string) (spawned : nat) (tm : Node.NodeThreadManager)
  : option (option nat * Node.NodeThreadManager * nat) :=
  match fuel with
  | O => None
  | S fuel' =>
      match Node.load_balancer wanted tm with
      | (Some node, tm') => Some (Some node, tm', spawned)
      | (None, tm') =>
          if String.eqb wanted "AUTH" then
            select_or_spawn fuel' startup wanted (S spawned)
              (spawn new_auth_node (startup spawned) tm')
          else if String.eqb wanted "CONTENT" then
            select_or_spawn fuel' startup wanted (S spawned)
              (spawn new_content_node (startup spawned) tm')
          else Some (None, tm', spawned)
      end
  end.

(** The registry and the write handler of the connection thread. *)
Record state := mk_state {
  thread_manager : Node.NodeThreadManager;
  write_handler : Node.NodeWriteHandler }.

Definition node_address (tm : Node.NodeThreadManager) (r : nat) : string :=
  match Node.objects tm !! r with
  | Some n => Py.str (Node.conn_host n) ++ "|" ++ Py.str (Node.conn_port n)
  | None => "None|None"
  end.

(** [BootstrapNodeThread.handle_node_request]: [None] when the fuel ran out
    inside the loop; otherwise how the call ended, the state, and the
    number of nodes spawned. *)
Definition handle_node_request (fuel : nat) (startup : nat -> Py.pyval * Py.pyval)
    (messages : list string) (st : state)
  : option (Node.outcome unit * state * nat) :=
  match messages with
  | _ :: requester :: wanted :: _ =>
      match select_or_spawn fuel startup wanted 0 (thread_manager st) with
      | None => None
      | Some (None, tm, spawned) =>
          Some (Node.Returned tt, mk_state tm (write_handler st), spawned)
      | Some (Some node, tm, spawned) =>
          Some (Node.Returned tt,
                mk_state tm
                  (Node.push_message
                     ("NODE_FIND_SUCCESS|" ++ requester ++ "|" ++ wanted ++ "|"
                      ++ node_address tm node)
                     (write_handler st)),
                spawned)
      end
  | _ => Some (Node.Raised "IndexError", st, 0)
  end.

(** [BootstrapNodeThread.__init__]: the four handshake fields become the
    [conn_] attributes (as texts), the load starts at 1, and the new object
    registers itself.  [IndexError] on a shorter handshake comes before the
    registration.  The result is the identity of the new object. *)
Definition BootstrapNodeThread_init (handshake_args : list string)
    (tm : Node.NodeThreadManager) : Node.outcome nat * Node.NodeThreadManager :=
  match handshake_args with
  | type :: name :: host :: port :: _ =>
      let self := fresh_id tm in
      (Node.Returned self,
       Node.register self
         (Node.mk_manager
            (<[self := Node.mk_node type name (Py.PyStr host) (Py.PyStr port) 1]>
               (Node.objects tm))
            (Node.node_threads tm)))
  | _ => (Node.Raised "IndexError", tm)
  end.

(** [self.load = value] on the thread object [self]. *)
Definition set_own_load (self : nat) (value : Z) (tm : Node.NodeThreadManager)
  : Node.NodeThreadManager :=
  Node.mk_manager (alter (fun n => Node.set_load n value) self (Node.objects tm))
    (Node.node_threads tm).

(** [BootstrapNodeThread.read] for the thread object [self], on a socket
    that is open when the call starts.  The result is how the call ends,
    the state, the number of nodes spawned, and whether the socket was
    unregistered from the selector and closed; [None] when the fuel ran out
    inside [handle_node_request]. *)
Definition read (fuel : nat) (startup : nat -> Py.pyval * Py.pyval) (self : nat)
    (event : Node.recv_event) (st : state)
  : option (Node.outcome unit * state * nat * bool) :=
  match event with
  | Node.Blocking => Some (Node.Raised "BlockingIOError", st, 0, false)
  | Node.Fails exn => Some (Node.Raised exn, st, 0, false)
  | Node.Data recv_data =>
      if String.eqb recv_data "" then
        Some (Node.Returned tt,
              mk_state (Node.unregister self (thread_manager st)) (write_handler st),
              0, true)
      else
        let messages := Py.split "|" recv_data in
        match messages with
        | [] => Some (Node.Raised "IndexError", st, 0, false)
        | opcode :: args =>
            if String.eqb opcode "NODE_LOAD_UPDATED" then
              match args with
              | [] => Some (Node.Raised "IndexError", st, 0, false)
              | value :: _ =>
                  match Py.int_of_str value with
                  | None => Some (Node.Raised "ValueError", st, 0, false)
                  | Some n =>
                      Some (Node.Returned tt,
                            mk_state (set_own_load self n (thread_manager st))
                              (write_handler st),
                            0, false)
                  end
              end
            else if String.eqb opcode "NODE_REQUEST" then
              match handle_node_request fuel startup messages st with
              | None => None
              | Some (o, st, spawned) => Some (o, st, spawned, false)
              end
            else Some (Node.Returned tt, st, 0, false)
        end
  end.


End BootstrapNode.

(** ** hashlib.md5 and struct.pack("I", ...) *)

Module Hashlib.

Local Open Scope Z_scope.

Definition K : list Z :=
  [3614090360; 3905402710; 606105819; 3250441966; 4118548399; 1200080426; 2821735955; 4249261313;
   1770035416; 2336552879; 4294925233; 2304563134; 1804603682; 4254626195; 2792965006; 1236535329;
   4129170786; 3225465664; 643717713; 3921069994; 3593408605; 38016083; 3634488961; 3889429448;
   568446438; 3275163606; 4107603335; 1163531501; 2850285829; 4243563512; 1735328473; 2368359562;
   4294588738; 2272392833; 1839030562; 4259657740; 2763975236; 1272893353; 4139469664; 3200236656;
   681279174; 3936430074; 3572445317; 76029189; 3654602809; 3873151461; 530742520; 3299628645;
   4096336452; 1126891415; 2878612391; 4237533241; 1700485571; 2399980690; 4293915773; 2240044497;
   1873313359; 4264355552; 2734768916; 1309151649; 4149444226; 3174756917; 718787259; 3951481745].

Definition shifts : list Z :=
  [7; 12; 17; 22; 7; 12; 17; 22; 7; 12; 17; 22; 7; 12; 17; 22;
   5; 9; 14; 20; 5; 9; 14; 20; 5; 9; 14; 20; 5; 9; 14; 20;
   4; 11; 16; 23; 4; 11; 16; 23; 4; 11; 16; 23; 4; 11; 16; 23;
   6; 10; 15; 21; 6; 10; 15; 21; 6; 10; 15; 21; 6; 10; 15; 21].

Definition wrap (x : Z) : Z := x mod 2 ^ 32.
Definition not32 (x : Z) : Z := Z.lxor x (2 ^ 32 - 1).
Definition rotl (x s : Z) : Z := Z.lor (wrap (Z.shiftl x s)) (Z.shiftr x (32 - s)).

(** One of the 64 operations on the working registers [(A, B, C, D)]. *)
Definition step (M : list Z) (st : Z * Z * Z * Z) (i : nat) : Z * Z * Z * Z :=
  let '(a, b, c, d) := st in
  let '(f, g) :=
    if (i <? 16)%nat then (Z.lor (Z.land b c) (Z.land (not32 b) d), i)
    else if (i <? 32)%nat then (Z.lor (Z.land d b) (Z.land (not32 d) c), ((5 * i + 1) mod 16)%nat)
    else if (i <? 48)%nat then (Z.lxor (Z.lxor b c) d, ((3 * i + 5) mod 16)%nat)
    else (Z.lxor c (Z.lor b (not32 d)), ((7 * i) mod 16)%nat) in
  let f := wrap (f + a + nth i K 0 + nth g M 0) in
  (d, wrap (b + rotl f (nth i shifts 0)), b, c).

(** The sixteen little-endian words of a 64-byte block. *)
Fixpoint words (n : nat) (block : list byte) : list Z :=
  match n with
  | O => []
  | S n' => le_combine (firstn 4 block) :: words n' (skipn 4 block)
  end.

Definition process_block (st : Z * Z * Z * Z) (block : list byte) : Z * Z * Z * Z :=
  let '(a0, b0, c0, d0) := st in
  let '(a, b, c, d) := fold_left (step (words 16 block)) (seq 0 64) st in
  (wrap (a0 + a), wrap (b0 + b), wrap (c0 + c), wrap (d0 + d)).

(** The message, a [0x80] byte, zeros up to 56 modulo 64, and the bit length
    on eight bytes. *)
Definition pad (msg : list byte) : list byte :=
  let len := Z.of_nat (length msg) in
  (msg ++ [byte.of_Z 128] ++ repeat (byte.of_Z 0) (Z.to_nat ((55 - len) mod 64))
   ++ le_split 8 (8 * len))%list.

Fixpoint blocks (n : nat) (l : list byte) : list (list byte) :=
  match n with
  | O => []
  | S n' => firstn 64 l :: blocks n' (skipn 64 l)
  end.

(** [hashlib.md5(msg).digest()]. *)
Definition md5 (msg : list byte) : list byte :=
  let padded := pad msg in
  let '(a, b, c, d) :=
    fold_left process_block (blocks (length padded / 64) padded)
      (1732584193, 4023233417, 2562383102, 271733878) in
  (le_split 4 a ++ le_split 4 b ++ le_split 4 c ++ le_split 4 d)%list.

End Hashlib.

Module Struct.

(** [struct.pack("I", n)]: four bytes in native order (little-endian on the
    platforms the code runs on); [struct.error] beyond 32 bits. *)
Definition pack_I (n : Z) : option (list byte) :=
  if ((0 <=? n) && (n <? 2 ^ 32))%Z then Some (le_split 4 n) else None.

(** [struct.unpack("I", b)[0]] for a four-byte [b]. *)
Definition unpack_I (b : list byte) : Z := le_combine b.

End Struct.

(** ** Server/ServerNodes/ContentNode.py *)

Module ContentNodeAuthManager.

(** [(auth_host, auth_port) in cls._available_auth_nodes]. *)
Definition known (auth_host : string) (auth_port : Z) (_available_auth_nodes : list (string * Z))
  : bool :=
  bool_decide ((auth_host, auth_port) ∈ _available_auth_nodes).

(** [add_auth_node]. *)
Definition add_auth_node (auth_host : string) (auth_port : Z)
    (_available_auth_nodes : list (string * Z)) : list (string * Z) :=
  if known auth_host auth_port _available_auth_nodes then _available_auth_nodes
  else (_available_auth_nodes ++ [(auth_host, auth_port)])%list.

(** [list.remove(x)]: the first occurrence goes. *)
Fixpoint remove_first (x : string * Z) (l : list (string * Z)) : list (string * Z) :=
  match l with
  | [] => []
  | y :: l' => if bool_decide (y = x) then l' else y :: remove_first x l'
  end.

(** [remove_auth_node]. *)
Definition remove_auth_node (auth_host : string) (auth_port : Z)
    (_available_auth_nodes : list (string * Z)) : list (string * Z) :=
  if known auth_host auth_port _available_auth_nodes
  then remove_first (auth_host, auth_port) _available_auth_nodes
  else _available_auth_nodes.

(** [get_auth_nodes]: the loop spins while the list is empty ([None]: the
    call does not return unless another thread adds an address). *)
Definition get_auth_nodes (_available_auth_nodes : list (string * Z))
  : option (list (string * Z)) :=
  match _available_auth_nodes with
  | [] => None
  | _ => Some _available_auth_nodes
  end.

End ContentNodeAuthManager.

Module ContentNode.

(** A readable WAV file: [getframerate()], and what [readframes(1024)]
    returns call after call ([b""] once the list is used up). *)
Record wave_file := mk_wave {
  framerate : Z;
  frames : list (list byte) }.

(** What one turn of the streaming loop meets at the socket: [select]
    reports it writable and [sendall] succeeds; [select] reports no event
    (and [fileno()] is or is not [-1]); or [select]/[sendall] raises. *)
Inductive write_ready :=
| Writable
| NoEvents (closed : bool)
| Failing.

(** The surroundings of a connection thread: the directory listing
    ([os.listdir]), the files that open as WAV ([wave.open] raises on the
    others), the socket during streaming, the Auth addresses known to
    [ContentNodeAuthManager], the connection attempts towards Auth, and the
    place each string takes when a [set] is iterated (which the hash seed
    of the interpreter decides). *)
Record environment := mk_env {
  listdir : list string;
  wave_open : string -> option wave_file;
  ready : nat -> write_ready;
  _available_auth_nodes : list (string * Z);
  connecting : nat -> Node.attempt;
  place_in_set : string -> Z }.

Record state := mk_state {
  client_cookie : option string;
  music_files : gset string;
  file_to_stream : option string;
  stream_mode : bool;
  auth_address : option (string * Z);
  auth_sock : option nat;
  load : Z;
  write_handler : Node.NodeWriteHandler }.

Definition push (m : string) (st : state) : state :=
  mk_state (client_cookie st) (music_files st) (file_to_stream st) (stream_mode st)
    (auth_address st) (auth_sock st) (load st) (Node.push_message m (write_handler st)).

Definition set_music_files (s : gset string) (st : state) : state :=
  mk_state (client_cookie st) s (file_to_stream st) (stream_mode st)
    (auth_address st) (auth_sock st) (load st) (write_handler st).

Definition set_file_to_stream (f : string) (st : state) : state :=
  mk_state (client_cookie st) (music_files st) (Some f) (stream_mode st)
    (auth_address st) (auth_sock st) (load st) (write_handler st).

Definition set_stream_mode (b : bool) (st : state) : state :=
  mk_state (client_cookie st) (music_files st) (file_to_stream st) b
    (auth_address st) (auth_sock st) (load st) (write_handler st).

(** The set comprehension of [get_music_files]. *)
Definition catalog (files : list string) : gset string :=
  list_to_set
    (map (fun file => Py.lower (fst (Py.splitext file)))
       (List.filter (fun file => Py.endswith (Py.lower file) ".wav") files)).

(** [get_music_files]. *)
Definition get_music_files (files : list string) (st : state) : bool * state :=
  match files with
  | [] => (false, push "NO_FILES_AVAILABLE" st)
  | _ => (true, set_music_files (catalog files) st)
  end.

(** Iterating a [set] of strings yields every element once, in an order
    that is not the program's to choose.  The elements come by increasing
    [place]; every order of a given set is the order of some [place]. *)
Definition comes_before (place : string -> Z) (a b : string) : Prop :=
  (place a <= place b)%Z.

#[global] Instance comes_before_dec place a b : Decision (comes_before place a b) :=
  decide (place a <= place b)%Z.

Definition iteration (place : string -> Z) (s : gset string) : list string :=
  merge_sort (comes_before place) (elements s).

(** [process_file_request]; the join follows the iteration order of the set. *)
Definition process_file_request (place : string -> Z) (files : list string) (st : state)
  : state :=
  match get_music_files files st with
  | (false, st) => st
  | (true, st) =>
      let response := Py.join "|" (iteration place (music_files st)) in
      push ("FILES_AVAILABLE|" ++ response) st
  end.

(** The rate reported for a file whose [getframerate()] is [rate]. *)
Definition reported_rate (rate : Z) : Py.pyval :=
  if (rate =? 22050)%Z then Py.truediv2 rate else Py.PyInt rate.

(** One streaming frame. *)
Definition frame (chunk_data : list byte) : option (list byte) :=
  match Struct.pack_I (Z.of_nat (length chunk_data)) with
  | Some size => Some (Hashlib.md5 chunk_data ++ size ++ chunk_data)%list
  | None => None
  end.

(** The streaming loop over the chunks still to be read; [i] counts the
    turns.  The result lists what [sendall] was given, call by call. *)
Fixpoint stream_chunks (chunks : list (list byte)) (ready : nat -> write_ready) (i : nat)
  : list (list byte) :=
  match chunks with
  | [] => []
  | chunk_data :: chunks' =>
      match chunk_data with
      | [] => []
      | _ =>
          match ready i with
          | Failing => []
          | NoEvents true => []
          | NoEvents false => stream_chunks chunks' ready (S i)
          | Writable =>
              match frame chunk_data with
              | Some f => f :: stream_chunks chunks' ready (S i)
              | None => []
              end
          end
      end
  end.

(** The branch [messages[0] == "FILE_NAME"] of [handle_client]. *)
Definition handle_file_name (env : environment) (messages : list string) (st : state)
  : Node.outcome unit * state :=
  match get_music_files (listdir env) st with
  | (false, st) => (Node.Returned tt, st)
  | (true, st) =>
      match messages with
      | _ :: name :: _ =>
          if bool_decide (name ∈ music_files st) then
            let formatted_file := name ++ ".wav" in
            match List.find (fun file => String.eqb (Py.lower file) formatted_file)
                    (listdir env) with
            | None => (Node.Raised "StopIteration", st)
            | Some file =>
                let st := set_file_to_stream file st in
                match wave_open env file with
                | None => (Node.Raised "wave.Error", st)
                | Some waveform =>
                    let response :=
                      "STREAM_MODE_ENTER|" ++ Py.str (reported_rate (framerate waveform)) in
                    (Node.Returned tt, push response (set_stream_mode true st))
                end
            end
          else (Node.Returned tt, push "FILE_NAME_INVALID" st)
      | _ => (Node.Raised "IndexError", st)
      end
  end.

(** The branch [messages[0] == "CLIENT_COOKIE"]: [get_auth_nodes] spins
    while no Auth address is known ([None]: the call does not return). *)
Definition handle_client_cookie (env : environment) (me : Node.identity)
    (messages : list string) (st : state) : option (Node.outcome unit * state) :=
  match messages with
  | _ :: cookie :: _ =>
      match _available_auth_nodes env with
      | [] => None
      | auth_node :: _ =>
          let st := mk_state (Some cookie) (music_files st) (file_to_stream st)
                      (stream_mode st) (Some auth_node) (auth_sock st) (load st)
                      (write_handler st) in
          match fst (Node.connect_to_node me (connecting env)) with
          | Node.Raised e => Some (Node.Raised e, st)
          | Node.Returned sock =>
              Some (Node.Returned tt,
                    push "CHECKING_COOKIE"
                      (mk_state (client_cookie st) (music_files st) (file_to_stream st)
                         (stream_mode st) (auth_address st) sock (load st + 1)
                         (write_handler st)))
          end
      end
  | _ => Some (Node.Raised "IndexError", st)
  end.

(** [ContentNodeThread.handle_client]: how the call ends, the state after
    it, and the frames given to [sendall]. *)
Definition handle_client (env : environment) (me : Node.identity)
    (messages : list string) (st : state)
  : option (Node.outcome unit * state * list (list byte)) :=
  match messages with
  | [] => Some (Node.Returned tt, st, [])
  | opcode :: _ =>
      if String.eqb opcode "CLIENT_COOKIE" then
        match handle_client_cookie env me messages st with
        | Some (o, st) => Some (o, st, [])
        | None => None
        end
      else if String.eqb opcode "FILE_REQUEST" then
        Some (Node.Returned tt, process_file_request (place_in_set env) (listdir env) st, [])
      else if String.eqb opcode "FILE_NAME" then
        let '(o, st) := handle_file_name env messages st in Some (o, st, [])
      else if (String.eqb opcode "CLIENT_STREAM_MODE_ENTER" && stream_mode st)%bool then
        match file_to_stream st with
        | None => Some (Node.Raised "TypeError", st, [])
        | Some file =>
            match wave_open env file with
            | None => Some (Node.Raised "wave.Error", st, [])
            | Some waveform =>
                Some (Node.Returned tt, st, stream_chunks (frames waveform) (ready env) 0)
            end
        end
      else if (String.eqb opcode "CLIENT_STREAM_MODE_LEAVE" && stream_mode st)%bool then
        Some (Node.Returned tt,
              process_file_request (place_in_set env) (listdir env)
                (set_stream_mode false st), [])
      else if String.eqb opcode "DISCONNECT" then
        Some (Node.Returned tt,
              mk_state (client_cookie st) (music_files st) (file_to_stream st)
                (stream_mode st) (auth_address st) (auth_sock st) (load st)
                (Node.kill_connection (write_handler st)), [])
      else Some (Node.Returned tt, st, [])
  end.

(** [f"{self.auth_host}"] and [f"{self.auth_port}"]: both attributes are
    set together, from one stored address, and cleared together. *)
Definition auth_host_text (st : state) : string :=
  match auth_address st with
  | Some (auth_host, _) => auth_host
  | None => "None"
  end.
Definition auth_port_text (st : state) : string :=
  match auth_address st with
  | Some (_, auth_port) => Py.str_of_Z auth_port
  | None => "None"
  end.

(** [disconnect_from_auth_node]. *)
Definition disconnect_from_auth_node (st : state) : state :=
  let st := push ("DISCONNECT|" ++ auth_host_text st ++ "|" ++ auth_port_text st) st in
  mk_state (client_cookie st) (music_files st) (file_to_stream st) (stream_mode st)
    None None (load st - 1) (write_handler st).

(** [ContentNodeThread.handle_auth]. *)
Definition handle_auth (messages : list string) (st : state) : state :=
  match messages with
  | [] => st
  | opcode :: _ =>
      if String.eqb opcode "COOKIE_CHECK" then
        push ("AUTH_COOKIE|" ++ match client_cookie st with
                                | Some cookie => cookie
                                | None => "None"
                                end) st
      else if String.eqb opcode "COOKIE_VALID" then
        push "COOKIE_CHECK_SUCCESS" (disconnect_from_auth_node st)
      else if String.eqb opcode "COOKIE_INVALID" then
        push "COOKIE_CHECK_FAIL" (disconnect_from_auth_node st)
      else st
  end.

(** The start of [ContentNodeThread.run]. *)
Definition run_greeting (conn_type : string) (st : state) : state :=
  if String.eqb conn_type "CLIENT" then push "COOKIE_REQUEST" st else st.

(** The socket of a ready event: the one the thread was created for
    ([self.sock]), or one opened later by [connect_to_node]. *)
Inductive fileobj :=
| OwnSocket
| Connection (sock : nat).

Definition is_auth_sock (key : fileobj) (st : state) : bool :=
  match key, auth_sock st with
  | Connection s, Some s' => Nat.eqb s s'
  | _, _ => false
  end.

(** [ContentNodeThread.read] for the thread object [self], on a socket that
    is open when the call starts.  The result is how the call ends, the
    state, the frames given to [sendall], the registry of the module, and
    whether the socket was unregistered from the selector and closed. *)
Definition read (env : environment) (me : Node.identity) (conn_type : string) (self : nat)
    (key : fileobj) (event : Node.recv_event) (tm : Node.NodeThreadManager) (st : state)
  : option (Node.outcome unit * state * list (list byte) * Node.NodeThreadManager * bool) :=
  match event with
  | Node.Blocking => Some (Node.Raised "BlockingIOError", st, [], tm, false)
  | Node.Fails exn => Some (Node.Raised exn, st, [], tm, false)
  | Node.Data recv_data =>
      if String.eqb recv_data "" then
        Some (Node.Returned tt, st, [], Node.unregister self tm, true)
      else
        let messages := Py.split "|" recv_data in
        if (String.eqb conn_type "CLIENT"
            && match key with OwnSocket => true | Connection _ => false end)%bool then
          match handle_client env me messages st with
          | None => None
          | Some (o, st, sent) => Some (o, st, sent, tm, false)
          end
        else if (String.eqb conn_type "CLIENT" && is_auth_sock key st)%bool then
          Some (Node.Returned tt, handle_auth messages st, [], tm, false)
        else Some (Node.Returned tt, st, [], tm, false)
  end.

(** [ContentNode.read], the reader of the main thread: [from_prime] tells
    whether the peer of the socket is [(prime_host, prime_port)].  The
    result is how the call ends, the addresses known to
    [ContentNodeAuthManager], and whether the socket was closed. *)
Definition node_read (from_prime : bool) (event : Node.recv_event)
    (_available_auth_nodes : list (string * Z))
  : Node.outcome unit * list (string * Z) * bool :=
  match event with
  | Node.Blocking => (Node.Raised "BlockingIOError", _available_auth_nodes, false)
  | Node.Fails exn => (Node.Raised exn, _available_auth_nodes, false)
  | Node.Data recv_data =>
      if String.eqb recv_data "" then (Node.Returned tt, _available_auth_nodes, true)
      else
        let messages := Py.split "|" recv_data in
        if from_prime then
          match messages with
          | opcode :: addressee :: rest =>
              if String.eqb addressee "CONTENT" then
                if String.eqb opcode "NODE_FIND_SUCCESS" then
                  match rest with
                  | _ :: auth_host :: auth_port :: _ =>
                      match Py.int_of_str auth_port with
                      | Some port =>
                          (Node.Returned tt,
                           ContentNodeAuthManager.add_auth_node auth_host port
                             _available_auth_nodes,
                           false)
                      | None => (Node.Raised "ValueError", _available_auth_nodes, false)
                      end
                  | _ => (Node.Raised "IndexError", _available_auth_nodes, false)
                  end
                else (Node.Returned tt, _available_auth_nodes, false)
              else (Node.Returned tt, _available_auth_nodes, false)
          | _ => (Node.Raised "IndexError", _available_auth_nodes, false)
          end
        else (Node.Returned tt, _available_auth_nodes, false)
  end.



End ContentNode.

(** ** Client/ClientNodes/ClientNode.py *)

Module ClientNode.

(** What one [recv] on the non-blocking socket does: it returns bytes
    ([b""] once the peer has closed) or raises [BlockingIOError]. *)
Inductive recv_result :=
| Recv (packet : list byte)
| BlockingIOError.

(** The socket as the receiver meets it: the results of the coming [recv]
    calls, and what every call after them does, either [b""] (the peer has
    closed) or [BlockingIOError] (the peer is silent). *)
Record socket := mk_socket {
  pending : list recv_result;
  peer_closed : bool }.

Definition recv (s : socket) : recv_result * socket :=
  match pending s with
  | r :: q => (r, mk_socket q (peer_closed s))
  | [] => (if peer_closed s then Recv [] else BlockingIOError, s)
  end.

#[global] Instance byte_eq_dec : EqDecision byte := Byte.byte_eq_dec.

(** How the streaming loop is left: by [break] on a checksum mismatch, or
    by an exception caught by [except Exception]. *)
Inductive stream_end :=
| Corrupted
| Caught (exn : string).

Definition header_size : nat := 4.

(** [while len(data) < header_size + 16]: one [recv] per unit of fuel. *)
Fixpoint recv_header (fuel : nat) (data : list byte) (s : socket)
  : option (string + list byte * socket) :=
  if (length data <? header_size + 16)%nat then
    match fuel with
    | O => None
    | S fuel' =>
        match recv s with
        | (BlockingIOError, s') => Some (inl "BlockingIOError")
        | (Recv [], s') => Some (inl "RuntimeError")
        | (Recv packet, s') => recv_header fuel' (data ++ packet) s'
        end
    end
  else Some (inr (data, s)).

(** [while len(data) < msg_size]: [BlockingIOError] is passed over, and an
    empty [recv] result is appended like any other. *)
Fixpoint recv_payload (fuel : nat) (msg_size : Z) (data : list byte) (s : socket)
  : option (list byte * socket) :=
  if (Z.of_nat (length data) <? msg_size)%Z then
    match fuel with
    | O => None
    | S fuel' =>
        match recv s with
        | (BlockingIOError, s') => recv_payload fuel' msg_size data s'
        | (Recv packet, s') => recv_payload fuel' msg_size (data ++ packet) s'
        end
    end
  else Some (data, s).

(** The outer [while True] of [handle_stream_mode]: how it is left and
    what was written to the audio stream. *)
Fixpoint stream_loop (fuel : nat) (data : list byte) (s : socket)
    (played : list (list byte)) : option (stream_end * list (list byte)) :=
  match fuel with
  | O => None
  | S fuel' =>
      match recv_header fuel' data s with
      | None => None
      | Some (inl exn) => Some (Caught exn, played)
      | Some (inr (data, s)) =>
          let md5_checksum := firstn 16 data in
          let data := skipn 16 data in
          let packet_msg_size := firstn header_size data in
          let data := skipn header_size data in
          let msg_size := Struct.unpack_I packet_msg_size in
          match recv_payload fuel' msg_size data s with
          | None => None
          | Some (data, s) =>
              let payload := firstn (Z.to_nat msg_size) data in
              let recv_checksum := Hashlib.md5 payload in
              if bool_decide (recv_checksum = md5_checksum)
              then stream_loop fuel' (skipn (Z.to_nat msg_size) data) s (played ++ [payload])
              else Some (Corrupted, played)
          end
      end
  end.

Record state := mk_state {
  cookie : Py.pyval;
  content_host : Py.pyval;
  content_port : Py.pyval;
  stream_mode : bool;
  music_rate : Z;
  write_handler : Node.NodeWriteHandler }.

Definition push (m : string) (st : state) : state :=
  mk_state (cookie st) (content_host st) (content_port st) (stream_mode st)
    (music_rate st) (Node.push_message m (write_handler st)).

Definition set_stream_mode (b : bool) (st : state) : state :=
  mk_state (cookie st) (content_host st) (content_port st) b
    (music_rate st) (write_handler st).

(** [handle_stream_mode]: [None] while the loop has not ended within the
    fuel; otherwise how it ended, what was played, and the state after the
    [finally] block. *)
Definition handle_stream_mode (fuel : nat) (s : socket) (st : state)
  : option (stream_end * list (list byte) * state) :=
  match stream_loop fuel [] s [] with
  | None => None
  | Some (e, played) =>
      Some (e, played, push "CLIENT_STREAM_MODE_LEAVE" (set_stream_mode false st))
  end.

(** [handle_content]; [typed] is what [input()] returns when it is asked. *)
Definition handle_content (typed : string) (messages : list string) (st : state)
  : Node.outcome unit * state :=
  match messages with
  | [] => (Node.Returned tt, st)
  | opcode :: args =>
      if String.eqb opcode "COOKIE_REQUEST" then
        (Node.Returned tt, push ("CLIENT_COOKIE|" ++ Py.str (cookie st)) st)
      else if String.eqb opcode "CHECKING_COOKIE" then (Node.Returned tt, st)
      else if String.eqb opcode "COOKIE_CHECK_SUCCESS" then
        (Node.Returned tt, push "FILE_REQUEST" st)
      else if String.eqb opcode "COOKIE_CHECK_FAIL" then
        (Node.Returned tt,
         push ("DISCONNECT|" ++ Py.str (content_host st) ++ "|" ++ Py.str (content_port st)) st)
      else if String.eqb opcode "FILES_AVAILABLE" then
        let response := Py.strip typed in
        (Node.Returned tt, push ("FILE_NAME|" ++ Py.lower response) st)
      else if String.eqb opcode "NO_FILES_AVAILABLE" then
        (Node.Returned tt, push "FILE_REQUEST" st)
      else if String.eqb opcode "FILE_NAME_INVALID" then
        (Node.Returned tt, push "FILE_REQUEST" st)
      else if String.eqb opcode "STREAM_MODE_ENTER" then
        let st := set_stream_mode true st in
        match args with
        | [] => (Node.Raised "IndexError", st)
        | rate :: _ =>
            match Py.int_of_float_text rate with
            | None => (Node.Raised "ValueError", st)
            | Some r =>
                (Node.Returned tt,
                 push "CLIENT_STREAM_MODE_ENTER"
                   (mk_state (cookie st) (content_host st) (content_port st)
                      (stream_mode st) r (write_handler st)))
            end
        end
      else (Node.Returned tt, st)
  end.

(** The attributes of the client object that the handlers above do not
    read: where its Auth connection goes, and the two sockets. *)
Record links := mk_links {
  auth_host : Py.pyval;
  auth_port : Py.pyval;
  auth_sock : option nat;
  content_sock : option nat }.

(** [handle_prime]: [network host port] is what the operating system
    answers to the connection attempts towards that address.  The result is
    how the call ends, the client after it, and what [connect_to_node] did
    ([None] when it was not called). *)
Definition handle_prime (me : Node.identity) (network : string -> Z -> nat -> Node.attempt)
    (messages : list string) (st : state) (ln : links)
  : Node.outcome unit * state * links * option Node.effects :=
  match messages with
  | opcode :: addressee :: rest =>
      if String.eqb addressee "CLIENT" then
        if String.eqb opcode "NODE_FIND_SUCCESS" then
          match rest with
          | role :: host :: port_text :: _ =>
              match Py.int_of_str port_text with
              | None => (Node.Raised "ValueError", st, ln, None)
              | Some port =>
                  match Node.connect_to_node me (network host port) with
                  | (Node.Raised exn, fx) => (Node.Raised exn, st, ln, Some fx)
                  | (Node.Returned new_sock, fx) =>
                      if String.eqb role "AUTH" then
                        (Node.Returned tt, st,
                         mk_links (Py.PyStr host) (Py.PyInt port) new_sock (content_sock ln),
                         Some fx)
                      else if String.eqb role "CONTENT" then
                        (Node.Returned tt,
                         mk_state (cookie st) (Py.PyStr host) (Py.PyInt port) (stream_mode st)
                           (music_rate st) (write_handler st),
                         mk_links (auth_host ln) (auth_port ln) (auth_sock ln) new_sock,
                         Some fx)
                      else (Node.Returned tt, st, ln, Some fx)
                  end
              end
          | _ => (Node.Raised "IndexError", st, ln, None)
          end
        else (Node.Returned tt, st, ln, None)
      else (Node.Returned tt, st, ln, None)
  | _ => (Node.Raised "IndexError", st, ln, None)
  end.

(** [handle_auth]: [typed] is how [input()] ends when it is asked.  The
    result is how the call ends, the client after it, and whether the
    socket was unregistered from the selector and closed. *)
Definition handle_auth (typed : Node.outcome string) (messages : list string)
    (st : state) (ln : links) : Node.outcome unit * state * bool :=
  let disconnect :=
    "DISCONNECT|" ++ Py.str (auth_host ln) ++ "|" ++ Py.str (auth_port ln) in
  match messages with
  | [] => (Node.Returned tt, st, false)
  | opcode :: args =>
      if String.eqb opcode "LOGIN_REQUEST" then
        match typed with
        | Node.Returned text =>
            (Node.Returned tt, push ("LOGIN_DATA|" ++ Py.strip text) st, false)
        | Node.Raised exn =>
            if String.eqb exn "UnicodeDecodeError" then (Node.Returned tt, st, true)
            else if String.eqb exn "KeyboardInterrupt" then (Node.Returned tt, st, false)
            else (Node.Raised exn, st, false)
        end
      else if String.eqb opcode "LOGIN_SUCCESS" then
        match args with
        | [] => (Node.Raised "IndexError", st, false)
        | new_cookie :: _ =>
            let st := mk_state (Py.PyStr new_cookie) (content_host st) (content_port st)
                        (stream_mode st) (music_rate st) (write_handler st) in
            (Node.Returned tt, push "NODE_REQUEST|CLIENT|CONTENT" (push disconnect st), false)
        end
      else if String.eqb opcode "LOGIN_FAIL" then
        (Node.Returned tt, push disconnect st, false)
      else (Node.Returned tt, st, false)
  end.


End ClientNode.

(** * Vocabulary of the properties, and sample inputs *)

(** [r] is a registered entry of role [ct], and [n] is its object. *)
Definition registered_as (tm : Node.NodeThreadManager) (ct : string) (r : nat)
    (n : Node.node) : Prop :=
  r ∈ Node.node_threads tm /\ Node.objects tm !! r = Some n /\ Node.conn_type n = ct.

(** The attempt that goes through: socket created, writable, handshake sent. *)
Definition succeeds (a : Node.attempt) : Prop :=
  a = Node.mk_attempt Node.Opened Node.Ready Node.Sent.

(** The [k]-th candidate the cookie loop draws when it starts at position
    [pos]. *)
Definition candidate (draws : AuthNode.generator) (pos k : nat) : string :=
  AuthNode.random_string draws (pos + k * length AuthNode._chars) (length AuthNode._chars).

(** A packet whose opcode is [LOGIN_DATA]. *)
Definition is_login (recv_data : string) : Prop :=
  exists args, Py.split "|" recv_data = "LOGIN_DATA" :: args.

(** A run of login flows: connection thread [i] receives the packet
    [packets i] (a [LOGIN_DATA] packet in a login flow) and handles it with
    its own, fresh write handler over the shared cookie list and generator.
    The result lists, in order, what each thread queued. *)
Fixpoint login_flows (fuel : nat) (draws : AuthNode.generator) (packets : list string)
    (pos : nat) (cookies : list string)
  : option (list (list string) * nat * list string) :=
  match packets with
  | [] => Some ([], pos, cookies)
  | recv_data :: packets' =>
      match AuthNode.handle_client fuel draws (Py.split "|" recv_data)
              (AuthNode.mk_state cookies pos (Node.mk_writer true [])) with
      | None => None
      | Some st =>
          match login_flows fuel draws packets' (AuthNode.rng_pos st)
                  (AuthNode._client_cookies st) with
          | None => None
          | Some (queued, pos', cookies') =>
              Some (Node.out_buffer (AuthNode.write_handler st) :: queued, pos', cookies')
          end
      end
  end.

(** The characters a-z, A-Z and 0-9. *)
Definition is_alnum (c : ascii) : bool :=
  let n := nat_of_ascii c in
  ((Nat.leb 97 n && Nat.leb n 122) || (Nat.leb 65 n && Nat.leb n 90)
   || (Nat.leb 48 n && Nat.leb n 57))%bool.

(** [c in s]. *)
Fixpoint has_char (c : ascii) (s : string) : bool :=
  match s with
  | EmptyString => false
  | String a s' => (Ascii.eqb a c || has_char c s')%bool
  end.

(** The text that a literal of this file spells.  The literals are UTF-8,
    in which a code point from 128 to 255 takes two bytes (194 or 195, then
    a byte from 128 to 191); these become the one character of that code
    point.  Literals of ASCII characters are left as they are. *)
Fixpoint text (literal : string) : string :=
  match literal with
  | EmptyString => EmptyString
  | String c rest =>
      match rest with
      | String d rest' =>
          if Nat.eqb (nat_of_ascii c) 194 then String d (text rest')
          else if Nat.eqb (nat_of_ascii c) 195
          then String (ascii_of_nat (nat_of_ascii d + 64)) (text rest')
          else String c (text rest)
      | EmptyString => String c EmptyString
      end
  end.

(** The place of a string in a list: the index of its first occurrence. *)
Fixpoint place_of (l : list string) (a : string) : Z :=
  match l with
  | [] => 0
  | x :: l' => if String.eqb a x then 0 else 1 + place_of l' a
  end.

(** The client after its streaming loop was left: [stream_mode] is cleared
    and [CLIENT_STREAM_MODE_LEAVE] stands at the end of its queue; and the
    client with one more message at the end of its queue. *)
Definition client_queued (m : string) (st : ClientNode.state) : ClientNode.state :=
  ClientNode.mk_state (ClientNode.cookie st) (ClientNode.content_host st)
    (ClientNode.content_port st) (ClientNode.stream_mode st) (ClientNode.music_rate st)
    (Node.mk_writer (Node.running (ClientNode.write_handler st))
       (Node.out_buffer (ClientNode.write_handler st) ++ [m])).
Definition after_stream (st : ClientNode.state) : ClientNode.state :=
  ClientNode.mk_state (ClientNode.cookie st) (ClientNode.content_host st)
    (ClientNode.content_port st) false (ClientNode.music_rate st)
    (Node.mk_writer (Node.running (ClientNode.write_handler st))
       (Node.out_buffer (ClientNode.write_handler st) ++ ["CLIENT_STREAM_MODE_LEAVE"])).

(** The bytes of the frame of a payload. *)
Definition frame_bytes (payload : list byte) : list byte :=
  (Hashlib.md5 payload ++ le_split 4 (Z.of_nat (length payload)) ++ payload)%list.

(** A socket that delivers the given packets, then nothing more. *)
Definition delivering (packets : list (list byte)) (peer_closed : bool)
  : ClientNode.socket :=
  ClientNode.mk_socket (map ClientNode.Recv packets) peer_closed.

(** What ends the receiver's loop when [recv] has nothing to give. *)
Definition starved (peer_closed : bool) : string :=
  if peer_closed then "RuntimeError" else "BlockingIOError".

(** A registry with two Auth entries of equal load and one Content entry. *)
Definition registry_example : Node.NodeThreadManager :=
  Node.mk_manager
    (<[0 := Node.mk_node "AUTH" "auth1" (Py.PyStr "10.0.0.1") (Py.PyInt 5001) 1]>
       (<[1 := Node.mk_node "AUTH" "auth1" (Py.PyStr "10.0.0.2") (Py.PyInt 5002) 1]>
          (<[2 := Node.mk_node "CONTENT" "content1" (Py.PyStr "10.0.0.3") (Py.PyInt 5003) 0]> ∅)))
    [0; 1; 2].

(** A generator whose [j]-th block of 62 draws repeats the number [j]. *)
Definition block_generator : AuthNode.generator := fun i => i / 62.

(** A coordinator that has registered one client and nothing else. *)
Definition coordinator_example : BootstrapNode.state :=
  BootstrapNode.mk_state
    (Node.mk_manager
       (<[0 := Node.mk_node "CLIENT" "module1" Py.PyNone Py.PyNone 1]> ∅) [0])
    (Node.mk_writer true []).

(** A connection thread of the Content role before any request, the
    handshake identity of such a thread, and a client before it streams. *)
Definition content_start : ContentNode.state :=
  ContentNode.mk_state None ∅ None false None None 1 (Node.mk_writer true []).
Definition content_identity : Node.identity :=
  Node.mk_identity "CONTENT" "content1" Py.PyNone Py.PyNone.
Definition client_start : ClientNode.state :=
  ClientNode.mk_state (Py.PyStr "cookie") (Py.PyStr "10.30.8.123") (Py.PyInt 50012)
    false 44100 (Node.mk_writer true []).


(** A directory whose only entry has an accented capital in its name. *)
Definition accented_directory : ContentNode.environment :=
  ContentNode.mk_env [text "ÀB.wav"] (fun _ => Some (ContentNode.mk_wave 44100 []))
    (fun _ => ContentNode.Writable) [] (fun _ => Node.mk_attempt Node.Opened Node.Ready Node.Sent)
    (fun _ => 0%Z).


(** Two chunks (the bytes of [abc] and of [A]), their frames, cut into three
    packets that ignore the frame boundaries. *)
Definition two_chunks : list (list byte) :=
  [["a"; "b"; "c"]%byte; ["A"%byte]].
Definition two_frames : list byte := concat (map frame_bytes two_chunks).
Definition three_packets : list (list byte) :=
  [take 10 two_frames; take 30 (drop 10 two_frames); drop 40 two_frames].


(** Two chunks of 64 bytes that differ in the bytes 35 and 55 and have the
    same MD5 digest (a published single-block collision). *)
Definition colliding_chunk : list byte :=
  map byte.of_Z
    [77; 201; 104; 255; 14; 227; 92; 32; 149; 114; 212; 119; 123; 114; 21; 135; 211; 111;
     167; 178; 27; 220; 86; 183; 74; 61; 192; 120; 62; 123; 149; 24; 175; 191; 162; 0; 168;
     40; 75; 243; 110; 142; 75; 85; 179; 95; 66; 117; 147; 216; 73; 103; 109; 160; 209; 85;
     93; 131; 96; 251; 95; 7; 254; 162]%Z.
Definition other_colliding_chunk : list byte :=
  <[55 := byte.of_Z 213]> (<[35 := byte.of_Z 2]> colliding_chunk).

(** ** Vocabulary and sample inputs of the further properties *)

(** The number of occurrences of [c] in [s]. *)
Fixpoint count_char (c : ascii) (s : string) : nat :=
  match s with
  | EmptyString => 0
  | String a s' => (if Ascii.eqb a c then 1 else 0) + count_char c s'
  end.

(** A connection whose handshake arrives with the third [recv]. *)
Definition slow_handshake : nat -> Node.recv_event :=
  fun i => if Nat.ltb i 2 then Node.Blocking else Node.Data "CLIENT|module1|None|None".

(** A client as it announces itself. *)
Definition client_identity : Node.identity :=
  Node.mk_identity "CLIENT" "module1" Py.PyNone Py.PyNone.

(** [n] calls of [write] for the same socket, one after the other, up to
    the first call that raises: how the last call ended, the handler, and
    everything handed to [send], in order. *)
Fixpoint write_repeatedly (n : nat) (parent : Node.node_class) (sock : Node.socket_view)
    (wh : Node.NodeWriteHandler) : Node.outcome unit * Node.NodeWriteHandler * list string :=
  match n with
  | O => (Node.Returned tt, wh, [])
  | S n' =>
      match Node.write parent sock wh with
      | (Node.Returned _, wh', sent) =>
          let '(o, wh'', sent') := write_repeatedly n' parent sock wh' in
          (o, wh'', (sent ++ sent')%list)
      | (Node.Raised exn, wh', sent) => (Node.Raised exn, wh', sent)
      end
  end.

(** [push_message] for each message of a list, in order. *)
Definition push_messages (ms : list string) (wh : Node.NodeWriteHandler)
  : Node.NodeWriteHandler :=
  fold_left (fun w m => Node.push_message m w) ms wh.

(** A call on [ContentNodeAuthManager]. *)
Inductive auth_update :=
| AddAuth (auth_host : string) (auth_port : Z)
| RemoveAuth (auth_host : string) (auth_port : Z).

Definition apply_auth_update (l : list (string * Z)) (u : auth_update) : list (string * Z) :=
  match u with
  | AddAuth h p => ContentNodeAuthManager.add_auth_node h p l
  | RemoveAuth h p => ContentNodeAuthManager.remove_auth_node h p l
  end.



(** The state of a Content connection thread with the four attributes of
    the cookie check replaced. *)
Definition with_check (cookie : option string) (address : option (string * Z))
    (sock : option nat) (load : Z) (st : ContentNode.state) : ContentNode.state :=
  ContentNode.mk_state cookie (ContentNode.music_files st) (ContentNode.file_to_stream st)
    (ContentNode.stream_mode st) address sock load (ContentNode.write_handler st).

(** An attempt that [connect_to_node] answers with [continue]: [connect_ex]
    raised, or the handshake could not be sent, or, in an attempt after the
    first, [socket.socket] raised. *)
Definition retried (env : nat -> Node.attempt) (j : nat) : Prop :=
  Node.opening (env j) = Node.ConnectRaises \/
  (Node.opening (env j) = Node.Opened /\ Node.waiting (env j) = Node.Ready /\
   Node.sending (env j) = Node.SendRaises) \/
  (Node.opening (env j) = Node.SocketRaises /\ 0 < j).

(** A network that refuses two connections and accepts the third. *)
Definition third_time_lucky : nat -> Node.attempt :=
  fun j => if Nat.ltb j 2 then Node.mk_attempt Node.ConnectRaises Node.Ready Node.Sent
           else Node.mk_attempt Node.Opened Node.Ready Node.Sent.

(** A network on which every connection attempt goes through. *)
Definition always_connects : nat -> Node.attempt :=
  fun _ => Node.mk_attempt Node.Opened Node.Ready Node.Sent.
Definition open_network : string -> Z -> nat -> Node.attempt :=
  fun _ _ => always_connects.

(** A spawned node that has bound its server by the end of the sleep. *)
Definition bound_startup : nat -> Py.pyval * Py.pyval :=
  fun _ => (Py.PyStr "10.0.0.9", Py.PyInt 5009).

(** A spawned node that has not. *)
Definition slow_startup : nat -> Py.pyval * Py.pyval :=
  fun _ => (Py.PyNone, Py.PyNone).

(** An Auth process that has issued no cookie yet, and one that holds the
    cookie [abc]. *)
Definition auth_start : AuthNode.state :=
  AuthNode.mk_state [] 0 (Node.mk_writer true []).
Definition auth_with_cookie : AuthNode.state :=
  AuthNode.mk_state ["abc"] 0 (Node.mk_writer true []).

(** A client that knows no other node yet. *)
Definition client_links : ClientNode.links :=
  ClientNode.mk_links Py.PyNone Py.PyNone None None.

(** A music directory with one file of two chunks, seen from a Content
    node that knows one Auth address; and a connection thread of that node
    that has accepted the name of the file. *)
Definition streaming_directory : ContentNode.environment :=
  ContentNode.mk_env ["song.wav"]
    (fun f => if String.eqb f "song.wav" then Some (ContentNode.mk_wave 44100 two_chunks)
              else None)
    (fun _ => ContentNode.Writable) [("10.0.0.9", 5009%Z)] always_connects (fun _ => 0%Z).
Definition content_streaming : ContentNode.state :=
  ContentNode.mk_state (Some "abc") ∅ (Some "song.wav") true None None 1
    (Node.mk_writer true []).

(** The turns of an Auth connection thread that serves one login: the
    socket is writable; then the login arrives; then the goodbye. *)
Definition one_login : nat -> option AuthNode.ready_event :=
  fun i =>
    let live := Node.mk_view true 7 true in
    match i with
    | 0 => Some (AuthNode.mk_ready false true Node.Blocking live "BrokenPipeError")
    | 1 => Some (AuthNode.mk_ready true true (Node.Data "LOGIN_DATA|bob") live
                   "BrokenPipeError")
    | 2 => Some (AuthNode.mk_ready true true (Node.Data "DISCONNECT|10.0.0.9|5009") live
                   "BrokenPipeError")
    | _ => None
    end.

(** * Properties *)

(** ** The registry and the load balancer *)

Section LoadBalancer.

Import Node.

Lemma has_type_registered tm ct r :
  has_type tm ct r = true <-> exists n, objects tm !! r = Some n /\ conn_type n = ct.
Proof.
  unfold has_type. destruct (objects tm !! r) as [n|].
  - rewrite String.eqb_eq. split; [eauto | intros (? & [= <-] & ?); done].
  - split; [done | intros (? & ? & ?); done].
Qed.

Lemma elem_of_get_nodes_by_type tm ct r :
  r ∈ get_nodes_by_type ct tm <-> exists n, registered_as tm ct r n.
Proof.
  unfold get_nodes_by_type, registered_as.
  rewrite list_elem_of_In, filter_In, has_type_registered, <- list_elem_of_In.
  split.
  - intros (Hin & n & Hn & Hct). exists n. auto.
  - intros (n & Hin & Hn & Hct). eauto.
Qed.

Lemma py_min_elem key best rest : py_min key best rest ∈ best :: rest.
Proof.
  revert best. induction rest as [|x rest IH]; intros best; simpl.
  - left.
  - specialize (IH (if (key x <? key best)%Z then x else best)).
    rewrite !elem_of_cons in *. destruct (key x <? key best)%Z; tauto.
Qed.

Lemma py_min_least key best rest x :
  x ∈ best :: rest -> (key (py_min key best rest) <= key x)%Z.
Proof.
  revert best x. induction rest as [|y rest IH]; intros best x Hx; simpl.
  - apply list_elem_of_singleton in Hx. subst x. lia.
  - set (b := if (key y <? key best)%Z then y else best).
    assert (Hb : (key (py_min key b rest) <= key b)%Z).
    { apply IH. left. }
    assert (Hby : (key b <= key y)%Z /\ (key b <= key best)%Z).
    { subst b. destruct (Z.ltb_spec (key y) (key best)); lia. }
    rewrite !elem_of_cons in Hx. destruct Hx as [Hx|[Hx|Hx]].
    + subst x. lia.
    + subst x. lia.
    + apply IH. right. exact Hx.
Qed.

Lemma incr_load_lookup tm r n :
  objects tm !! r = Some n ->
  objects (incr_load r tm) !! r = Some (set_load n (load n + 1)).
Proof. intros H. simpl. rewrite lookup_alter_eq, H. done. Qed.

Lemma incr_load_lookup_ne tm r r' :
  r' <> r -> objects (incr_load r tm) !! r' = objects tm !! r'.
Proof. intros H. simpl. by rewrite lookup_alter_ne. Qed.

(** What a successful selection returns and does. *)
Lemma load_balancer_some tm ct r tm' :
  load_balancer ct tm = (Some r, tm') ->
  tm' = incr_load r tm /\
  exists n, registered_as tm ct r n /\
    forall r' n', registered_as tm ct r' n' -> (load n <= load n')%Z.
Proof.
  unfold load_balancer.
  destruct (get_nodes_by_type ct tm) as [|r0 rest] eqn:Hnodes; [done|].
  intros [= <- <-]. split; [done|].
  pose proof (py_min_elem (load_of tm) r0 rest) as Hin.
  rewrite <- Hnodes in Hin. apply elem_of_get_nodes_by_type in Hin as [n Hn].
  exists n. split; [done|]. intros r' n' Hr'.
  assert (Hr'in : r' ∈ r0 :: rest)
    by (rewrite <- Hnodes; apply elem_of_get_nodes_by_type; eauto).
  pose proof (py_min_least (load_of tm) r0 rest r' Hr'in) as Hle.
  unfold load_of in Hle at 1 3.
  destruct Hn as (_ & Hn & _), Hr' as (_ & Hr' & _).
  by rewrite Hn, Hr' in Hle.
Qed.

Lemma load_balancer_is_some tm ct r n :
  registered_as tm ct r n -> exists r0, load_balancer ct tm = (Some r0, incr_load r0 tm).
Proof.
  intros Hr. unfold load_balancer.
  destruct (get_nodes_by_type ct tm) as [|r0 rest] eqn:Hnodes; [|eauto].
  assert (r ∈ get_nodes_by_type ct tm) by (apply elem_of_get_nodes_by_type; eauto).
  rewrite Hnodes in *. set_solver.
Qed.

Lemma load_balancer_none tm ct :
  (forall r n, ~ registered_as tm ct r n) -> load_balancer ct tm = (None, tm).
Proof.
  intros Hno. unfold load_balancer.
  destruct (get_nodes_by_type ct tm) as [|r0 rest] eqn:Hnodes; [done|].
  assert (Hin : r0 ∈ get_nodes_by_type ct tm) by (rewrite Hnodes; set_solver).
  apply elem_of_get_nodes_by_type in Hin as [n Hn]. by destruct (Hno r0 n).
Qed.

(** C2. [load_balancer] ([selectLeastLoaded]): with no registered entry of
    the role it returns [None] and leaves the registry as it was; otherwise
    it returns a registered entry of the role whose load is minimal among
    the registered entries of the role, adds one to the load of exactly that
    object and changes nothing else; and when another entry of the role had
    the same load, the immediately repeated selection returns an entry
    other than the one just returned. *)
Theorem load_balancer_least_loaded (tm : NodeThreadManager) (ct : string) :
  ((forall r n, ~ registered_as tm ct r n) -> load_balancer ct tm = (None, tm)) /\
  ((exists r n, registered_as tm ct r n) ->
   exists r n,
     load_balancer ct tm = (Some r, incr_load r tm) /\
     registered_as tm ct r n /\
     (forall r' n', registered_as tm ct r' n' -> (load n <= load n')%Z) /\
     objects (incr_load r tm) !! r = Some (set_load n (load n + 1)) /\
     (forall r', r' <> r -> objects (incr_load r tm) !! r' = objects tm !! r') /\
     node_threads (incr_load r tm) = node_threads tm /\
     (forall r2 n2, registered_as tm ct r2 n2 -> r2 <> r -> load n2 = load n ->
      exists r3,
        load_balancer ct (incr_load r tm) = (Some r3, incr_load r3 (incr_load r tm)) /\
        r3 <> r)).
Proof.
  split; [apply load_balancer_none|].
  intros (r0 & n0 & Hreg0).
  destruct (load_balancer_is_some _ _ _ _ Hreg0) as [r Hlb].
  destruct (load_balancer_some _ _ _ _ Hlb) as (_ & n & Hreg & Hmin).
  exists r, n. split; [exact Hlb|]. split; [exact Hreg|]. split; [exact Hmin|].
  pose proof Hreg as (Hin & Hobj & Hct).
  split; [by apply incr_load_lookup|].
  split; [intros r' Hne; by apply incr_load_lookup_ne|].
  split; [done|].
  intros r2 n2 (Hin2 & Hobj2 & Hct2) Hne Hload.
  assert (Hreg2 : registered_as (incr_load r tm) ct r2 n2).
  { split; [exact Hin2|]. split; [|exact Hct2]. by rewrite incr_load_lookup_ne. }
  destruct (load_balancer_is_some _ _ _ _ Hreg2) as [r3 Hlb3].
  exists r3. split; [exact Hlb3|]. intros ->.
  destruct (load_balancer_some _ _ _ _ Hlb3) as (_ & n3 & (_ & Hobj3 & _) & Hmin3).
  rewrite (incr_load_lookup _ _ _ Hobj) in Hobj3. injection Hobj3 as <-.
  specialize (Hmin3 _ _ Hreg2). simpl in Hmin3. lia.
Qed.

End LoadBalancer.

Lemma load_balancer_least_loaded_witness :
  exists r n,
    Node.load_balancer "AUTH" registry_example = (Some r, Node.incr_load r registry_example) /\
    registered_as registry_example "AUTH" r n /\
    (forall r' n', registered_as registry_example "AUTH" r' n' ->
                   (Node.load n <= Node.load n')%Z) /\
    Node.objects (Node.incr_load r registry_example) !! r
    = Some (Node.set_load n (Node.load n + 1)) /\
    (forall r', r' <> r ->
       Node.objects (Node.incr_load r registry_example) !! r'
       = Node.objects registry_example !! r') /\
    Node.node_threads (Node.incr_load r registry_example) = Node.node_threads registry_example /\
    (forall r2 n2, registered_as registry_example "AUTH" r2 n2 -> r2 <> r ->
       Node.load n2 = Node.load n ->
       exists r3,
         Node.load_balancer "AUTH" (Node.incr_load r registry_example)
         = (Some r3, Node.incr_load r3 (Node.incr_load r registry_example)) /\
         r3 <> r).
Proof.
  apply (proj2 (load_balancer_least_loaded registry_example "AUTH")).
  exists 1, (Node.mk_node "AUTH" "auth1" (Py.PyStr "10.0.0.2") (Py.PyInt 5002) 1).
  split; [right; left | split; reflexivity].
Defined.

Example load_balancer_alternates :
  Node.load_balancer "AUTH" registry_example = (Some 0, Node.incr_load 0 registry_example) /\
  fst (Node.load_balancer "AUTH" (Node.incr_load 0 registry_example)) = Some 1.
Proof. split; vm_compute; reflexivity. Qed.

(** ** Cookies *)

Section Cookies.

Import AuthNode.
Local Open Scope list_scope.

Lemma is_authenticated_elem c l : is_authenticated c l = true <-> c ∈ l.
Proof.
  unfold is_authenticated. rewrite existsb_exists, list_elem_of_In. split.
  - intros (x & Hx & Heq). apply String.eqb_eq in Heq. by subst.
  - intros H. exists c. split; [done | apply String.eqb_refl].
Qed.

Lemma is_authenticated_not_elem c l : is_authenticated c l = false <-> c ∉ l.
Proof.
  rewrite <- is_authenticated_elem. destruct (is_authenticated c l); split; congruence.
Qed.

Lemma choice_in_chars draws pos : In (choice draws pos _chars) _chars.
Proof.
  unfold choice. apply nth_In. apply Nat.mod_upper_bound. vm_compute. discriminate.
Qed.

Lemma random_string_length draws pos n : String.length (random_string draws pos n) = n.
Proof. revert pos. induction n as [|n IH]; intros pos; simpl; [done | by rewrite IH]. Qed.

Lemma random_string_chars draws pos n c :
  In c (list_ascii_of_string (random_string draws pos n)) -> In c _chars.
Proof.
  revert pos. induction n as [|n IH]; intros pos; simpl; [done|].
  intros [<-|H]; [apply choice_in_chars | by apply (IH (S pos))].
Qed.

Lemma generate_cookie_step fuel draws pos cookies :
  generate_cookie (S fuel) draws pos cookies =
  if is_authenticated (candidate draws pos 0) cookies
  then generate_cookie fuel draws (pos + length _chars) cookies
  else Some (candidate draws pos 0, pos + length _chars, cookies ++ [candidate draws pos 0]).
Proof.
  unfold candidate. rewrite Nat.mul_0_l, Nat.add_0_r. cbn [generate_cookie].
  by destruct (is_authenticated _ cookies).
Qed.

Lemma candidate_shift draws pos k :
  candidate draws (pos + length _chars) k = candidate draws pos (S k).
Proof. unfold candidate. f_equal. rewrite Nat.mul_succ_l. lia. Qed.

Lemma generate_cookie_some fuel draws pos cookies c pos' cookies' :
  generate_cookie fuel draws pos cookies = Some (c, pos', cookies') ->
  exists k, k < fuel /\ c = candidate draws pos k /\ (c ∉ cookies) /\
            pos' = pos + S k * length _chars /\ cookies' = cookies ++ [c].
Proof.
  revert pos. induction fuel as [|fuel IH]; intros pos; [done|].
  rewrite generate_cookie_step.
  destruct (is_authenticated _ cookies) eqn:Hauth.
  - intros H. apply IH in H as (k & Hk & Hc & Hfresh & Hpos & Hcookies).
    exists (S k). rewrite candidate_shift in Hc.
    split; [lia|]. split; [exact Hc|]. split; [exact Hfresh|]. split; [|exact Hcookies].
    rewrite Hpos, (Nat.mul_succ_l (S k)). lia.
  - intros H. apply is_authenticated_not_elem in Hauth.
    exists 0. split; [lia|].
    assert (c = candidate draws pos 0) as -> by congruence.
    split; [reflexivity|]. split; [exact Hauth|].
    split; [rewrite Nat.mul_1_l|]; congruence.
Qed.

(** The call returns as soon as a candidate is not in the list. *)
Lemma generate_cookie_returns draws cookies k :
  forall pos, candidate draws pos k ∉ cookies ->
  exists r, generate_cookie (S k) draws pos cookies = Some r.
Proof.
  induction k as [|k IH]; intros pos Hk; rewrite generate_cookie_step.
  - apply is_authenticated_not_elem in Hk. rewrite Hk. eauto.
  - destruct (is_authenticated _ cookies) eqn:Hauth; [|eauto].
    apply IH. by rewrite candidate_shift.
Qed.

Lemma NoDup_snoc (l : list string) c : NoDup l -> c ∉ l -> NoDup (l ++ [c]).
Proof.
  intros Hl Hc. apply NoDup_app. split; [done|]. split.
  - intros x Hx Hx'. apply list_elem_of_singleton in Hx'. by subst.
  - apply NoDup_singleton.
Qed.

(** What a completed run of login flows has queued and stored. *)
Lemma login_flows_issued fuel draws packets :
  Forall is_login packets ->
  forall pos cookies queued pos' cookies',
  login_flows fuel draws packets pos cookies = Some (queued, pos', cookies') ->
  exists issued,
    queued = map (fun c => [("LOGIN_SUCCESS|" ++ c)%string]) issued /\
    length issued = length packets /\
    cookies' = cookies ++ issued /\
    NoDup issued /\
    (forall c, c ∈ issued -> c ∉ cookies).
Proof.
  induction 1 as [|p packets [args Hp] _ IH]; intros pos cookies queued pos' cookies'.
  - intros [= <- <- <-]. exists []. rewrite app_nil_r.
    split; [done|]. split; [done|]. split; [done|]. split; [apply NoDup_nil_2|].
    intros c Hc. by apply elem_of_nil in Hc.
  - cbn [login_flows]. rewrite Hp. unfold handle_client.
    change (String.eqb "LOGIN_DATA" "LOGIN_DATA") with true. cbv iota.
    cbn [rng_pos _client_cookies write_handler].
    destruct (generate_cookie fuel draws pos cookies) as [[[c p1] c1]|] eqn:Hgen; [|done].
    cbn [rng_pos _client_cookies write_handler Node.push_message Node.out_buffer].
    destruct (login_flows fuel draws packets p1 c1) as [[[q p2] c2]|] eqn:Hrest; [|done].
    intros H. injection H as <- <- <-.
    apply generate_cookie_some in Hgen as (k & _ & _ & Hc & _ & Hc1).
    apply IH in Hrest as (issued & Hq & Hlen & Hc2 & Hnd & Hfresh).
    exists (c :: issued). subst c1 c2 q. rewrite <- app_assoc.
    split; [done|]. split; [simpl; by rewrite Hlen|]. split; [done|]. split.
    + apply NoDup_cons. split; [|done].
      intros Hin. apply (Hfresh _ Hin). apply elem_of_app. right. left.
    + intros x Hx. apply elem_of_cons in Hx as [->|Hx]; [done|].
      intros Hin. apply (Hfresh _ Hx). apply elem_of_app. by left.
Qed.

Lemma elem_of_remove_first c l x : x ∈ remove_first c l -> x ∈ l.
Proof.
  induction l as [|y l IH]; simpl; [done|].
  destruct (String.eqb y c); [by right|].
  intros H. apply elem_of_cons in H as [->|H]; [left | right; by apply IH].
Qed.

Lemma remove_cookie_NoDup c l : NoDup l -> NoDup (remove_cookie c l).
Proof.
  unfold remove_cookie. destruct (is_authenticated c l); [|done].
  induction 1 as [|y l Hy Hl IH]; simpl; [apply NoDup_nil_2|].
  destruct (String.eqb y c); [done|].
  apply NoDup_cons. split; [|exact IH].
  intros Hin. apply Hy. by apply elem_of_remove_first in Hin.
Qed.

(** C1. Cookie uniqueness.  Whatever [generate_cookie] returns was not in
    the list of valid cookies and has been appended to it, so a list without
    duplicates stays without duplicates; the call returns as soon as the
    generator offers a string not in the list; and after any run of login
    flows (each a [LOGIN_DATA] packet handled by [handle_client]) every flow
    has queued [LOGIN_SUCCESS] with its own cookie, the cookies issued are
    pairwise distinct, and the list of valid cookies is the old one followed
    by them.  [remove_cookie] and [clear_cookies] keep a list without
    duplicates so too. *)
Theorem cookie_uniqueness (fuel : nat) (draws : generator) (pos : nat) (cookies : list string) :
  (forall c pos' cookies',
     generate_cookie fuel draws pos cookies = Some (c, pos', cookies') ->
     (c ∉ cookies) /\ cookies' = cookies ++ [c] /\ (NoDup cookies -> NoDup cookies')) /\
  (forall k, candidate draws pos k ∉ cookies ->
     exists r, generate_cookie (S k) draws pos cookies = Some r) /\
  (forall packets queued pos' cookies',
     Forall is_login packets ->
     login_flows fuel draws packets pos cookies = Some (queued, pos', cookies') ->
     exists issued,
       queued = map (fun c => [("LOGIN_SUCCESS|" ++ c)%string]) issued /\
       length issued = length packets /\
       NoDup issued /\
       cookies' = cookies ++ issued /\
       (NoDup cookies -> NoDup cookies')) /\
  (NoDup cookies ->
   forall c, NoDup (remove_cookie c cookies) /\ NoDup (clear_cookies cookies)).
Proof.
  split; [|split; [|split]].
  - intros c pos' cookies' H.
    apply generate_cookie_some in H as (k & _ & _ & Hc & _ & ->).
    split; [exact Hc|]. split; [reflexivity|]. intros Hnd. by apply NoDup_snoc.
  - intros k. apply generate_cookie_returns.
  - intros packets queued pos' cookies' Hlogin H.
    destruct (login_flows_issued _ _ _ Hlogin _ _ _ _ _ H)
      as (issued & Hq & Hlen & Hc & Hnd & Hfresh).
    exists issued. split; [exact Hq|]. split; [exact Hlen|]. split; [exact Hnd|].
    split; [exact Hc|]. intros Hnd0. subst cookies'.
    apply NoDup_app. split; [exact Hnd0|]. split; [|exact Hnd].
    intros x Hx Hx'. by apply (Hfresh x Hx').
  - intros Hnd c. split; [by apply remove_cookie_NoDup | apply NoDup_nil_2].
Qed.

(** C8. A cookie returned by [generate_cookie] has exactly 62 characters,
    as many as the alphabet [_chars] has, each of them one of a-z, A-Z, 0-9,
    and it is the last element of the cookie list the call leaves behind. *)
Theorem cookie_shape (fuel : nat) (draws : generator) (pos : nat) (cookies : list string)
    (c : string) (pos' : nat) (cookies' : list string) :
  generate_cookie fuel draws pos cookies = Some (c, pos', cookies') ->
  String.length c = 62 /\
  String.length c = length _chars /\
  (forall ch, In ch (list_ascii_of_string c) -> In ch _chars /\ is_alnum ch = true) /\
  cookies' = cookies ++ [c].
Proof.
  intros H. apply generate_cookie_some in H as (k & _ & -> & _ & _ & ->).
  unfold candidate. rewrite random_string_length.
  split; [reflexivity|]. split; [reflexivity|]. split; [|reflexivity].
  intros ch Hch. apply random_string_chars in Hch. split; [exact Hch|].
  assert (Hall : forallb is_alnum _chars = true) by (vm_compute; reflexivity).
  rewrite forallb_forall in Hall. by apply Hall.
Qed.

End Cookies.

Lemma cookie_uniqueness_witness :
  exists issued : list string,
    length issued = 2 /\ NoDup issued /\
    exists queued pos',
      login_flows 1 block_generator ["LOGIN_DATA|alice:pw"; "LOGIN_DATA|bob:pw"] 0 []
      = Some (queued, pos', issued).
Proof.
  destruct (login_flows 1 block_generator
              ["LOGIN_DATA|alice:pw"; "LOGIN_DATA|bob:pw"] 0 [])
    as [[[queued pos'] cookies']|] eqn:Hrun; [|vm_compute in Hrun; discriminate].
  destruct (proj1 (proj2 (proj2 (cookie_uniqueness 1 block_generator 0 [])))
              ["LOGIN_DATA|alice:pw"; "LOGIN_DATA|bob:pw"] queued pos' cookies')
    as (issued & _ & Hlen & Hnd & Hcookies & _).
  - repeat constructor; eexists; vm_compute; reflexivity.
  - exact Hrun.
  - exists issued. split; [exact Hlen|]. split; [exact Hnd|].
    exists queued, pos'. by rewrite Hcookies.
Defined.

Lemma cookie_shape_witness :
  exists c pos' cookies',
    AuthNode.generate_cookie 1 block_generator 0 [] = Some (c, pos', cookies') /\
    String.length c = 62 /\ cookies' = [c].
Proof.
  destruct (AuthNode.generate_cookie 1 block_generator 0 [])
    as [[[c pos'] cookies']|] eqn:Hrun; [|vm_compute in Hrun; discriminate].
  destruct (cookie_shape 1 block_generator 0 [] c pos' cookies' Hrun)
    as (Hlen & _ & _ & Hcookies).
  exists c, pos', cookies'. split; [reflexivity|]. split; [exact Hlen|exact Hcookies].
Defined.

(** ** Connecting with retries, and the write driver *)

Section Transport.

Import Node.
Local Open Scope list_scope.

(** The loop from attempt [k] on, all earlier attempts having failed with
    their sockets closed. *)
Lemma connect_loop_spec me env :
  forall remaining k new_sock fx,
  attempts fx = k ->
  (0 < k -> new_sock <> None) ->
  (forall s0, new_sock = Some s0 -> s0 < k) ->
  (forall j, j ∈ closed fx -> j < k) ->
  (forall j, j < k -> opening (env j) <> SocketRaises -> j ∈ closed fx) ->
  exists out fx',
    connect_loop me env remaining k new_sock fx = (out, fx') /\
    k <= attempts fx' <= k + remaining /\
    (forall j, j < attempts fx' -> opening (env j) <> SocketRaises ->
               out <> Returned (Some j) -> j ∈ closed fx') /\
    (forall e, out = Raised e ->
               new_sock = None /\ opening (env k) = SocketRaises /\ attempts fx' = S k) /\
    (out = Returned None -> attempts fx' = k + remaining \/
       exists j, j < k + remaining /\ attempts fx' = S j /\
                 opening (env j) = Opened /\ waiting (env j) = SelectRaises) /\
    (forall sock, out = Returned (Some sock) ->
       k <= sock < k + remaining /\ succeeds (env sock) /\ attempts fx' = S sock /\
       handshakes fx' = handshakes fx ++ [(sock, handshake me)] /\
       registered fx' = registered fx ++ [sock] /\
       (sock ∉ closed fx')).
Proof.
  induction remaining as [|remaining IH]; intros k new_sock fx Hk Hbound Hold Hcl Hall.
  - exists (Returned None), fx. cbn [connect_loop].
    split; [done|]. split; [lia|]. split; [intros j Hj ? _; rewrite Hk in Hj; by apply Hall|].
    split; [done|]. split; [intros _; left; lia | done].
  - cbn [connect_loop].
    assert (Hnext : forall (fx1 : effects) s0,
      attempts fx1 = S k -> handshakes fx1 = handshakes fx ->
      registered fx1 = registered fx -> s0 < S k ->
      (forall j, j ∈ closed fx1 -> j < S k) ->
      (forall j, j < S k -> opening (env j) <> SocketRaises -> j ∈ closed fx1) ->
      exists out fx',
        connect_loop me env remaining (S k) (Some s0) fx1 = (out, fx') /\
        k <= attempts fx' <= k + S remaining /\
        (forall j, j < attempts fx' -> opening (env j) <> SocketRaises ->
                   out <> Returned (Some j) -> j ∈ closed fx') /\
        (forall e, out = Raised e ->
           new_sock = None /\ opening (env k) = SocketRaises /\ attempts fx' = S k) /\
        (out = Returned None -> attempts fx' = k + S remaining \/
           exists j, j < k + S remaining /\ attempts fx' = S j /\
                     opening (env j) = Opened /\ waiting (env j) = SelectRaises) /\
        (forall sock, out = Returned (Some sock) ->
           k <= sock < k + S remaining /\ succeeds (env sock) /\ attempts fx' = S sock /\
           handshakes fx' = handshakes fx ++ [(sock, handshake me)] /\
           registered fx' = registered fx ++ [sock] /\
           (sock ∉ closed fx'))).
    { intros fx1 s0 Ha Hh Hr Hs0 Hcl1 Hall1.
      destruct (IH (S k) (Some s0) fx1)
        as (out & fx' & Hrun & Hatt & Hclosed & Hraise & Hnone & Hsome); try done.
      { intros s1 [= <-]. exact Hs0. }
      exists out, fx'. split; [exact Hrun|]. split; [lia|]. split; [exact Hclosed|].
      split; [intros e He; by destruct (Hraise e He)|]. split.
      - intros Hout. destruct (Hnone Hout) as [Hn|(j & Hj & Hn)]; [left; lia|].
        right. exists j. split; [lia | exact Hn].
      - intros sock Hsock. destruct (Hsome sock Hsock) as (Hrange & Hrest).
        rewrite <- Hh, <- Hr. split; [lia | exact Hrest]. }
    destruct (env k) as [o w s] eqn:Henv. cbn [opening waiting sending].
    assert (Hclk : forall j, j ∈ closed fx ++ [k] -> j < S k).
    { intros j Hj. apply elem_of_app in Hj as [Hj|Hj]; [apply Hcl in Hj; lia|].
      apply list_elem_of_singleton in Hj. lia. }
    assert (Hallk : forall j, j < S k -> opening (env j) <> SocketRaises ->
                               j ∈ closed fx ++ [k]).
    { intros j Hj Hopen. apply elem_of_app. destruct (decide (j = k)) as [->|Hne].
      - right. left.
      - left. apply Hall; [lia | exact Hopen]. }
    destruct o.
    + destruct new_sock as [s0|].
      * pose proof (Hold s0 eq_refl) as Hs0.
        apply Hnext; cbn; [lia | reflexivity | reflexivity | lia | |].
        -- intros j Hj. apply elem_of_app in Hj as [Hj|Hj]; [apply Hcl in Hj; lia|].
           apply list_elem_of_singleton in Hj. lia.
        -- intros j Hj Hopen. apply elem_of_app. left.
           destruct (decide (j = k)) as [->|Hne]; [by rewrite Henv in Hopen|].
           apply Hall; [lia | exact Hopen].
      * eexists (Raised _), _. split; [reflexivity|]. cbn [attempts closed].
        split; [lia|]. split.
        { intros j Hj Hopen _. destruct (decide (j = k)) as [->|Hne].
          - by rewrite Henv in Hopen.
          - apply Hall; [lia | exact Hopen]. }
        split; [intros e _; rewrite Hk; done|]. split; done.
    + apply Hnext; cbn; [lia | reflexivity | reflexivity | lia | exact Hclk | exact Hallk].
    + destruct w.
      * destruct s.
        -- eexists (Returned (Some k)), _. split; [reflexivity|].
           cbn [attempts closed handshakes registered].
           split; [lia|]. split.
           { intros j Hj Hopen Hout. apply Hall; [|exact Hopen].
             destruct (decide (j = k)) as [->|]; [done | lia]. }
           split; [done|]. split; [done|].
           intros sock [= <-]. split; [lia|]. split; [exact Henv|]. split; [lia|].
           split; [done|]. split; [done|]. intros Hin. apply Hcl in Hin. lia.
        -- apply Hnext; cbn;
             [lia | reflexivity | reflexivity | lia | exact Hclk | exact Hallk].
      * eexists (Returned None), _. split; [reflexivity|].
        cbn [attempts closed handshakes registered].
        split; [lia|]. split; [intros j Hj Hopen _; apply Hallk; [lia | exact Hopen]|].
        split; [done|]. split; [|done].
        intros _. right. exists k. rewrite Henv. split; [lia|]. split; [lia | done].
Qed.

(** C5, at the input where the code departs from it: when
    [socket.socket(...)] raises in the first attempt, the handler that is
    meant to close the socket and go on to the next attempt calls
    [close()] on [new_sock], which is still [None]; [AttributeError] leaves
    [connect_to_node] after one attempt, whatever the later attempts would
    have met, and nothing is returned. *)
Theorem connect_to_node_first_socket_error (me : identity) (w : select_result)
    (s : send_result) (later : nat -> attempt) :
  connect_to_node me
    (fun k => match k with O => mk_attempt SocketRaises w s | S k' => later k' end)
  = (Raised "AttributeError", mk_effects 1 [] [] []).
Proof. reflexivity. Qed.

(** The same failure in a later attempt is handled as intended: the socket
    of the attempt before is closed once more and the loop goes on. *)
Example connect_to_node_later_socket_error (me : identity) :
  connect_to_node me
    (fun k => match k with
              | 0 => mk_attempt ConnectRaises Ready Sent
              | 1 => mk_attempt SocketRaises Ready Sent
              | _ => mk_attempt Opened Ready Sent
              end)
  = (Returned (Some 2), mk_effects 3 [0; 0] [(2, handshake me)] [2]).
Proof. reflexivity. Qed.

(** Six refused connections: six sockets, each closed, and [None]. *)
Example connect_to_node_exhausted (me : identity) :
  connect_to_node me (fun _ => mk_attempt Opened Ready SendRaises)
  = (Returned None, mk_effects 6 [0; 1; 2; 3; 4; 5] [] []).
Proof. reflexivity. Qed.

(** C9, at the input where the code departs from it: [write] on a socket
    whose [fileno()] is [-1] has taken the first message off the queue and
    neither sends it nor puts it back; the rest of the queue is untouched;
    but [parent_node.kill_connection()] raises [AttributeError], whatever
    the class of the parent, and the [running] flag keeps its value. *)
Theorem write_on_dead_socket (parent : node_class) (flag : bool) (m : string)
    (q : list string) (sendable : bool) :
  write parent (mk_view true (-1) sendable) (mk_writer flag (m :: q))
  = (Raised "AttributeError", mk_writer flag q, []).
Proof. destruct parent; reflexivity. Qed.

End Transport.

(** ** Node requests at the coordinator *)

Section NodeRequest.

Import Node BootstrapNode.
Local Open Scope list_scope.

Lemma load_balancer_none_inv tm ct tm' :
  load_balancer ct tm = (None, tm') ->
  tm' = tm /\ forall r n, ~ registered_as tm ct r n.
Proof.
  unfold load_balancer.
  destruct (get_nodes_by_type ct tm) as [|r0 rest] eqn:Hnodes; [|done].
  intros [= <-]. split; [done|]. intros r n Hr.
  assert (Hin : r ∈ get_nodes_by_type ct tm) by (apply elem_of_get_nodes_by_type; eauto).
  rewrite Hnodes in Hin. by apply elem_of_nil in Hin.
Qed.

Lemma fresh_id_fresh tm :
  (fresh_id tm ∉ node_threads tm) /\ objects tm !! fresh_id tm = None.
Proof.
  pose proof (is_fresh (dom (objects tm) ∪ list_to_set (node_threads tm) : gset nat)) as H.
  fold (fresh_id tm) in H. split.
  - intros Hin. apply H. apply elem_of_union. right. by apply elem_of_list_to_set.
  - apply not_elem_of_dom. intros Hin. apply H. apply elem_of_union. by left.
Qed.

Lemma filter_none {A} (f : A -> bool) (l : list A) :
  (forall x, x ∈ l -> f x = false) -> List.filter f l = [].
Proof.
  induction l as [|x l IH]; intros H; simpl; [done|].
  rewrite (H x) by left. apply IH. intros y Hy. apply H. by right.
Qed.

(** A node spawned for a role nobody serves is what the next selection
    returns. *)
Lemma load_balancer_after_spawn tm ct new_node address :
  (forall r n, ~ registered_as tm ct r n) ->
  conn_type new_node = ct ->
  load_balancer ct (spawn new_node address tm)
  = (Some (fresh_id tm), incr_load (fresh_id tm) (spawn new_node address tm)).
Proof.
  intros Hno Hct. destruct (fresh_id_fresh tm) as [Hnew Hnone].
  unfold load_balancer.
  assert (Hnodes : get_nodes_by_type ct (spawn new_node address tm) = [fresh_id tm]).
  { unfold get_nodes_by_type, spawn, register. cbn [node_threads objects].
    rewrite List.filter_app. rewrite filter_none.
    - cbn [List.filter]. unfold has_type. cbn [objects].
      rewrite lookup_insert_eq. cbn [conn_type]. rewrite Hct, String.eqb_refl. done.
    - intros r Hr. unfold has_type. cbn [objects].
      rewrite lookup_insert_ne by (intros Heq; apply Hnew; by rewrite Heq).
      destruct (objects tm !! r) as [n|] eqn:Hn; [|done].
      apply String.eqb_neq. intros Heq. by apply (Hno r n). }
  rewrite Hnodes. done.
Qed.

(** The loop of the handler for a role that can be spawned: it selects at
    once when an entry of the role is registered, and otherwise spawns one
    node, registers it and selects it in the second round. *)
Lemma select_or_spawn_selects fuel startup wanted tm :
  wanted = "AUTH" \/ wanted = "CONTENT" ->
  exists node n tm1 spawned,
    select_or_spawn (S (S fuel)) startup wanted 0 tm
    = Some (Some node, incr_load node tm1, spawned) /\
    load_balancer wanted tm1 = (Some node, incr_load node tm1) /\
    registered_as tm1 wanted node n /\
    ((spawned = 0 /\ tm1 = tm) \/
     (spawned = 1 /\ (forall r n0, ~ registered_as tm wanted r n0) /\
      exists new_node,
        conn_type new_node = wanted /\ tm1 = spawn new_node (startup 0) tm)).
Proof.
  intros Hrole. cbn [select_or_spawn].
  destruct (load_balancer wanted tm) as [[r|] tm'] eqn:Hlb.
  - pose proof Hlb as Hlb'.
    apply load_balancer_some in Hlb' as (-> & n & Hreg & _).
    exists r, n, tm, 0. split; [done|]. split; [done|]. split; [done|]. by left.
  - apply load_balancer_none_inv in Hlb as (-> & Hno).
    assert (Hspawn : forall new_node, conn_type new_node = wanted ->
      exists node n tm1,
        (match load_balancer wanted (spawn new_node (startup 0) tm) with
         | (Some node0, tm0) => Some (Some node0, tm0, 1)
         | (None, tm0) =>
             if String.eqb wanted "AUTH"
             then select_or_spawn fuel startup wanted 2
                    (spawn new_auth_node (startup 1) tm0)
             else if String.eqb wanted "CONTENT"
             then select_or_spawn fuel startup wanted 2
                    (spawn new_content_node (startup 1) tm0)
             else Some (None, tm0, 1)
         end) = Some (Some node, incr_load node tm1, 1) /\
        load_balancer wanted tm1 = (Some node, incr_load node tm1) /\
        registered_as tm1 wanted node n /\
        tm1 = spawn new_node (startup 0) tm).
    { intros new_node Hct.
      pose proof (load_balancer_after_spawn _ _ new_node (startup 0) Hno Hct) as Hlb.
      rewrite Hlb. eexists _, _, _. split; [reflexivity|]. split; [exact Hlb|].
      split; [|reflexivity]. split; [|split].
      - unfold spawn, register. cbn [node_threads]. apply elem_of_app. right. left.
      - unfold spawn, register. cbn [objects]. apply lookup_insert_eq.
      - exact Hct. }
    destruct Hrole as [-> | ->].
    + change (String.eqb "AUTH" "AUTH") with true. cbv iota.
      destruct (Hspawn new_auth_node eq_refl) as (node & n & tm1 & Hrun & Hlb & Hreg & Htm).
      exists node, n, tm1, 1. split; [exact Hrun|]. split; [exact Hlb|].
      split; [exact Hreg|]. right. split; [done|]. split; [exact Hno|].
      exists new_auth_node. done.
    + change (String.eqb "CONTENT" "AUTH") with false.
      change (String.eqb "CONTENT" "CONTENT") with true. cbv iota.
      destruct (Hspawn new_content_node eq_refl)
        as (node & n & tm1 & Hrun & Hlb & Hreg & Htm).
      exists node, n, tm1, 1. split; [exact Hrun|]. split; [exact Hlb|].
      split; [exact Hreg|]. right. split; [done|]. split; [exact Hno|].
      exists new_content_node. done.
Qed.

(** A node spawned for a role nobody serves, once selected, has the
    address it reported by the end of the sleep. *)
Lemma spawned_node_is_selected tm wanted new_node address node n :
  (forall r n0, ~ registered_as tm wanted r n0) ->
  registered_as (spawn new_node address tm) wanted node n ->
  conn_host n = fst address /\ conn_port n = snd address.
Proof.
  intros Hno (Hin & Hobj & Hct). unfold spawn in *. simpl in *.
  destruct (decide (node = fresh_id tm)) as [->|Hne].
  - rewrite lookup_insert_eq in Hobj. by injection Hobj as <-.
  - rewrite lookup_insert_ne in Hobj by done.
    apply elem_of_app in Hin as [Hin|Hin]; [|by apply list_elem_of_singleton in Hin].
    destruct (Hno node n). done.
Qed.

(** C7, as the code has it.  A [NODE_REQUEST|requester|wanted] packet at
    the coordinator.  For [wanted] one of [AUTH] and [CONTENT] the handler
    ends after at most two rounds of its loop (fuel 2 is enough): it
    selects among the registered entries of the role when there is one, and
    otherwise spawns one node of the role, registers it and selects it; it
    has then put exactly one message at the end of its queue,
    [NODE_FIND_SUCCESS|requester|wanted|host|port], where [host] and [port]
    are [str] of the attributes [conn_host] and [conn_port] of the selected
    node: for a node spawned by the handler, what the node has written
    there by the end of the sleep.  For any other role of which no entry is
    registered it returns with the state, queue included, as it was. *)
Theorem handle_node_request_reply (fuel : nat) (startup : nat -> Py.pyval * Py.pyval)
    (opcode requester wanted : string) (rest : list string) (st : state) :
  2 <= fuel ->
  (wanted = "AUTH" \/ wanted = "CONTENT" ->
   exists node n tm1 st' spawned,
     handle_node_request fuel startup (opcode :: requester :: wanted :: rest) st
     = Some (Returned tt, st', spawned) /\
     running (write_handler st') = running (write_handler st) /\
     out_buffer (write_handler st')
     = out_buffer (write_handler st)
       ++ [("NODE_FIND_SUCCESS|" ++ requester ++ "|" ++ wanted ++ "|"
            ++ Py.str (conn_host n) ++ "|" ++ Py.str (conn_port n))%string] /\
     load_balancer wanted tm1 = (Some node, thread_manager st') /\
     registered_as tm1 wanted node n /\
     ((spawned = 0 /\ tm1 = thread_manager st) \/
      (spawned = 1 /\ (forall r n0, ~ registered_as (thread_manager st) wanted r n0) /\
       (exists new_node,
          conn_type new_node = wanted /\
          tm1 = spawn new_node (startup 0) (thread_manager st)) /\
       conn_host n = fst (startup 0) /\ conn_port n = snd (startup 0)))) /\
  ((forall r n, ~ registered_as (thread_manager st) wanted r n) ->
   wanted <> "AUTH" -> wanted <> "CONTENT" ->
   handle_node_request fuel startup (opcode :: requester :: wanted :: rest) st
   = Some (Returned tt, st, 0)).
Proof.
  intros Hfuel. destruct fuel as [|[|fuel]]; [lia | lia |].
  split.
  - intros Hrole. unfold handle_node_request.
    destruct (select_or_spawn_selects fuel startup wanted (thread_manager st) Hrole)
      as (node & n & tm1 & spawned & Hrun & Hlb & Hreg & Hspawned).
    exists node, n, tm1. eexists _, spawned. rewrite Hrun. unfold node_address.
    pose proof Hreg as (Hin & Hobj & Hct).
    rewrite (incr_load_lookup _ _ _ Hobj). split; [reflexivity|].
    cbn [write_handler thread_manager push_message running out_buffer set_load conn_host
         conn_port].
    split; [reflexivity|]. split; [reflexivity|].
    split; [exact Hlb|]. split; [exact Hreg|].
    destruct Hspawned as [[-> ->] | (-> & Hnone & new_node & Hnew & ->)]; [by left|].
    right. split; [done|]. split; [exact Hnone|]. split; [by exists new_node|].
    by apply (spawned_node_is_selected _ _ _ _ _ _ Hnone Hreg).
  - intros Hno Hauth Hcontent. unfold handle_node_request. cbn [select_or_spawn].
    rewrite (load_balancer_none _ _ Hno).
    apply String.eqb_neq in Hauth, Hcontent. rewrite Hauth, Hcontent.
    by destruct st.
Qed.

End NodeRequest.

Lemma handle_node_request_reply_witness :
  (exists st',
     BootstrapNode.handle_node_request 2
       (fun _ => (Py.PyStr "10.30.8.123", Py.PyInt 50011))
       ["NODE_REQUEST"; "CLIENT"; "AUTH"] coordinator_example
     = Some (Node.Returned tt, st', 1) /\
     Node.out_buffer (BootstrapNode.write_handler st')
     = ["NODE_FIND_SUCCESS|CLIENT|AUTH|10.30.8.123|50011"]) /\
  BootstrapNode.handle_node_request 2
    (fun _ => (Py.PyStr "10.30.8.123", Py.PyInt 50011))
    ["NODE_REQUEST"; "CLIENT"; "PRIME"] coordinator_example
  = Some (Node.Returned tt, coordinator_example, 0).
Proof.
  destruct (handle_node_request_reply 2 (fun _ => (Py.PyStr "10.30.8.123", Py.PyInt 50011))
              "NODE_REQUEST" "CLIENT" "AUTH" [] coordinator_example) as [Hreply _]; [lia|].
  destruct (handle_node_request_reply 2 (fun _ => (Py.PyStr "10.30.8.123", Py.PyInt 50011))
              "NODE_REQUEST" "CLIENT" "PRIME" [] coordinator_example) as [_ Hdrop]; [lia|].
  assert (Hnone : forall role, role <> "CLIENT" ->
            forall r n, ~ registered_as (BootstrapNode.thread_manager coordinator_example)
                          role r n).
  { intros role Hrole r n (Hin & Hobj & Hct).
    apply list_elem_of_singleton in Hin. subst r.
    vm_compute in Hobj. injection Hobj as <-. by destruct Hrole. }
  split.
  - destruct Hreply
      as (node & n & tm1 & st' & spawned & Hrun & _ & Hqueue & _ & Hreg & Hspawned);
      [by left|].
    destruct Hspawned as [[-> ->] | (-> & _ & _ & Hhost & Hport)].
    + destruct (Hnone "AUTH" ltac:(discriminate) node n Hreg).
    + exists st'. split; [exact Hrun|]. rewrite Hqueue, Hhost, Hport. reflexivity.
  - apply Hdrop; [|discriminate|discriminate].
    apply Hnone. discriminate.
Defined.

(** C7 as stated fails when the node the handler spawns has not bound its
    server by the end of the sleep: the one reply that is queued carries no
    host and no port but the text [None|None], the attributes of the
    selected node being still [None], and the client that reads it raises
    [ValueError] before it connects to anything. *)
Lemma node_request_reply_without_address :
  exists st',
    BootstrapNode.handle_node_request 2 slow_startup ["NODE_REQUEST"; "CLIENT"; "AUTH"]
      coordinator_example
    = Some (Node.Returned tt, st', 1) /\
    Node.out_buffer (BootstrapNode.write_handler st')
    = ["NODE_FIND_SUCCESS|CLIENT|AUTH|None|None"] /\
    Node.node_threads (BootstrapNode.thread_manager st') = [0; 1] /\
    Node.objects (BootstrapNode.thread_manager st') !! 1
    = Some (Node.mk_node "AUTH" "auth1" Py.PyNone Py.PyNone 1) /\
    ClientNode.handle_prime client_identity open_network
      (Py.split "|" "NODE_FIND_SUCCESS|CLIENT|AUTH|None|None") client_start client_links
    = (Node.Raised "ValueError", client_start, client_links, None).
Proof.
  eexists. split; [vm_compute; reflexivity|].
  split; [reflexivity|]. split; [reflexivity|]. split; [vm_compute; reflexivity|].
  vm_compute. reflexivity.
Qed.

Example node_request_spawns_auth :
  option_map (fun r => Node.out_buffer (BootstrapNode.write_handler (snd (fst r))))
    (BootstrapNode.handle_node_request 2
       (fun _ => (Py.PyStr "10.30.8.123", Py.PyInt 50011))
       ["NODE_REQUEST"; "CLIENT"; "AUTH"] coordinator_example)
  = Some ["NODE_FIND_SUCCESS|CLIENT|AUTH|10.30.8.123|50011"].
Proof. vm_compute. reflexivity. Qed.

(** ** Strings *)

Section Strings.

Import Py.

Lemma split_without sep s : has_char sep s = false -> split sep s = [s].
Proof.
  induction s as [|a s IH]; simpl; [done|].
  intros H. apply orb_false_elim in H as [Ha Hs]. rewrite Ha, (IH Hs). done.
Qed.

Lemma split_app_sep sep x y :
  has_char sep x = false -> split sep (x ++ String sep y) = x :: split sep y.
Proof.
  induction x as [|a x IH]; simpl.
  - intros _. by rewrite Ascii.eqb_refl.
  - intros H. apply orb_false_elim in H as [Ha Hx]. rewrite Ha, (IH Hx). done.
Qed.
















End Strings.

(** ** The catalog and the sample rate *)

Section Catalog.

Import Node ContentNode.
Local Open Scope list_scope.

Lemma elem_of_catalog files name :
  name ∈ catalog files <->
  exists file, file ∈ files /\ Py.endswith (Py.lower file) ".wav" = true /\
               name = Py.lower (fst (Py.splitext file)).
Proof.
  unfold catalog. rewrite elem_of_list_to_set, list_elem_of_In, in_map_iff. split.
  - intros (file & Hname & Hin). apply filter_In in Hin as [Hin Hends].
    exists file. by rewrite list_elem_of_In.
  - intros (file & Hin & Hends & Hname). exists file. split; [done|].
    apply filter_In. by rewrite <- list_elem_of_In.
Qed.


(** Iterating a set yields its elements, each once. *)
Lemma iteration_Permutation place (s : gset string) : iteration place s ≡ₚ elements s.
Proof. apply merge_sort_Permutation. Qed.


#[local] Instance comes_before_trans place : Transitive (comes_before place).
Proof. unfold comes_before. intros a b c. lia. Qed.

#[local] Instance comes_before_total place : Total (comes_before place).
Proof. unfold comes_before. intros a b. lia. Qed.

Lemma place_of_nonneg l a : (0 <= place_of l a)%Z.
Proof. induction l as [|x l IH]; simpl; [done|]. destruct (String.eqb a x); lia. Qed.

Lemma place_of_app l1 l2 a :
  a ∉ l1 -> place_of (l1 ++ l2) a = (Z.of_nat (length l1) + place_of l2 a)%Z.
Proof.
  induction l1 as [|x l1 IH]; intros Hnin; [simpl; lia|].
  apply not_elem_of_cons in Hnin as [Hne Hnin]. cbn [app place_of length].
  apply String.eqb_neq in Hne. rewrite Hne, IH by done. lia.
Qed.

Lemma place_of_lookup l a : a ∈ l -> l !! Z.to_nat (place_of l a) = Some a.
Proof.
  induction l as [|x l IH]; intros Hin; [by apply elem_of_nil in Hin|].
  cbn [place_of]. destruct (String.eqb_spec a x) as [->|Hne]; [done|].
  apply elem_of_cons in Hin as [->|Hin]; [done|].
  pose proof (place_of_nonneg l a).
  replace (Z.to_nat (1 + place_of l a)) with (S (Z.to_nat (place_of l a))) by lia.
  by apply IH.
Qed.

Lemma place_of_sorted l :
  NoDup l ->
  forall before, (forall a, a ∈ l -> a ∉ before) ->
  StronglySorted (comes_before (place_of (before ++ l))) l.
Proof.
  induction 1 as [|x l Hx Hnodup IH]; intros before Hfresh; [constructor|].
  constructor.
  - replace (before ++ x :: l) with ((before ++ [x]) ++ l) by (by rewrite <- app_assoc).
    apply IH. intros a Ha Hin. apply elem_of_app in Hin as [Hin|Hin].
    + by apply (Hfresh a); [right|].
    + apply list_elem_of_singleton in Hin as ->. done.
  - apply Forall_forall. intros b Hb. unfold comes_before.
    rewrite !place_of_app by (apply Hfresh; first [left | by right]).
    cbn [place_of]. rewrite String.eqb_refl. pose proof (place_of_nonneg l b).
    destruct (String.eqb b x); lia.
Qed.

(** Every order of the elements of a set is the order of some [place]. *)
Lemma iteration_any_order (s : gset string) (l : list string) :
  l ≡ₚ elements s -> iteration (place_of l) s = l.
Proof.
  intros Hperm. unfold iteration.
  assert (Hnodup : NoDup l) by (rewrite Hperm; apply NoDup_elements).
  apply StronglySorted_unique_strong with (R := comes_before (place_of l)).
  - intros a b Ha Hb Hab Hba. rewrite merge_sort_Permutation, <- Hperm in Ha.
    unfold comes_before in *.
    assert (Heq : place_of l a = place_of l b) by lia.
    apply place_of_lookup in Ha, Hb. rewrite Heq in Ha. congruence.
  - apply StronglySorted_merge_sort; apply _.
  - pose proof (place_of_sorted l Hnodup [] ltac:(intros a _; apply not_elem_of_nil)) as H.
    exact H.
  - by rewrite merge_sort_Permutation.
Qed.

(** What [FILE_REQUEST] queues: one message in either case. *)
Lemma file_request_reply place files st :
  write_handler (process_file_request place files st)
  = push_message
      (match files with
       | [] => "NO_FILES_AVAILABLE"
       | _ => ("FILES_AVAILABLE|" ++ Py.join "|" (iteration place (catalog files)))%string
       end)
      (write_handler st).
Proof. destruct files; reflexivity. Qed.


(** C4, at the input where the code departs from it: a directory that
    holds files, none of them a [.wav], has an empty catalog, and
    [FILE_REQUEST] is answered with [FILES_AVAILABLE|] (an empty list of
    names), not with [NO_FILES_AVAILABLE]: the test [if not files] looks at
    the directory listing, not at the music files. *)
Theorem file_request_without_music (me : identity) (st : state)
    (wave_open : string -> option wave_file) (ready : nat -> write_ready)
    (auth : list (string * Z)) (connecting : nat -> attempt) (place : string -> Z) :
  catalog ["notes.txt"] = ∅ /\
  handle_client (mk_env ["notes.txt"] wave_open ready auth connecting place) me
    (Py.split "|" "FILE_REQUEST") st
  = Some (Returned tt, push "FILES_AVAILABLE|" (set_music_files ∅ st), []).
Proof. split; reflexivity. Qed.

(** An empty directory is answered with [NO_FILES_AVAILABLE]. *)
Example file_request_empty_directory (me : identity) (st : state)
    (wave_open : string -> option wave_file) (ready : nat -> write_ready)
    (auth : list (string * Z)) (connecting : nat -> attempt) (place : string -> Z) :
  handle_client (mk_env [] wave_open ready auth connecting place) me
    (Py.split "|" "FILE_REQUEST") st
  = Some (Returned tt, push "NO_FILES_AVAILABLE" st, []).
Proof. reflexivity. Qed.




End Catalog.




(** Accented letters below 256 are lowered like the others: the entry
    [ÀB.wav] is listed as [àb], the client turns the typed [Àb] into that
    name, and the request for it is accepted. *)
Example accented_name_accepted :
  text "ÀB.wav" = String (ascii_of_nat 192) "B.wav" /\
  Py.lower (text "ÀB.wav") = text "àb.wav" /\
  elements (ContentNode.catalog (ContentNode.listdir accented_directory)) = [text "àb"] /\
  snd (ClientNode.handle_content (text " Àb") ["FILES_AVAILABLE"; text "àb"] client_start)
  = ClientNode.push ("FILE_NAME|" ++ text "àb") client_start /\
  option_map (fun r => Node.out_buffer (ContentNode.write_handler (snd (fst r))))
    (ContentNode.handle_client accented_directory content_identity
       ["FILE_NAME"; text "àb"] content_start)
  = Some ["STREAM_MODE_ENTER|44100"].
Proof. repeat split; vm_compute; reflexivity. Qed.

(** Two more entries a listed name of which is not accepted: [.wav], which
    [splitext] does not split, so that the file looked for is [.wav.wav];
    and an entry that does not open as a WAV file. *)
Example listed_name_of_dot_file :
  ContentNode.handle_client
    (ContentNode.mk_env [".wav"] (fun _ => Some (ContentNode.mk_wave 44100 []))
       (fun _ => ContentNode.Writable) []
       (fun _ => Node.mk_attempt Node.Opened Node.Ready Node.Sent) (fun _ => 0%Z))
    content_identity (Py.split "|" "FILE_NAME|.wav") content_start
  = Some (Node.Raised "StopIteration",
          ContentNode.set_music_files {[ ".wav" ]} content_start, []).
Proof. vm_compute. reflexivity. Qed.

Example listed_name_of_unreadable_file :
  ContentNode.handle_client
    (ContentNode.mk_env ["song1.wav"] (fun _ => None)
       (fun _ => ContentNode.Writable) []
       (fun _ => Node.mk_attempt Node.Opened Node.Ready Node.Sent) (fun _ => 0%Z))
    content_identity (Py.split "|" "FILE_NAME|song1") content_start
  = Some (Node.Raised "wave.Error",
          ContentNode.set_file_to_stream "song1.wav"
            (ContentNode.set_music_files {[ "song1" ]} content_start), []).
Proof. vm_compute. reflexivity. Qed.

(** ** The streaming frames *)

Section Frames.

Import ClientNode.
Local Open Scope list_scope.

(** The digests [hashlib.md5] gives for the empty input, for [abc], and for
    the seventy bytes 0..69 (two blocks). *)
Example md5_empty :
  Hashlib.md5 []
  = map byte.of_Z [212; 29; 140; 217; 143; 0; 178; 4; 233; 128; 9; 152; 236; 248; 66; 126]%Z.
Proof. vm_compute. reflexivity. Qed.

Example md5_abc :
  Hashlib.md5 ["a"; "b"; "c"]%byte
  = map byte.of_Z [144; 1; 80; 152; 60; 210; 79; 176; 214; 150; 63; 125; 40; 225; 127; 114]%Z.
Proof. vm_compute. reflexivity. Qed.

Example md5_two_blocks :
  Hashlib.md5 (map (fun n => byte.of_Z (Z.of_nat n)) (seq 0 70))
  = map byte.of_Z [95; 31; 95; 100; 184; 68; 0; 251; 154; 214; 216; 236; 217; 193; 66; 160]%Z.
Proof. vm_compute. reflexivity. Qed.

Lemma md5_length payload : length (Hashlib.md5 payload) = 16.
Proof.
  unfold Hashlib.md5. destruct (fold_left _ _ _) as [[[a b] c] d].
  rewrite !length_app, !length_le_split. reflexivity.
Qed.

Lemma pack_unpack n bs :
  Struct.pack_I n = Some bs -> length bs = 4 /\ Struct.unpack_I bs = n.
Proof.
  unfold Struct.pack_I, Struct.unpack_I.
  destruct (Z.leb_spec 0 n), (Z.ltb_spec n (2 ^ 32)); simpl; try done.
  intros [= <-]. split; [apply length_le_split|].
  rewrite le_combine_split. apply Z.mod_small. simpl. lia.
Qed.

Lemma frame_some payload :
  (Z.of_nat (length payload) < 2 ^ 32)%Z ->
  ContentNode.frame payload = Some (frame_bytes payload).
Proof.
  intros H. unfold ContentNode.frame, Struct.pack_I, frame_bytes.
  destruct (Z.leb_spec 0 (Z.of_nat (length payload))); [|lia].
  destruct (Z.ltb_spec (Z.of_nat (length payload)) (2 ^ 32)); [|lia]. done.
Qed.

(** The sender, on a socket that stays writable: one frame per chunk. *)
Lemma stream_chunks_frames chunks :
  Forall (fun c => c <> [] /\ (Z.of_nat (length c) < 2 ^ 32)%Z) chunks ->
  forall i, ContentNode.stream_chunks chunks (fun _ => ContentNode.Writable) i
            = map frame_bytes chunks.
Proof.
  induction 1 as [|c chunks [Hc Hlen] _ IH]; intros i; [done|].
  cbn [ContentNode.stream_chunks map]. destruct c as [|b c]; [done|].
  rewrite (frame_some _ Hlen), IH. done.
Qed.

Lemma split_prefix (data rest D tail : list byte) :
  data ++ rest = D ++ tail -> length D <= length data ->
  take (length D) data = D /\ drop (length D) data ++ rest = tail.
Proof.
  intros Heq Hlen. split.
  - rewrite <- (take_app_le data rest) by done. rewrite Heq. apply take_app_length.
  - rewrite <- drop_app_le by done. rewrite Heq. apply drop_app_length.
Qed.

(** The header loop reads packets until twenty bytes are buffered. *)
Lemma recv_header_enough closed :
  forall packets data,
  Forall (fun p => p <> []) packets ->
  20 <= length (data ++ concat packets) ->
  exists N data' packets',
    data' ++ concat packets' = data ++ concat packets /\
    20 <= length data' /\
    Forall (fun p => p <> []) packets' /\
    forall fuel, N <= fuel ->
      recv_header fuel data (delivering packets closed)
      = Some (inr (data', delivering packets' closed)).
Proof.
  induction packets as [|p packets IH]; intros data Hne Hlen.
  - exists 0, data, []. split; [done|]. rewrite app_nil_r in Hlen.
    split; [done|]. split; [done|]. intros fuel _.
    destruct fuel; cbn [recv_header]; unfold header_size;
      destruct (Nat.ltb_spec (length data) (4 + 16)); try lia; done.
  - destruct (Nat.ltb_spec (length data) 20) as [Hshort|Hlong].
    + apply Forall_cons in Hne as [Hp Hne].
      destruct (IH (data ++ p) Hne) as (N & data' & packets' & Heq & Hlen' & Hne' & Hrun).
      { by rewrite <- app_assoc. }
      exists (S N), data', packets'. split; [by rewrite Heq, <- app_assoc|].
      split; [done|]. split; [done|]. intros fuel Hfuel.
      destruct fuel as [|fuel]; [lia|]. cbn [recv_header]. unfold header_size.
      destruct (Nat.ltb_spec (length data) (4 + 16)); [|lia].
      unfold delivering, recv. cbn [pending map peer_closed].
      destruct p as [|b p]; [done|]. apply Hrun. lia.
    + exists 0, data, (p :: packets). split; [done|]. split; [done|]. split; [done|].
      intros fuel _.
      destruct fuel; cbn [recv_header]; unfold header_size;
        destruct (Nat.ltb_spec (length data) (4 + 16)); try lia; done.
Qed.

(** The payload loop reads packets until [msg_size] bytes are buffered. *)
Lemma recv_payload_enough closed msg_size :
  forall packets data,
  Forall (fun p => p <> []) packets ->
  (msg_size <= Z.of_nat (length (data ++ concat packets)))%Z ->
  exists N data' packets',
    data' ++ concat packets' = data ++ concat packets /\
    (msg_size <= Z.of_nat (length data'))%Z /\
    Forall (fun p => p <> []) packets' /\
    forall fuel, N <= fuel ->
      recv_payload fuel msg_size data (delivering packets closed)
      = Some (data', delivering packets' closed).
Proof.
  induction packets as [|p packets IH]; intros data Hne Hlen.
  - exists 0, data, []. split; [done|]. rewrite app_nil_r in Hlen.
    split; [done|]. split; [done|]. intros fuel _.
    destruct fuel; cbn [recv_payload];
      destruct (Z.ltb_spec (Z.of_nat (length data)) msg_size); try lia; done.
  - destruct (Z.ltb_spec (Z.of_nat (length data)) msg_size) as [Hshort|Hlong].
    + apply Forall_cons in Hne as [Hp Hne].
      destruct (IH (data ++ p) Hne) as (N & data' & packets' & Heq & Hlen' & Hne' & Hrun).
      { by rewrite <- app_assoc. }
      exists (S N), data', packets'. split; [by rewrite Heq, <- app_assoc|].
      split; [done|]. split; [done|]. intros fuel Hfuel.
      destruct fuel as [|fuel]; [lia|]. cbn [recv_payload].
      destruct (Z.ltb_spec (Z.of_nat (length data)) msg_size); [|lia].
      unfold delivering, recv. cbn [pending map peer_closed]. apply Hrun. lia.
    + exists 0, data, (p :: packets). split; [done|]. split; [done|]. split; [done|].
      intros fuel _.
      destruct fuel; cbn [recv_payload];
        destruct (Z.ltb_spec (Z.of_nat (length data)) msg_size); try lia; done.
Qed.


(** One turn of the receiver's loop over a stream that starts with sixteen
    bytes [D], a four-byte length [L] and [L] bytes [B]: [B] is played when
    its digest is [D], and the loop is left by [break] when it is not. *)
Lemma stream_loop_frame closed D L B tail :
  length D = 16 -> length L = 4 -> Struct.unpack_I L = Z.of_nat (length B) ->
  forall packets data,
  Forall (fun p => p <> []) packets ->
  data ++ concat packets = D ++ L ++ B ++ tail ->
  exists N data' packets',
    data' ++ concat packets' = tail /\
    Forall (fun p => p <> []) packets' /\
    forall fuel played, N <= fuel ->
      stream_loop (S fuel) data (delivering packets closed) played
      = if bool_decide (Hashlib.md5 B = D)
        then stream_loop fuel data' (delivering packets' closed) (played ++ [B])
        else Some (Corrupted, played).
Proof.
  intros HD HL Hsize packets data Hne Heq.
  destruct (recv_header_enough closed packets data Hne)
    as (N1 & data1 & packets1 & Heq1 & Hlen1 & Hne1 & Hrun1).
  { rewrite Heq, !length_app. lia. }
  rewrite Heq in Heq1.
  destruct (split_prefix _ _ _ _ Heq1) as [Hdigest Hrest1]; [lia|].
  rewrite HD in Hdigest, Hrest1.
  destruct (split_prefix _ _ _ _ Hrest1) as [Hlength Hrest2].
  { rewrite length_drop. lia. }
  rewrite HL in Hlength, Hrest2.
  destruct (recv_payload_enough closed (Z.of_nat (length B)) packets1
              (drop 4 (drop 16 data1)) Hne1)
    as (N2 & data2 & packets2 & Heq2 & Hlen2 & Hne2 & Hrun2).
  { rewrite Hrest2, !length_app. lia. }
  rewrite Hrest2 in Heq2.
  destruct (split_prefix _ _ _ _ Heq2) as [Hpayload Hrest3]; [lia|].
  exists (N1 `max` N2), (drop (length B) data2), packets2.
  split; [exact Hrest3|]. split; [exact Hne2|].
  intros fuel played Hfuel. cbn [stream_loop].
  rewrite Hrun1 by lia. unfold header_size. rewrite Hdigest, Hlength, Hsize.
  rewrite Hrun2 by lia. rewrite Nat2Z.id, Hpayload. reflexivity.
Qed.

(** The receiver over a run of well-formed frames: each payload is played,
    in order, and the loop goes on with what follows them. *)
Lemma stream_loop_frames closed tail :
  forall payloads packets data,
  Forall (fun c => (Z.of_nat (length c) < 2 ^ 32)%Z) payloads ->
  Forall (fun p => p <> []) packets ->
  data ++ concat packets = concat (map frame_bytes payloads) ++ tail ->
  exists N data' packets',
    data' ++ concat packets' = tail /\
    Forall (fun p => p <> []) packets' /\
    forall fuel played, N <= fuel ->
      stream_loop (length payloads + fuel) data (delivering packets closed) played
      = stream_loop fuel data' (delivering packets' closed) (played ++ payloads).
Proof.
  induction payloads as [|c payloads IH]; intros packets data Hsize Hne Heq.
  - exists 0, data, packets. split; [done|]. split; [done|].
    intros fuel played _. by rewrite app_nil_r.
  - apply Forall_cons in Hsize as [Hc Hsize].
    destruct (pack_unpack (Z.of_nat (length c)) (le_split 4 (Z.of_nat (length c))))
      as [HL Hunpack].
    { unfold Struct.pack_I.
      destruct (Z.leb_spec 0 (Z.of_nat (length c))); [|lia].
      by destruct (Z.ltb_spec (Z.of_nat (length c)) (2 ^ 32)); [|lia]. }
    destruct (stream_loop_frame closed (Hashlib.md5 c)
                (le_split 4 (Z.of_nat (length c))) c
                (concat (map frame_bytes payloads) ++ tail)
                (md5_length c) HL Hunpack packets data Hne)
      as (N1 & data1 & packets1 & Heq1 & Hne1 & Hrun1).
    { rewrite Heq. cbn [map concat]. unfold frame_bytes. by rewrite <- !app_assoc. }
    destruct (IH packets1 data1 Hsize Hne1 Heq1)
      as (N2 & data2 & packets2 & Heq2 & Hne2 & Hrun2).
    exists (N1 `max` N2), data2, packets2. split; [exact Heq2|]. split; [exact Hne2|].
    intros fuel played Hfuel. cbn [length Nat.add].
    rewrite Hrun1 by lia. rewrite bool_decide_eq_true_2 by done.
    rewrite Hrun2 by lia. by rewrite <- app_assoc.
Qed.

(** At the end of the stream the header loop finds nothing and the loop is
    left through [except Exception]. *)
Lemma stream_loop_end closed fuel played :
  stream_loop (S (S fuel)) [] (delivering [] closed) played
  = Some (Caught (starved closed), played).
Proof. by destruct closed. Qed.

Lemma concat_nil_nonempty (packets : list (list byte)) :
  Forall (fun p => p <> []) packets -> concat packets = [] -> packets = [].
Proof.
  destruct 1 as [|p packets Hp _]; [done|]. cbn [concat].
  intros H. apply app_eq_nil in H as [-> _]. done.
Qed.








End Frames.



(** What the digest comparison cannot tell apart: the two colliding chunks
    differ and have the same digest, and the frame of the one, changed in
    the two bytes in which they differ, is played as the other. *)
Example colliding_chunks_are_not_told_apart :
  colliding_chunk <> other_colliding_chunk /\
  Hashlib.md5 colliding_chunk = Hashlib.md5 other_colliding_chunk /\
  ClientNode.handle_stream_mode 4
    (delivering [<[75 := byte.of_Z 213]> (<[55 := byte.of_Z 2]> (frame_bytes colliding_chunk))]
       true)
    client_start
  = Some (ClientNode.Caught "RuntimeError", [other_colliding_chunk],
          ClientNode.push "CLIENT_STREAM_MODE_LEAVE"
            (ClientNode.set_stream_mode false client_start)).
Proof.
  split; [intros H; vm_compute in H; discriminate|].
  split; vm_compute; reflexivity.
Qed.

(** The header loop does not wait: when the bytes of an intact frame arrive
    in two parts and the socket is empty in between, the [BlockingIOError]
    of the second [recv] ends the stream and nothing is played. *)
Example header_gap_ends_stream :
  ClientNode.handle_stream_mode 5
    (ClientNode.mk_socket
       [ClientNode.Recv (take 10 (frame_bytes ["A"%byte])); ClientNode.BlockingIOError;
        ClientNode.Recv (drop 10 (frame_bytes ["A"%byte]))] false)
    client_start
  = Some (ClientNode.Caught "BlockingIOError", [],
          ClientNode.push "CLIENT_STREAM_MODE_LEAVE"
            (ClientNode.set_stream_mode false client_start)).
Proof. vm_compute. reflexivity. Qed.

(** The payload loop does wait: the same gap after the header is passed
    over, and the chunk is played. *)
Example payload_gap_is_passed_over :
  ClientNode.handle_stream_mode 5
    (ClientNode.mk_socket
       [ClientNode.Recv (take 20 (frame_bytes ["A"%byte])); ClientNode.BlockingIOError;
        ClientNode.Recv (drop 20 (frame_bytes ["A"%byte]))] true)
    client_start
  = Some (ClientNode.Caught "RuntimeError", [["A"%byte]],
          ClientNode.push "CLIENT_STREAM_MODE_LEAVE"
            (ClientNode.set_stream_mode false client_start)).
Proof. vm_compute. reflexivity. Qed.

(** * Further properties of the code *)

(** ** Python's [int] on the texts of the protocol *)

Section Integers.

Import Py.











End Integers.

(** ** The registry: listings and total load *)

Section RegistryLifecycle.

Import Node.
Local Open Scope list_scope.

Lemma existsb_eqb_elem r l : existsb (Nat.eqb r) l = true <-> r ∈ l.
Proof.
  rewrite existsb_exists. split.
  - intros (x & Hin & Heq). apply Nat.eqb_eq in Heq as ->. by apply list_elem_of_In.
  - intros Hin. exists r. split; [by apply list_elem_of_In | apply Nat.eqb_refl].
Qed.

Lemma remove_first_app_new r l : r ∉ l -> remove_first r (l ++ [r]) = l.
Proof.
  induction l as [|x l IH]; intros Hnin; simpl.
  - by rewrite Nat.eqb_refl.
  - apply not_elem_of_cons in Hnin as [Hne Hnin].
    destruct (Nat.eqb_spec x r) as [->|_]; [done|]. by rewrite IH.
Qed.

Lemma remove_first_filter_ne r l :
  List.filter (fun x => negb (Nat.eqb x r)) (remove_first r l)
  = List.filter (fun x => negb (Nat.eqb x r)) l.
Proof.
  induction l as [|x l IH]; simpl; [done|].
  destruct (Nat.eqb_spec x r) as [->|Hne]; simpl; [done|].
  destruct (Nat.eqb_spec x r); [done|]. simpl. by rewrite IH.
Qed.

Lemma remove_first_count r l :
  r ∈ l -> S (count_occ Nat.eq_dec (remove_first r l) r) = count_occ Nat.eq_dec l r.
Proof.
  induction l as [|x l IH]; intros Hin; simpl.
  - by apply elem_of_nil in Hin.
  - destruct (Nat.eqb_spec x r) as [->|Hne].
    + by destruct (Nat.eq_dec r r).
    + simpl. destruct (Nat.eq_dec x r); [done|].
      apply IH. apply elem_of_cons in Hin as [->|Hin]; done.
Qed.

Lemma remove_first_absent r l : r ∉ l -> remove_first r l = l.
Proof.
  induction l as [|x l IH]; intros Hnin; simpl; [done|].
  apply not_elem_of_cons in Hnin as [Hne Hnin].
  destruct (Nat.eqb_spec x r) as [->|_]; [done|]. by rewrite IH.
Qed.

Lemma remove_first_first r l1 l2 : r ∉ l1 -> remove_first r (l1 ++ r :: l2) = l1 ++ l2.
Proof.
  induction l1 as [|x l1 IH]; intros Hnin; simpl.
  - by rewrite Nat.eqb_refl.
  - apply not_elem_of_cons in Hnin as [Hne Hnin].
    destruct (Nat.eqb_spec x r) as [->|_]; [done|]. by rewrite IH.
Qed.

(** X1. [unregister] takes the first listing of the node out of
    [node_threads] and nothing else: what stands before and after that
    listing stays, in order; the objects stay; the number of listings of
    the node drops by one (a node that is not listed leaves the registry as
    it was); and registering a node that was not listed and unregistering
    it again gives the registry back. *)
Theorem unregister_removes_one_listing (r : nat) (tm : NodeThreadManager) :
  objects (unregister r tm) = objects tm /\
  (forall before after,
     node_threads tm = before ++ r :: after -> r ∉ before ->
     node_threads (unregister r tm) = before ++ after) /\
  List.filter (fun x => negb (Nat.eqb x r)) (node_threads (unregister r tm))
  = List.filter (fun x => negb (Nat.eqb x r)) (node_threads tm) /\
  count_occ Nat.eq_dec (node_threads (unregister r tm)) r
  = count_occ Nat.eq_dec (node_threads tm) r - 1 /\
  (r ∉ node_threads tm -> unregister r tm = tm) /\
  (r ∉ node_threads tm -> unregister r (register r tm) = tm).
Proof.
  unfold unregister.
  destruct (existsb (Nat.eqb r) (node_threads tm)) eqn:Hex.
  - apply existsb_eqb_elem in Hex. simpl.
    split; [done|]. split.
    { intros before after -> Hnin. by apply remove_first_first. }
    split; [apply remove_first_filter_ne|].
    split; [pose proof (remove_first_count r _ Hex); lia|]. done.
  - assert (Hnin : r ∉ node_threads tm).
    { intros Hin. apply existsb_eqb_elem in Hin. congruence. }
    split; [done|]. split.
    { intros before after Heq _. destruct Hnin. rewrite Heq.
      apply elem_of_app. right. left. }
    split; [done|].
    split.
    { rewrite (proj1 (count_occ_not_In Nat.eq_dec _ _)); [done|].
      by rewrite <- list_elem_of_In. }
    split; [done|].
    intros _. unfold register. simpl.
    assert (Hin' : existsb (Nat.eqb r) (node_threads tm ++ [r]) = true).
    { apply existsb_eqb_elem. set_solver. }
    rewrite Hin'. rewrite remove_first_app_new by done. by destruct tm.
Qed.

End RegistryLifecycle.

Lemma unregister_removes_one_listing_witness :
  Node.node_threads (Node.unregister 0 (Node.mk_manager ∅ [1; 0; 2; 0])) = [1; 2; 0] /\
  (7 ∉ Node.node_threads registry_example) /\
  Node.unregister 7 (Node.register 7 registry_example) = registry_example.
Proof.
  split.
  - apply (proj1 (proj2 (unregister_removes_one_listing 0 (Node.mk_manager ∅ [1; 0; 2; 0])))
             [1] [2; 0]); [reflexivity|].
    intros Hin. apply list_elem_of_In in Hin. simpl in Hin. intuition discriminate.
  - assert (H : 7 ∉ Node.node_threads registry_example).
    { intros Hin. apply list_elem_of_In in Hin. simpl in Hin. intuition discriminate. }
    split; [exact H|].
    exact (proj2 (proj2 (proj2 (proj2 (proj2
             (unregister_removes_one_listing 7 registry_example))))) H).
Defined.

Section RegistryLoad.

Import Node.
Local Open Scope list_scope.
Local Open Scope Z_scope.

Lemma fold_left_load_acc (f : nat -> Z) l acc :
  fold_left (fun a r => a + f r) l acc = acc + fold_left (fun a r => a + f r) l 0.
Proof.
  revert acc. induction l as [|x l IH]; intros acc; simpl; [lia|].
  rewrite (IH (acc + f x)), (IH (0 + f x)). lia.
Qed.

Lemma update_main_load_cons o x l :
  update_main_load (mk_manager o (x :: l))
  = load_of (mk_manager o (x :: l)) x + update_main_load (mk_manager o l).
Proof.
  unfold update_main_load. simpl. rewrite fold_left_load_acc.
  unfold load_of. simpl. lia.
Qed.

Lemma total_load_shift (f g : nat -> Z) (r : nat) (d : Z) l :
  (forall x, g x = if Nat.eqb x r then f x + d else f x) ->
  fold_left (fun a x => a + g x) l 0
  = fold_left (fun a x => a + f x) l 0 + d * Z.of_nat (count_occ Nat.eq_dec l r).
Proof.
  intros Hg. induction l as [|x l IH]; simpl; [lia|].
  rewrite (fold_left_load_acc g), (fold_left_load_acc f), IH, Hg.
  destruct (Nat.eq_dec x r) as [->|Hne].
  - rewrite Nat.eqb_refl. lia.
  - destruct (Nat.eqb_spec x r); [done|]. lia.
Qed.

Lemma load_of_incr tm r n x :
  objects tm !! r = Some n ->
  load_of (incr_load r tm) x = if Nat.eqb x r then load_of tm x + 1 else load_of tm x.
Proof.
  intros Hn. unfold load_of, incr_load. simpl.
  destruct (Nat.eqb_spec x r) as [->|Hne].
  - rewrite lookup_alter_eq, Hn. done.
  - by rewrite lookup_alter_ne.
Qed.

Lemma count_occ_NoDup (l : list nat) r :
  NoDup l -> r ∈ l -> count_occ Nat.eq_dec l r = 1%nat.
Proof.
  intros Hnd Hin. apply NoDup_ListNoDup in Hnd.
  apply list_elem_of_In in Hin.
  pose proof (proj1 (List.NoDup_count_occ Nat.eq_dec l) Hnd r) as Hle.
  pose proof (proj1 (count_occ_In Nat.eq_dec l r) Hin). lia.
Qed.

(** X2. A selection by [load_balancer] raises the sum that
    [update_main_load] computes by the number of times the selected object
    is listed; by exactly one when no object is listed twice. *)
Theorem load_balancer_raises_total_load (ct : string) (tm tm' : NodeThreadManager) (r : nat)
    (Hselect : load_balancer ct tm = (Some r, tm')) :
  update_main_load tm'
  = update_main_load tm + Z.of_nat (count_occ Nat.eq_dec (node_threads tm) r) /\
  (NoDup (node_threads tm) -> update_main_load tm' = update_main_load tm + 1).
Proof.
  destruct (load_balancer_some _ _ _ _ Hselect) as (-> & n & (Hin & Hobj & _) & _).
  assert (Hgen : update_main_load (incr_load r tm)
                 = update_main_load tm + Z.of_nat (count_occ Nat.eq_dec (node_threads tm) r)).
  { unfold update_main_load. simpl.
    rewrite (total_load_shift (load_of tm) (load_of (incr_load r tm)) r 1).
    - lia.
    - intros x. by apply (load_of_incr tm r n). }
  split; [exact Hgen|].
  intros Hnd. rewrite Hgen, (count_occ_NoDup _ _ Hnd Hin). done.
Qed.

End RegistryLoad.

Lemma load_balancer_raises_total_load_witness :
  Node.load_balancer "AUTH" registry_example = (Some 0, Node.incr_load 0 registry_example) /\
  NoDup (Node.node_threads registry_example) /\
  Node.update_main_load (Node.incr_load 0 registry_example)
  = (Node.update_main_load registry_example + 1)%Z.
Proof.
  split; [reflexivity|].
  assert (Hnd : NoDup (Node.node_threads registry_example)).
  { unfold registry_example. simpl.
    apply NoDup_ListNoDup. repeat constructor; simpl; intuition discriminate. }
  split; [exact Hnd|].
  exact (proj2 (load_balancer_raises_total_load "AUTH" registry_example
                  (Node.incr_load 0 registry_example) 0 eq_refl) Hnd).
Defined.

(** ** Shutting the registry down *)

Section Shutdown.

Import Node.
Local Open Scope list_scope.

Lemma no_kill_connection c : has_attribute c "kill_connection" = false.
Proof. destruct c; reflexivity. Qed.

(** X3. [NodeThreadManager.close] clears an empty registry, and with any
    entry registered it raises [AttributeError] at the first one (no class
    of the repository has a [kill_connection] method) and leaves the
    registry as it was, whatever the classes of the registered objects.
    [shutdown], which calls it first, therefore clears [running] only when
    no thread is registered. *)
Theorem close_stops_at_first_thread (class_of : nat -> node_class) (tm : NodeThreadManager)
    (wh : NodeWriteHandler) :
  (node_threads tm = [] ->
   close class_of tm = (Returned tt, tm) /\
   AuthNode.shutdown class_of tm wh = (Returned tt, tm, kill_connection wh)) /\
  (node_threads tm <> [] ->
   close class_of tm = (Raised "AttributeError", tm) /\
   AuthNode.shutdown class_of tm wh = (Raised "AttributeError", tm, wh)).
Proof.
  unfold AuthNode.shutdown, close. destruct tm as [o l]. simpl.
  destruct l as [|node l]; simpl.
  - split; [done|]. intros H. by destruct H.
  - rewrite no_kill_connection. simpl. split; [done|]. done.
Qed.

End Shutdown.

Lemma close_stops_at_first_thread_witness :
  Node.node_threads registry_example <> [] /\
  Node.close (fun _ => Node.AuthNodeThread) registry_example
  = (Node.Raised "AttributeError", registry_example) /\
  AuthNode.shutdown (fun _ => Node.AuthNodeThread) registry_example (Node.mk_writer true [])
  = (Node.Raised "AttributeError", registry_example, Node.mk_writer true []).
Proof.
  assert (H : Node.node_threads registry_example <> []) by discriminate.
  split; [exact H|].
  exact (proj2 (close_stops_at_first_thread (fun _ => Node.AuthNodeThread)
                  registry_example (Node.mk_writer true [])) H).
Defined.

(** ** Accepting a connection: the handshake *)

Section Accepting.

Import Node.
Local Open Scope list_scope.

Lemma accept_wrapper_skips fuel recvs i k :
  (forall j, j < k -> recvs (i + j) = Blocking \/ recvs (i + j) = Data "") ->
  accept_wrapper (k + fuel) recvs i = accept_wrapper fuel recvs (i + k).
Proof.
  revert i. induction k as [|k IH]; intros i Hsilent.
  - by rewrite Nat.add_0_r.
  - simpl. destruct (Hsilent 0 ltac:(lia)) as [H|H]; rewrite Nat.add_0_r in H; rewrite H.
    + rewrite IH; [f_equal; lia|]. intros j Hj.
      replace (S i + j) with (i + S j) by lia. apply Hsilent. lia.
    + simpl. rewrite IH; [f_equal; lia|]. intros j Hj.
      replace (S i + j) with (i + S j) by lia. apply Hsilent. lia.
Qed.

(** X4. [accept_wrapper] returns the fields of the first non-empty text
    the connection delivers, after any number of [recv] calls that found
    nothing ([BlockingIOError]) or returned the empty text; it has made one
    [recv] call per such round and one for the text. *)
Theorem accept_wrapper_returns_first_text (recvs : nat -> recv_event) (k : nat)
    (handshake_message : string) (fuel : nat)
    (Hwait : forall j, j < k -> recvs j = Blocking \/ recvs j = Data "")
    (Hfirst : recvs k = Data handshake_message)
    (Htext : handshake_message <> "")
    (Hfuel : k < fuel) :
  accept_wrapper fuel recvs 0 = Some (Returned (Py.split "|" handshake_message), S k).
Proof.
  replace fuel with (k + S (fuel - S k)) by lia.
  rewrite accept_wrapper_skips by exact Hwait.
  simpl. rewrite Hfirst.
  destruct (String.eqb_spec handshake_message ""); [done|]. done.
Qed.

(** X5. [accept_wrapper] does not return while the connection delivers
    no text: with a peer that stays silent, or that has closed without
    sending a handshake (every [recv] gives the empty text), the loop is
    still running after any number of rounds. *)
Theorem accept_wrapper_waits_for_text (recvs : nat -> recv_event)
    (Hsilent : forall j, recvs j = Blocking \/ recvs j = Data "") (fuel : nat) :
  accept_wrapper fuel recvs 0 = None.
Proof.
  replace fuel with (fuel + 0) by lia.
  rewrite accept_wrapper_skips by (intros j _; apply Hsilent). done.
Qed.

End Accepting.

Lemma accept_wrapper_returns_first_text_witness :
  Node.accept_wrapper 3 slow_handshake 0
  = Some (Node.Returned ["CLIENT"; "module1"; "None"; "None"], 3).
Proof.
  apply (accept_wrapper_returns_first_text slow_handshake 2 "CLIENT|module1|None|None" 3).
  - intros j Hj. left. destruct j as [|[|j]]; [reflexivity | reflexivity | lia].
  - reflexivity.
  - discriminate.
  - lia.
Defined.

Lemma accept_wrapper_waits_for_text_witness :
  Node.accept_wrapper 50 (fun _ => Node.Data "") 0 = None.
Proof.
  apply (accept_wrapper_waits_for_text (fun _ => Node.Data "")). intros j. by right.
Defined.

Section Handshake.

Import Node.
Local Open Scope list_scope.

Lemma connect_to_node_shape me env :
  exists out fx,
    connect_to_node me env = (out, fx) /\
    (forall e, out = Raised e -> opening (env 0) = SocketRaises) /\
    (forall sock, out = Returned (Some sock) ->
       sock < 6 /\ succeeds (env sock) /\
       handshakes fx = [(sock, handshake me)] /\ registered fx = [sock]).
Proof.
  unfold connect_to_node.
  destruct (connect_loop_spec me env try_limit 0 None (mk_effects 0 [] [] []))
    as (out & fx & Hrun & Hatt & Hclosed & Hraise & Hnone & Hsome); try done.
  { intros ? ?. lia. }
  { cbn. intros j Hj. by apply elem_of_nil in Hj. }
  { intros j Hj. lia. }
  exists out, fx. split; [exact Hrun|]. split.
  - intros e He. by destruct (Hraise e He) as (_ & H & _).
  - intros sock Hsock.
    destruct (Hsome sock Hsock) as (Hrange & Hok & _ & Hh & Hr & _).
    unfold try_limit in *. split; [lia|]. done.
Qed.

Lemma split_length sep s : length (Py.split sep s) = S (count_char sep s).
Proof.
  induction s as [|a s IH]; simpl; [done|].
  destruct (Ascii.eqb a sep); simpl; [by rewrite IH|].
  destruct (Py.split sep s); simpl in *; [done | lia].
Qed.

Lemma split_fields4 a b c d :
  has_char "|" a = false -> has_char "|" b = false ->
  has_char "|" c = false -> has_char "|" d = false ->
  Py.split "|" (a ++ "|" ++ b ++ "|" ++ c ++ "|" ++ d)%string = [a; b; c; d].
Proof.
  intros Ha Hb Hc Hd.
  change (a ++ "|" ++ b ++ "|" ++ c ++ "|" ++ d)%string
    with (a ++ String "|" (b ++ String "|" (c ++ String "|" d)))%string.
  by rewrite !split_app_sep, split_without.
Qed.

(** X6. The handshake round trip.  When [connect_to_node] returns a
    socket and none of the four announced fields holds a [|], the text it
    sent splits back into the role, the name and the host and port texts;
    the thread built from these fields is a new object, listed last, with
    the announced role as [conn_type] and load 1; and [load_balancer] for
    that role now finds an entry. *)
Theorem handshake_round_trip (me : identity) (env : nat -> attempt) (sock : nat)
    (fx : effects) (tm : NodeThreadManager)
    (Hconnect : connect_to_node me env = (Returned (Some sock), fx))
    (Htype : has_char "|" (node_type me) = false)
    (Hname : has_char "|" (node_name me) = false)
    (Hhost : has_char "|" (Py.str (node_host me)) = false)
    (Hport : has_char "|" (Py.str (node_port me)) = false) :
  exists handshake_message self,
    handshakes fx = [(sock, handshake_message)] /\
    Py.split "|" handshake_message
    = [node_type me; node_name me; Py.str (node_host me); Py.str (node_port me)] /\
    (self ∉ node_threads tm) /\
    objects tm !! self = None /\
    let thread :=
      mk_node (node_type me) (node_name me) (Py.PyStr (Py.str (node_host me)))
        (Py.PyStr (Py.str (node_port me))) 1 in
    let tm' := mk_manager (<[self := thread]> (objects tm)) (node_threads tm ++ [self]) in
    BootstrapNode.BootstrapNodeThread_init (Py.split "|" handshake_message) tm
    = (Returned self, tm') /\
    registered_as tm' (node_type me) self thread /\
    exists r, fst (load_balancer (node_type me) tm') = Some r.
Proof.
  destruct (connect_to_node_shape me env) as (out & fx' & Hrun & _ & Hsome).
  rewrite Hconnect in Hrun. injection Hrun as <- <-.
  destruct (Hsome sock eq_refl) as (_ & _ & Hh & _).
  exists (handshake me), (BootstrapNode.fresh_id tm).
  split; [exact Hh|].
  assert (Hsplit : Py.split "|" (handshake me)
                   = [node_type me; node_name me; Py.str (node_host me);
                      Py.str (node_port me)]).
  { unfold handshake. by apply split_fields4. }
  split; [exact Hsplit|].
  destruct (fresh_id_fresh tm) as [Hlist Hobj].
  split; [exact Hlist|]. split; [exact Hobj|].
  cbv zeta. rewrite Hsplit. split; [reflexivity|].
  assert (Hreg : registered_as
            (mk_manager
               (<[BootstrapNode.fresh_id tm :=
                    mk_node (node_type me) (node_name me) (Py.PyStr (Py.str (node_host me)))
                      (Py.PyStr (Py.str (node_port me))) 1]> (objects tm))
               (node_threads tm ++ [BootstrapNode.fresh_id tm]))
            (node_type me) (BootstrapNode.fresh_id tm)
            (mk_node (node_type me) (node_name me) (Py.PyStr (Py.str (node_host me)))
               (Py.PyStr (Py.str (node_port me))) 1)).
  { split; [simpl; apply elem_of_app; right; apply list_elem_of_singleton; done|].
    split; [simpl; apply lookup_insert_eq | done]. }
  split; [exact Hreg|].
  destruct (load_balancer_is_some _ _ _ _ Hreg) as [r Hr].
  exists r. by rewrite Hr.
Qed.

(** X7. A first packet with fewer than three [|] raises [IndexError] in
    the constructor of the connection thread, before the thread is
    registered: the registry is as it was. *)
Theorem short_handshake_registers_nothing (handshake_message : string)
    (tm : NodeThreadManager) (Hshort : count_char "|" handshake_message < 3) :
  BootstrapNode.BootstrapNodeThread_init (Py.split "|" handshake_message) tm
  = (Raised "IndexError", tm).
Proof.
  pose proof (split_length "|" handshake_message) as Hlen.
  destruct (Py.split "|" handshake_message) as [|a [|b [|c [|d l]]]]; simpl in *;
    first [done | lia].
Qed.

End Handshake.

Lemma handshake_round_trip_witness :
  exists handshake_message self,
    Py.split "|" handshake_message = ["CLIENT"; "module1"; "None"; "None"] /\
    fst (BootstrapNode.BootstrapNodeThread_init (Py.split "|" handshake_message)
           (BootstrapNode.thread_manager coordinator_example))
    = Node.Returned self.
Proof.
  destruct (handshake_round_trip client_identity always_connects 0
              (Node.mk_effects 1 [] [(0, "CLIENT|module1|None|None")] [0])
              (BootstrapNode.thread_manager coordinator_example)
              eq_refl eq_refl eq_refl eq_refl eq_refl)
    as (m & self & _ & Hs & _ & _ & Hinit & _).
  exists m, self. split; [exact Hs|]. by rewrite Hinit.
Defined.

Lemma short_handshake_registers_nothing_witness :
  BootstrapNode.BootstrapNodeThread_init (Py.split "|" "CLIENT|module1")
    (BootstrapNode.thread_manager coordinator_example)
  = (Node.Raised "IndexError", BootstrapNode.thread_manager coordinator_example).
Proof.
  apply (short_handshake_registers_nothing "CLIENT|module1"). cbv. lia.
Defined.

(** ** Connecting: retries and the first success *)

Section Connecting.

Import Node.
Local Open Scope list_scope.

Lemma effects_eta (fx : effects) :
  mk_effects (attempts fx) (closed fx) (handshakes fx) (registered fx) = fx.
Proof. by destruct fx. Qed.

(** [m] attempts in a row that are answered with [continue]: each closes
    one socket, none sends or registers anything, and the loop stands at
    attempt [k + m] with a socket in [new_sock]. *)
Lemma connect_loop_retried me env m :
  forall remaining k new_sock fx,
  (forall j, k <= j < k + m -> retried env j) ->
  (0 < k -> new_sock <> None) ->
  (forall s0, new_sock = Some s0 -> s0 < k) ->
  exists new_sock' cl,
    connect_loop me env (m + remaining) k new_sock fx
    = connect_loop me env remaining (k + m) new_sock'
        (mk_effects (attempts fx + m) (closed fx ++ cl) (handshakes fx) (registered fx)) /\
    (0 < k + m -> new_sock' <> None) /\
    (forall s0, new_sock' = Some s0 -> s0 < k + m) /\
    length cl = m /\
    (forall s0, s0 ∈ cl -> s0 < k + m).
Proof.
  induction m as [|m IH]; intros remaining k new_sock fx Hretry Hsome Hbound.
  - exists new_sock, []. rewrite !Nat.add_0_r, app_nil_r, effects_eta.
    split; [done|]. split; [done|]. split; [done|]. split; [done|].
    intros s0 Hs0. by apply elem_of_nil in Hs0.
  - assert (Hk : retried env k) by (apply Hretry; lia).
    assert (Hstep : forall s c, s < S k -> c < S k ->
      exists new_sock' cl,
        connect_loop me env (m + remaining) (S k) (Some s)
          (mk_effects (S (attempts fx)) (closed fx ++ [c]) (handshakes fx) (registered fx))
        = connect_loop me env remaining (k + S m) new_sock'
            (mk_effects (attempts fx + S m) (closed fx ++ cl) (handshakes fx)
               (registered fx)) /\
        (0 < k + S m -> new_sock' <> None) /\
        (forall s0, new_sock' = Some s0 -> s0 < k + S m) /\
        length cl = S m /\
        (forall s0, s0 ∈ cl -> s0 < k + S m)).
    { intros s c Hs Hc.
      destruct (IH remaining (S k) (Some s)
                  (mk_effects (S (attempts fx)) (closed fx ++ [c]) (handshakes fx)
                     (registered fx)))
        as (new_sock' & cl & Hrun & Hsome' & Hbound' & Hlen & Hcl).
      { intros j Hj. apply Hretry. lia. }
      { done. }
      { intros s0 [= <-]. exact Hs. }
      exists new_sock', (c :: cl). cbn [attempts closed handshakes registered] in Hrun.
      rewrite Hrun. replace (S k + m) with (k + S m) by lia.
      replace (S (attempts fx) + m) with (attempts fx + S m) by lia.
      rewrite <- app_assoc. split; [done|].
      split; [intros _; apply Hsome'; lia|].
      split; [intros s0 Hs0; specialize (Hbound' s0 Hs0); lia|].
      split; [simpl; lia|].
      intros s0 Hs0. apply elem_of_cons in Hs0 as [->|Hs0]; [lia|].
      specialize (Hcl s0 Hs0). lia. }
    cbn [Nat.add connect_loop attempts closed handshakes registered].
    destruct Hk as [Hopen | [(Hopen & Hwait & Hsend) | (Hopen & Hpos)]].
    + rewrite Hopen. apply Hstep; lia.
    + rewrite Hopen, Hwait, Hsend. apply Hstep; lia.
    + rewrite Hopen. destruct new_sock as [s0|]; [|by destruct (Hsome Hpos)].
      pose proof (Hbound s0 eq_refl). apply Hstep; lia.
Qed.

(** [connect_to_node] after [k] such attempts. *)
Lemma connect_after_retries me env k :
  k <= 6 -> (forall j, j < k -> retried env j) ->
  exists new_sock cl,
    connect_to_node me env
    = connect_loop me env (6 - k) k new_sock (mk_effects k cl [] []) /\
    length cl = k /\
    (forall s0, s0 ∈ cl -> s0 < k).
Proof.
  intros Hk Hretry.
  destruct (connect_loop_retried me env k (6 - k) 0 None (mk_effects 0 [] [] []))
    as (new_sock & cl & Hrun & _ & _ & Hlen & Hcl).
  { intros j Hj. apply Hretry. lia. }
  { lia. }
  { done. }
  replace (k + (6 - k)) with 6 in Hrun by lia.
  exists new_sock, cl. unfold connect_to_node, try_limit. rewrite Hrun. done.
Qed.

(** The first attempt that goes through, after attempts that were all
    answered with [continue], gives the socket that is returned. *)
Lemma connect_first_success me env k :
  k < 6 -> (forall j, j < k -> retried env j) -> succeeds (env k) ->
  exists cl,
    connect_to_node me env
    = (Returned (Some k), mk_effects (S k) cl [(k, handshake me)] [k]) /\
    length cl = k /\
    (forall s0, s0 ∈ cl -> s0 < k).
Proof.
  intros Hk Hretry Hok.
  destruct (connect_after_retries me env k) as (new_sock & cl & Hrun & Hlen & Hcl);
    [lia | done |].
  exists cl. rewrite Hrun. destruct (6 - k) as [|r] eqn:Hr; [lia|].
  cbn [connect_loop attempts closed handshakes registered]. rewrite Hok.
  cbn [opening waiting sending]. done.
Qed.

(** X29. How [connect_to_node] ends after [k] attempts that were each
    answered with [continue] (a refused connection, a handshake that could
    not be sent, or, after the first attempt, a socket that could not be
    created).  When attempt [k] goes through, its socket is returned,
    registered with the owner's selector, after the handshake
    [role|name|host|port] of the caller was sent on it, once; [k] sockets
    were closed before, the returned one is not among them, and no further
    attempt is made.  When [select] raises in attempt [k], the socket is
    closed and [None] is returned at once, without further attempts.  When
    all six attempts were answered with [continue], [None] is returned
    after six closed sockets.  Nothing is sent or registered in the last
    two cases. *)
Theorem connect_to_node_outcomes (me : identity) (env : nat -> attempt) (k : nat)
    (Hretried : forall j, j < k -> retried env j) :
  (k < 6 -> succeeds (env k) ->
   exists cl,
     connect_to_node me env
     = (Returned (Some k),
        mk_effects (S k) cl
          [(k, (node_type me ++ "|" ++ node_name me ++ "|" ++ Py.str (node_host me)
                ++ "|" ++ Py.str (node_port me))%string)]
          [k]) /\
     length cl = k /\
     (forall s0, s0 ∈ cl -> s0 < k)) /\
  (k < 6 -> opening (env k) = Opened -> waiting (env k) = SelectRaises ->
   exists cl,
     connect_to_node me env = (Returned None, mk_effects (S k) (cl ++ [k]) [] []) /\
     length cl = k /\
     (forall s0, s0 ∈ cl -> s0 < k)) /\
  (k = 6 ->
   exists cl,
     connect_to_node me env = (Returned None, mk_effects 6 cl [] []) /\
     length cl = 6).
Proof.
  split; [|split].
  - intros Hk Hok. by apply connect_first_success.
  - intros Hk Hopen Hwait.
    destruct (connect_after_retries me env k) as (new_sock & cl & Hrun & Hlen & Hcl);
      [lia | done |].
    exists cl. rewrite Hrun. destruct (6 - k) as [|r] eqn:Hr; [lia|].
    cbn [connect_loop attempts closed handshakes registered]. rewrite Hopen, Hwait. done.
  - intros ->.
    destruct (connect_after_retries me env 6) as (new_sock & cl & Hrun & Hlen & Hcl);
      [lia | done |].
    exists cl. rewrite Hrun. done.
Qed.

End Connecting.

Lemma connect_to_node_outcomes_witness :
  exists cl,
    Node.connect_to_node client_identity third_time_lucky
    = (Node.Returned (Some 2),
       Node.mk_effects 3 cl [(2, "CLIENT|module1|None|None")] [2]) /\
    length cl = 2.
Proof.
  assert (Hretried : forall j, j < 2 -> retried third_time_lucky j).
  { intros j Hj. left. destruct j as [|[|j]]; [reflexivity | reflexivity | lia]. }
  destruct (proj1 (connect_to_node_outcomes client_identity third_time_lucky 2 Hretried))
    as (cl & Hrun & Hlen & _); [lia | reflexivity |].
  exists cl. split; [exact Hrun | exact Hlen].
Defined.

(** ** The write queue *)

Section Writing.

Import Node.
Local Open Scope list_scope.

Lemma push_messages_buffer ms wh :
  push_messages ms wh = mk_writer (running wh) (out_buffer wh ++ ms).
Proof.
  revert wh. induction ms as [|m ms IH]; intros wh; simpl.
  - rewrite app_nil_r. by destruct wh.
  - unfold push_messages in *. simpl. rewrite IH. simpl. by rewrite <- app_assoc.
Qed.

Lemma write_repeatedly_queue parent sock flag q :
  getsockname_ok sock = true -> fileno sock <> (-1)%Z -> send_ok sock = true ->
  write_repeatedly (length q) parent sock (mk_writer flag q)
  = (Returned tt, mk_writer flag [],
     List.filter (fun m => negb (String.eqb m "")) q).
Proof.
  intros Hname Hfd Hsend. induction q as [|m q IH]; [done|].
  cbn [length write_repeatedly]. unfold write. rewrite Hname. cbn [negb out_buffer running].
  destruct (Z.eqb_spec (fileno sock) (-1)) as [|_]; [done|].
  cbn [List.filter]. destruct (String.eqb m ""); cbn [negb].
  - by rewrite IH.
  - rewrite Hsend, IH. done.
Qed.

(** X8. The write queue is first in, first out.  On a socket that is open
    and accepts [send], as many [write] calls as there are queued messages
    send the queued messages in the order of their [push_message] calls,
    except the empty ones, which are dropped; the queue is empty afterwards
    and [running] is unchanged.  No [write] call sends more than one
    message. *)
Theorem queue_is_sent_in_order (parent : node_class) (sock : socket_view)
    (wh : NodeWriteHandler) (ms : list string)
    (Hname : getsockname_ok sock = true) (Hfd : fileno sock <> (-1)%Z)
    (Hsend : send_ok sock = true) :
  write_repeatedly (length (out_buffer wh ++ ms)) parent sock (push_messages ms wh)
  = (Returned tt, mk_writer (running wh) [],
     List.filter (fun m => negb (String.eqb m "")) (out_buffer wh ++ ms)) /\
  (forall wh', length (snd (write parent sock wh')) <= 1).
Proof.
  split.
  - rewrite push_messages_buffer. by apply write_repeatedly_queue.
  - intros wh'. unfold write. rewrite Hname. cbn [negb].
    destruct wh' as [flag [|m q]]; cbn [out_buffer running];
      repeat (match goal with |- context [if ?b then _ else _] => destruct b end);
      cbn; lia.
Qed.

End Writing.

Lemma queue_is_sent_in_order_witness :
  write_repeatedly 3 Node.ClientNode (Node.mk_view true 7 true)
    (push_messages ["DISCONNECT|10.0.0.1|5001"; "NODE_REQUEST|CLIENT|CONTENT"]
       (Node.mk_writer true [""]))
  = (Node.Returned tt, Node.mk_writer true [],
     ["DISCONNECT|10.0.0.1|5001"; "NODE_REQUEST|CLIENT|CONTENT"]).
Proof.
  exact (proj1 (queue_is_sent_in_order Node.ClientNode (Node.mk_view true 7 true)
                  (Node.mk_writer true [""])
                  ["DISCONNECT|10.0.0.1|5001"; "NODE_REQUEST|CLIENT|CONTENT"]
                  eq_refl ltac:(discriminate) eq_refl)).
Defined.

(** ** The coordinator's reader *)

Section Coordinator.

Import Node BootstrapNode.
Local Open Scope list_scope.




Lemma not_elem_of_remove_first (r : nat) l : NoDup l -> r ∉ remove_first r l.
Proof.
  induction 1 as [|x l Hx Hnd IH]; simpl.
  - apply not_elem_of_nil.
  - destruct (Nat.eqb_spec x r) as [->|Hne]; [done|].
    apply not_elem_of_cons. split; [congruence | done].
Qed.

Lemma elem_of_remove_first_ne (r x : nat) l : x <> r -> x ∈ remove_first r l <-> x ∈ l.
Proof.
  intros Hne. induction l as [|y l IH]; simpl; [done|].
  destruct (Nat.eqb_spec y r) as [->|Hyr].
  - rewrite elem_of_cons. split; [auto | intros [?|?]; [done | auto]].
  - rewrite !elem_of_cons, IH. done.
Qed.

Lemma load_balancer_selects_listed ct tm r :
  fst (load_balancer ct tm) = Some r -> r ∈ node_threads tm.
Proof.
  destruct (load_balancer ct tm) as [o tm'] eqn:Hlb. simpl. intros ->.
  by destruct (load_balancer_some _ _ _ _ Hlb) as (_ & n & (Hin & _) & _).
Qed.

(** X10. An empty read ends the connection at the coordinator: [read]
    unregisters the thread and closes the socket; with no object listed
    twice, the thread is no longer listed, the other entries are, and
    [load_balancer] never returns it again, for any role. *)
Theorem closed_connection_is_not_selected (fuel : nat)
    (startup : nat -> Py.pyval * Py.pyval) (self : nat) (st : state)
    (Hnodup : NoDup (node_threads (thread_manager st))) :
  exists st',
    read fuel startup self (Data "") st = Some (Returned tt, st', 0, true) /\
    write_handler st' = write_handler st /\
    objects (thread_manager st') = objects (thread_manager st) /\
    (self ∉ node_threads (thread_manager st')) /\
    (forall r, r <> self ->
       r ∈ node_threads (thread_manager st') <-> r ∈ node_threads (thread_manager st)) /\
    (forall ct, fst (load_balancer ct (thread_manager st')) <> Some self).
Proof.
  eexists. split; [reflexivity|]. cbn [write_handler thread_manager].
  split; [done|].
  assert (Hgone : self ∉ node_threads (unregister self (thread_manager st))).
  { unfold unregister.
    destruct (existsb (Nat.eqb self) (node_threads (thread_manager st))) eqn:Hex; simpl.
    - by apply not_elem_of_remove_first.
    - intros Hin. apply existsb_eqb_elem in Hin. congruence. }
  split; [unfold unregister; by destruct (existsb _ _)|].
  split; [exact Hgone|]. split.
  - intros r Hr. unfold unregister.
    destruct (existsb (Nat.eqb self) (node_threads (thread_manager st))); simpl; [|done].
    by apply elem_of_remove_first_ne.
  - intros ct Hsel. apply load_balancer_selects_listed in Hsel. done.
Qed.

Lemma NoDup_remove_first (r : nat) l : NoDup l -> NoDup (remove_first r l).
Proof.
  induction 1 as [|x l Hx Hnd IH]; simpl; [constructor|].
  destruct (Nat.eqb_spec x r) as [->|Hne]; [done|].
  constructor; [|done]. intros Hin. apply Hx.
  by apply (elem_of_remove_first_ne r x l) in Hin.
Qed.

Lemma NoDup_register_fresh tm o :
  NoDup (node_threads tm) ->
  NoDup (node_threads (register (fresh_id tm) (mk_manager o (node_threads tm)))).
Proof.
  intros Hnd. simpl. apply NoDup_app. split; [done|]. split.
  - intros x Hx Hin. apply list_elem_of_singleton in Hin as ->.
    by destruct (fresh_id_fresh tm).
  - apply NoDup_singleton.
Qed.

Lemma load_balancer_threads ct tm :
  node_threads (snd (load_balancer ct tm)) = node_threads tm.
Proof. unfold load_balancer. by destruct (get_nodes_by_type ct tm). Qed.

Lemma select_or_spawn_NoDup fuel startup wanted :
  forall spawned tm o tm' k,
  NoDup (node_threads tm) ->
  select_or_spawn fuel startup wanted spawned tm = Some (o, tm', k) ->
  NoDup (node_threads tm').
Proof.
  induction fuel as [|fuel IH]; intros spawned tm o tm' k Hnd; [done|].
  cbn [select_or_spawn].
  pose proof (load_balancer_threads wanted tm) as Hlb.
  destruct (load_balancer wanted tm) as [[node|] tm1]; simpl in Hlb.
  - intros [= <- <- <-]. by rewrite Hlb.
  - assert (Hnd1 : NoDup (node_threads tm1)) by (by rewrite Hlb).
    destruct (String.eqb wanted "AUTH").
    { apply IH. unfold spawn. by apply NoDup_register_fresh. }
    destruct (String.eqb wanted "CONTENT").
    { apply IH. unfold spawn. by apply NoDup_register_fresh. }
    intros [= <- <- <-]. done.
Qed.

(** X11. No object is listed twice in the coordinator's registry: every
    operation of the coordinator on it (a new connection thread, a spawned
    node, [unregister], [load_balancer], [handle_node_request]) keeps the
    list of entries free of duplicates. *)
Theorem registry_stays_duplicate_free (tm : NodeThreadManager)
    (Hnodup : NoDup (node_threads tm)) :
  (forall handshake_args,
     NoDup (node_threads (snd (BootstrapNodeThread_init handshake_args tm)))) /\
  (forall new_node address, NoDup (node_threads (spawn new_node address tm))) /\
  (forall r, NoDup (node_threads (unregister r tm))) /\
  (forall ct, NoDup (node_threads (snd (load_balancer ct tm)))) /\
  (forall fuel startup messages wh o st' spawned,
     handle_node_request fuel startup messages (mk_state tm wh) = Some (o, st', spawned) ->
     NoDup (node_threads (thread_manager st'))).
Proof.
  split.
  { intros args. unfold BootstrapNodeThread_init.
    destruct args as [|a [|b [|c [|d l]]]]; try done.
    cbn [snd]. by apply NoDup_register_fresh. }
  split; [intros; unfold spawn; by apply NoDup_register_fresh|].
  split.
  { intros r. unfold unregister. destruct (existsb _ _); simpl; [|done].
    by apply NoDup_remove_first. }
  split; [intros ct; by rewrite load_balancer_threads|].
  intros fuel startup messages wh o st' spawned. unfold handle_node_request.
  destruct messages as [|m0 [|m1 [|m2 rest]]]; try (intros [= <- <- <-]; done).
  cbn [thread_manager].
  destruct (select_or_spawn fuel startup m2 0 tm) as [[[[node|] tm1] k]|] eqn:Hrun;
    [| |done].
  - intros [= <- <- <-]. cbn. by apply (select_or_spawn_NoDup _ _ _ _ _ _ _ _ Hnodup Hrun).
  - intros [= <- <- <-]. cbn. by apply (select_or_spawn_NoDup _ _ _ _ _ _ _ _ Hnodup Hrun).
Qed.

End Coordinator.


Lemma closed_connection_is_not_selected_witness :
  exists st',
    BootstrapNode.read 0 bound_startup 0 (Node.Data "") coordinator_example
    = Some (Node.Returned tt, st', 0, true) /\
    (0 ∉ Node.node_threads (BootstrapNode.thread_manager st')).
Proof.
  destruct (closed_connection_is_not_selected 0 bound_startup 0 coordinator_example)
    as (st' & Hread & _ & _ & Hgone & _).
  { apply NoDup_ListNoDup. repeat constructor. simpl. tauto. }
  exists st'. split; [exact Hread | exact Hgone].
Defined.

Lemma registry_stays_duplicate_free_witness :
  NoDup (Node.node_threads registry_example) /\
  NoDup (Node.node_threads
           (snd (BootstrapNode.BootstrapNodeThread_init ["CLIENT"; "module1"; "None"; "None"]
                   registry_example))).
Proof.
  assert (H : NoDup (Node.node_threads registry_example)).
  { apply NoDup_ListNoDup. repeat constructor; simpl; intuition discriminate. }
  split; [exact H|].
  exact (proj1 (registry_stays_duplicate_free registry_example H)
           ["CLIENT"; "module1"; "None"; "None"]).
Defined.

Section CoordinatorEdges.

Import Node BootstrapNode.
Local Open Scope list_scope.

Lemma split_nonempty sep s : Py.split sep s <> [].
Proof.
  pose proof (split_length sep s). destruct (Py.split sep s); [done | done].
Qed.

(** X12. What [BootstrapNodeThread.read] does with packets it cannot use.
    A packet with another opcode than [NODE_LOAD_UPDATED] and [NODE_REQUEST]
    is ignored.  [NODE_LOAD_UPDATED] without a second field raises
    [IndexError], with a second field that [int] does not accept it raises
    [ValueError]; [NODE_REQUEST] with fewer than three fields raises
    [IndexError].  The state is unchanged in all these cases. *)
Theorem coordinator_read_edges (fuel : nat) (startup : nat -> Py.pyval * Py.pyval)
    (self : nat) (recv_data : string) (st : state) (Hdata : recv_data <> "") :
  let opcode := hd "" (Py.split "|" recv_data) in
  (opcode <> "NODE_LOAD_UPDATED" -> opcode <> "NODE_REQUEST" ->
   read fuel startup self (Data recv_data) st = Some (Returned tt, st, 0, false)) /\
  (opcode = "NODE_LOAD_UPDATED" -> count_char "|" recv_data = 0 ->
   read fuel startup self (Data recv_data) st = Some (Raised "IndexError", st, 0, false)) /\
  (opcode = "NODE_LOAD_UPDATED" ->
   forall value rest, Py.split "|" recv_data = opcode :: value :: rest ->
   Py.int_of_str value = None ->
   read fuel startup self (Data recv_data) st = Some (Raised "ValueError", st, 0, false)) /\
  (opcode = "NODE_REQUEST" -> count_char "|" recv_data < 2 ->
   read fuel startup self (Data recv_data) st = Some (Raised "IndexError", st, 0, false)).
Proof.
  cbv zeta. unfold read.
  destruct (String.eqb_spec recv_data "") as [|_]; [done|].
  pose proof (split_length "|" recv_data) as Hlen.
  destruct (Py.split "|" recv_data) as [|opcode args] eqn:Hsplit; [done|].
  cbn [hd]. repeat split.
  - intros H1 H2. apply String.eqb_neq in H1, H2. by rewrite H1, H2.
  - intros -> Hcount. cbn [String.eqb Ascii.eqb Bool.eqb].
    destruct args; [done|]. simpl in Hlen. lia.
  - intros -> value rest [= ->] Hint. cbn [String.eqb Ascii.eqb Bool.eqb].
    by rewrite Hint.
  - intros -> Hcount. cbn [String.eqb Ascii.eqb Bool.eqb].
    unfold handle_node_request.
    destruct args as [|a [|b l]]; simpl in Hlen; [done | done | lia].
Qed.

End CoordinatorEdges.

Lemma coordinator_read_edges_witness :
  BootstrapNode.read 0 bound_startup 0 (Node.Data "NODE_LOAD_UPDATED|many") coordinator_example
  = Some (Node.Raised "ValueError", coordinator_example, 0, false).
Proof.
  refine (proj1 (proj2 (proj2 (coordinator_read_edges 0 bound_startup 0
                                 "NODE_LOAD_UPDATED|many" coordinator_example _)))
            eq_refl "many" [] eq_refl eq_refl).
  discriminate.
Defined.

(** ** The Auth addresses a Content node knows *)

Section AuthAddresses.

Import ContentNodeAuthManager.
Local Open Scope list_scope.

Lemma known_elem h p l : known h p l = true <-> (h, p) ∈ l.
Proof. unfold known. by rewrite bool_decide_eq_true. Qed.

Lemma add_auth_node_NoDup h p l : NoDup l -> NoDup (add_auth_node h p l).
Proof.
  intros Hnd. unfold add_auth_node. destruct (known h p l) eqn:Hk; [done|].
  apply NoDup_app. split; [done|]. split; [|apply NoDup_singleton].
  intros x Hx Hin. apply list_elem_of_singleton in Hin as ->.
  apply known_elem in Hx. congruence.
Qed.

Lemma elem_of_remove_first_pair (x y : string * Z) l :
  y ∈ remove_first x l -> y ∈ l.
Proof.
  induction l as [|z l IH]; simpl; [done|].
  case_bool_decide; rewrite !elem_of_cons; [auto|]. intros [?|?]; auto.
Qed.

Lemma elem_of_remove_first_other (x y : string * Z) l :
  y <> x -> y ∈ remove_first x l <-> y ∈ l.
Proof.
  intros Hne. induction l as [|z l IH]; simpl; [done|].
  case_bool_decide as Hz.
  - subst z. rewrite elem_of_cons. split; [auto | intros [?|?]; [done | auto]].
  - by rewrite !elem_of_cons, IH.
Qed.

Lemma remove_first_pair_NoDup (x : string * Z) l :
  NoDup l -> NoDup (remove_first x l) /\ x ∉ remove_first x l.
Proof.
  induction 1 as [|z l Hz Hnd [IH1 IH2]]; simpl.
  - split; [constructor | apply not_elem_of_nil].
  - case_bool_decide as Hzx.
    + subst z. done.
    + split.
      * constructor; [|done]. intros Hin. apply Hz. by apply elem_of_remove_first_pair in Hin.
      * apply not_elem_of_cons. split; [congruence | done].
Qed.

Lemma remove_auth_node_NoDup h p l : NoDup l -> NoDup (remove_auth_node h p l).
Proof.
  intros Hnd. unfold remove_auth_node. destruct (known h p l); [|done].
  by apply remove_first_pair_NoDup.
Qed.

Lemma auth_updates_NoDup updates :
  forall l, NoDup l -> NoDup (fold_left apply_auth_update updates l).
Proof.
  induction updates as [|u updates IH]; intros l Hnd; simpl; [done|].
  apply IH. destruct u; simpl; [by apply add_auth_node_NoDup | by apply remove_auth_node_NoDup].
Qed.

(** X13. [ContentNodeAuthManager] keeps every address at most once.
    After any sequence of [add_auth_node] and [remove_auth_node] calls the
    list has no duplicates; an added address is in the list and adding it
    again changes nothing; a removed address is not in the list; neither
    call touches the other addresses; and [get_auth_nodes] returns once an
    address was added. *)
Theorem auth_addresses_are_kept_once (updates : list auth_update)
    (auth_host : string) (auth_port : Z) :
  let known_nodes := fold_left apply_auth_update updates [] in
  NoDup known_nodes /\
  ((auth_host, auth_port) ∈ add_auth_node auth_host auth_port known_nodes) /\
  add_auth_node auth_host auth_port (add_auth_node auth_host auth_port known_nodes)
  = add_auth_node auth_host auth_port known_nodes /\
  ((auth_host, auth_port) ∉ remove_auth_node auth_host auth_port known_nodes) /\
  (forall other, other <> (auth_host, auth_port) ->
     (other ∈ add_auth_node auth_host auth_port known_nodes <-> other ∈ known_nodes) /\
     (other ∈ remove_auth_node auth_host auth_port known_nodes <-> other ∈ known_nodes)) /\
  get_auth_nodes (add_auth_node auth_host auth_port known_nodes)
  = Some (add_auth_node auth_host auth_port known_nodes).
Proof.
  cbv zeta. set (l := fold_left apply_auth_update updates []).
  assert (Hnd : NoDup l) by (apply auth_updates_NoDup; constructor).
  assert (Hin : (auth_host, auth_port) ∈ add_auth_node auth_host auth_port l).
  { unfold add_auth_node. destruct (known auth_host auth_port l) eqn:Hk.
    - by apply known_elem.
    - apply elem_of_app. right. by apply list_elem_of_singleton. }
  split; [exact Hnd|]. split; [exact Hin|]. split.
  { unfold add_auth_node at 1. apply known_elem in Hin. by rewrite Hin. }
  split.
  { unfold remove_auth_node. destruct (known auth_host auth_port l) eqn:Hk.
    - by apply remove_first_pair_NoDup.
    - intros H. apply known_elem in H. congruence. }
  split.
  { intros other Hne. split.
    - unfold add_auth_node. destruct (known auth_host auth_port l); [done|].
      rewrite elem_of_app, list_elem_of_singleton. tauto.
    - unfold remove_auth_node. destruct (known auth_host auth_port l); [|done].
      by apply elem_of_remove_first_other. }
  unfold get_auth_nodes. destruct (add_auth_node auth_host auth_port l); [|done].
  by apply elem_of_nil in Hin.
Qed.

End AuthAddresses.

(** ** Finding a node through the coordinator *)

Section Discovery.

Import Node.
Local Open Scope list_scope.

(** What [handle_node_request] does for the two roles it can spawn. *)
Lemma node_request_selects fuel startup opcode requester wanted rest st :
  wanted = "AUTH" \/ wanted = "CONTENT" ->
  exists node n tm1 spawned,
    BootstrapNode.handle_node_request (S (S fuel)) startup
      (opcode :: requester :: wanted :: rest) st
    = Some (Returned tt,
            BootstrapNode.mk_state (incr_load node tm1)
              (push_message
                 ("NODE_FIND_SUCCESS|" ++ requester ++ "|" ++ wanted ++ "|"
                  ++ Py.str (conn_host n) ++ "|" ++ Py.str (conn_port n))%string
                 (BootstrapNode.write_handler st)),
            spawned) /\
    registered_as tm1 wanted node n /\
    ((spawned = 0 /\ tm1 = BootstrapNode.thread_manager st) \/
     (spawned = 1 /\
      (forall r n0, ~ registered_as (BootstrapNode.thread_manager st) wanted r n0) /\
      exists new_node,
        conn_type new_node = wanted /\
        tm1 = BootstrapNode.spawn new_node (startup 0) (BootstrapNode.thread_manager st))).
Proof.
  intros Hrole. unfold BootstrapNode.handle_node_request.
  destruct (select_or_spawn_selects fuel startup wanted (BootstrapNode.thread_manager st) Hrole)
    as (node & n & tm1 & spawned & Hrun & Hlb & Hreg & Hspawned).
  exists node, n, tm1, spawned. rewrite Hrun. unfold BootstrapNode.node_address.
  destruct Hreg as (Hin & Hobj & Hct).
  rewrite (incr_load_lookup _ _ _ Hobj). split; [reflexivity|].
  split; [done | exact Hspawned].
Qed.








(** X16. A reply that comes too early cannot be read.  When no entry of
    the wanted role is registered and the spawned node has not bound its
    server by the end of the sleep, the reply ends in [None|None], and the
    requester raises [ValueError] on it: the client in [handle_prime]
    before it connects to anything, the Content node in [read] before it
    stores anything. *)
Theorem reply_for_unbound_node_is_unreadable (fuel : nat)
    (startup : nat -> Py.pyval * Py.pyval) (st : BootstrapNode.state)
    (requester wanted : string) (me : identity)
    (network : string -> Z -> nat -> attempt) (cl : ClientNode.state)
    (ln : ClientNode.links) (known_nodes : list (string * Z))
    (Hfuel : 2 <= fuel) (Hwanted : wanted = "AUTH" \/ wanted = "CONTENT")
    (Hnone : forall r n, ~ registered_as (BootstrapNode.thread_manager st) wanted r n)
    (Hslow : startup 0 = (Py.PyNone, Py.PyNone)) :
  let reply := ("NODE_FIND_SUCCESS|" ++ requester ++ "|" ++ wanted ++ "|None|None")%string in
  exists st',
    BootstrapNode.handle_node_request fuel startup ["NODE_REQUEST"; requester; wanted] st
    = Some (Returned tt, st', 1) /\
    out_buffer (BootstrapNode.write_handler st')
    = out_buffer (BootstrapNode.write_handler st) ++ [reply] /\
    (requester = "CLIENT" ->
     ClientNode.handle_prime me network (Py.split "|" reply) cl ln
     = (Raised "ValueError", cl, ln, None)) /\
    (requester = "CONTENT" ->
     ContentNode.node_read true (Data reply) known_nodes
     = (Raised "ValueError", known_nodes, false)).
Proof.
  cbv zeta. destruct fuel as [|[|fuel]]; [lia | lia |].
  destruct (node_request_selects fuel startup "NODE_REQUEST" requester wanted [] st Hwanted)
    as (node & n & tm1 & spawned & Hrun & Hreg & [[-> ->] | (-> & _ & new_node & Hct & ->)]).
  { by destruct (Hnone node n). }
  destruct (spawned_node_is_selected _ _ _ _ _ _ Hnone Hreg) as [Hhost Hport].
  rewrite Hslow in Hhost, Hport. simpl in Hhost, Hport.
  rewrite Hhost, Hport in Hrun.
  eexists. split; [exact Hrun|]. cbn [BootstrapNode.write_handler].
  split; [reflexivity|]. split.
  - intros ->. destruct Hwanted as [-> | ->]; reflexivity.
  - intros ->. destruct Hwanted as [-> | ->]; reflexivity.
Qed.

End Discovery.



Lemma reply_for_unbound_node_is_unreadable_witness :
  ClientNode.handle_prime client_identity open_network
    (Py.split "|" "NODE_FIND_SUCCESS|CLIENT|AUTH|None|None") client_start client_links
  = (Node.Raised "ValueError", client_start, client_links, None).
Proof.
  destruct (reply_for_unbound_node_is_unreadable 2 slow_startup coordinator_example
              "CLIENT" "AUTH" client_identity open_network client_start client_links []
              (le_n 2) (or_introl eq_refl))
    as (st' & _ & _ & Hclient & _).
  - intros r n (Hin & Hobj & Hct). simpl in Hin.
    apply list_elem_of_singleton in Hin as ->.
    vm_compute in Hobj. injection Hobj as <-. discriminate.
  - reflexivity.
  - exact (Hclient eq_refl).
Defined.

(** ** The way of a cookie *)

Section CookieJourney.

Local Open Scope list_scope.

Lemma random_string_no_pipe draws pos n :
  has_char "|" (AuthNode.random_string draws pos n) = false.
Proof.
  destruct (has_char "|" (AuthNode.random_string draws pos n)) eqn:H; [|done].
  assert (Hin : In "|"%char (list_ascii_of_string (AuthNode.random_string draws pos n))).
  { clear -H. induction (AuthNode.random_string draws pos n) as [|a s IH]; simpl in *; [done|].
    apply orb_prop in H as [H|H]; [left; by apply Ascii.eqb_eq in H | right; auto]. }
  apply random_string_chars in Hin.
  assert (Hall : forallb (fun c => negb (Ascii.eqb c "|")) AuthNode._chars = true)
    by (vm_compute; reflexivity).
  rewrite forallb_forall in Hall. specialize (Hall _ Hin). done.
Qed.

Lemma handle_client_login fuel draws args st st' :
  AuthNode.handle_client fuel draws ("LOGIN_DATA" :: args) st = Some st' ->
  exists new_cookie,
    has_char "|" new_cookie = false /\
    (new_cookie ∉ AuthNode._client_cookies st) /\
    AuthNode._client_cookies st' = AuthNode._client_cookies st ++ [new_cookie] /\
    AuthNode.write_handler st'
    = Node.push_message ("LOGIN_SUCCESS|" ++ new_cookie) (AuthNode.write_handler st).
Proof.
  unfold AuthNode.handle_client.
  change (String.eqb "LOGIN_DATA" "LOGIN_DATA") with true. cbv iota.
  destruct (AuthNode.generate_cookie fuel draws (AuthNode.rng_pos st)
              (AuthNode._client_cookies st)) as [[[c pos'] cookies']|] eqn:Hgen; [|done].
  intros [= <-]. apply generate_cookie_some in Hgen as (k & _ & -> & Hnew & _ & ->).
  eexists. split; [apply random_string_no_pipe|]. done.
Qed.

Lemma split_opcode opcode x :
  has_char "|" opcode = false ->
  Py.split "|" (opcode ++ "|" ++ x)%string = opcode :: Py.split "|" x.
Proof.
  intros H. change (opcode ++ "|" ++ x)%string with (opcode ++ String "|" x)%string.
  by apply split_app_sep.
Qed.

(** X17. A cookie that was issued is accepted.  The cookie queued in
    answer to [LOGIN_DATA] is what the client stores and presents when the
    Content thread greets it.  The Content thread reads it on the client's
    socket, takes the first known Auth address and connects: when attempt
    [k] is the first that goes through, the socket of that attempt becomes
    [auth_sock], the load grows by one and [CHECKING_COOKIE] is queued.  The
    greeting [COOKIE_CHECK] of the Auth thread, read on that socket, is
    answered with the cookie; the Auth thread, reading it, finds it in the
    list as long as no cookie was taken from it, and queues
    [COOKIE_VALID]; and the Content thread, reading that on the Auth
    socket, says goodbye to the Auth node, gives the unit of load back and
    queues [COOKIE_CHECK_SUCCESS], which the client answers with
    [FILE_REQUEST]. *)
Theorem issued_cookie_is_accepted (fuel fuel' : nat) (draws draws' : AuthNode.generator)
    (args : list string) (auth auth' checker : AuthNode.state)
    (typed : Node.outcome string) (cl : ClientNode.state) (ln : ClientNode.links)
    (env : ContentNode.environment) (me : Node.identity) (ct : ContentNode.state)
    (auth_node : string * Z) (others : list (string * Z))
    (k self checker_self : nat) (tm checker_tm : Node.NodeThreadManager)
    (Hlogin : AuthNode.handle_client fuel draws ("LOGIN_DATA" :: args) auth = Some auth')
    (Hkept : forall c, c ∈ AuthNode._client_cookies auth' ->
                       c ∈ AuthNode._client_cookies checker)
    (Hnodes : ContentNode._available_auth_nodes env = auth_node :: others)
    (Hk : k < 6)
    (Hretried : forall j, j < k -> retried (ContentNode.connecting env) j)
    (Hconnects : succeeds (ContentNode.connecting env k)) :
  exists new_cookie cl' ct1 ct2 ct3 checker',
    (* the Auth thread answers the login with a cookie *)
    Node.out_buffer (AuthNode.write_handler auth')
    = Node.out_buffer (AuthNode.write_handler auth) ++ [("LOGIN_SUCCESS|" ++ new_cookie)%string]
    /\
    (* the client keeps it, leaves Auth and asks for a Content node *)
    ClientNode.handle_auth typed (Py.split "|" ("LOGIN_SUCCESS|" ++ new_cookie)) cl ln
    = (Node.Returned tt, cl', false) /\
    ClientNode.cookie cl' = Py.PyStr new_cookie /\
    Node.out_buffer (ClientNode.write_handler cl')
    = Node.out_buffer (ClientNode.write_handler cl)
      ++ [("DISCONNECT|" ++ Py.str (ClientNode.auth_host ln) ++ "|"
           ++ Py.str (ClientNode.auth_port ln))%string;
          "NODE_REQUEST|CLIENT|CONTENT"] /\
    (* greeted by the Content thread, the client presents the cookie *)
    Node.out_buffer (ContentNode.write_handler (ContentNode.run_greeting "CLIENT" ct))
    = Node.out_buffer (ContentNode.write_handler ct) ++ ["COOKIE_REQUEST"] /\
    (forall typed', exists cl'',
       ClientNode.handle_content typed' (Py.split "|" "COOKIE_REQUEST") cl'
       = (Node.Returned tt, cl'') /\
       Node.out_buffer (ClientNode.write_handler cl'')
       = Node.out_buffer (ClientNode.write_handler cl')
         ++ [("CLIENT_COOKIE|" ++ new_cookie)%string]) /\
    (* the Content thread stores it and connects to the first Auth address *)
    ContentNode.read env me "CLIENT" self ContentNode.OwnSocket
      (Node.Data ("CLIENT_COOKIE|" ++ new_cookie)) tm ct
    = Some (Node.Returned tt, ct1, [], tm, false) /\
    ContentNode.client_cookie ct1 = Some new_cookie /\
    ContentNode.auth_address ct1 = Some auth_node /\
    ContentNode.auth_sock ct1 = Some k /\
    ContentNode.load ct1 = (ContentNode.load ct + 1)%Z /\
    Node.out_buffer (ContentNode.write_handler ct1)
    = Node.out_buffer (ContentNode.write_handler ct) ++ ["CHECKING_COOKIE"] /\
    (* the Auth thread asks for the cookie, the Content thread forwards it *)
    Node.out_buffer (AuthNode.run_greeting "CONTENT" (AuthNode.write_handler checker))
    = Node.out_buffer (AuthNode.write_handler checker) ++ ["COOKIE_CHECK"] /\
    ContentNode.read env me "CLIENT" self (ContentNode.Connection k)
      (Node.Data "COOKIE_CHECK") tm ct1
    = Some (Node.Returned tt, ct2, [], tm, false) /\
    ContentNode.auth_sock ct2 = Some k /\
    Node.out_buffer (ContentNode.write_handler ct2)
    = Node.out_buffer (ContentNode.write_handler ct1)
      ++ [("AUTH_COOKIE|" ++ new_cookie)%string] /\
    (* the Auth thread that serves the Content thread finds it *)
    AuthNode.read fuel' draws' "CONTENT" checker_self
      (Node.Data ("AUTH_COOKIE|" ++ new_cookie)) checker_tm checker
    = Some (Node.Returned tt, checker', checker_tm, false) /\
    AuthNode._client_cookies checker' = AuthNode._client_cookies checker /\
    Node.out_buffer (AuthNode.write_handler checker')
    = Node.out_buffer (AuthNode.write_handler checker) ++ ["COOKIE_VALID"] /\
    (* the Content thread leaves Auth and tells the client, who goes on *)
    ContentNode.read env me "CLIENT" self (ContentNode.Connection k)
      (Node.Data "COOKIE_VALID") tm ct2
    = Some (Node.Returned tt, ct3, [], tm, false) /\
    ContentNode.auth_sock ct3 = None /\
    ContentNode.load ct3 = ContentNode.load ct /\
    Node.out_buffer (ContentNode.write_handler ct3)
    = Node.out_buffer (ContentNode.write_handler ct2)
      ++ [("DISCONNECT|" ++ fst auth_node ++ "|" ++ Py.str_of_Z (snd auth_node))%string;
          "COOKIE_CHECK_SUCCESS"] /\
    (forall typed', exists cl'',
       ClientNode.handle_content typed' (Py.split "|" "COOKIE_CHECK_SUCCESS") cl'
       = (Node.Returned tt, cl'') /\
       Node.out_buffer (ClientNode.write_handler cl'')
       = Node.out_buffer (ClientNode.write_handler cl') ++ ["FILE_REQUEST"]).
Proof.
  apply handle_client_login in Hlogin as (c & Hpipe & _ & Hcookies & Hqueue).
  destruct (connect_first_success me (ContentNode.connecting env) k Hk Hretried Hconnects)
    as (closed_before & Hsock & _).
  assert (Hs1 : Py.split "|" ("LOGIN_SUCCESS|" ++ c) = ["LOGIN_SUCCESS"; c]).
  { change ("LOGIN_SUCCESS|" ++ c)%string with ("LOGIN_SUCCESS" ++ "|" ++ c)%string.
    by rewrite split_opcode, split_without. }
  assert (Hs2 : Py.split "|" ("CLIENT_COOKIE|" ++ c) = ["CLIENT_COOKIE"; c]).
  { change ("CLIENT_COOKIE|" ++ c)%string with ("CLIENT_COOKIE" ++ "|" ++ c)%string.
    by rewrite split_opcode, split_without. }
  assert (Hs3 : Py.split "|" ("AUTH_COOKIE|" ++ c) = ["AUTH_COOKIE"; c]).
  { change ("AUTH_COOKIE|" ++ c)%string with ("AUTH_COOKIE" ++ "|" ++ c)%string.
    by rewrite split_opcode, split_without. }
  assert (Hin : c ∈ AuthNode._client_cookies checker).
  { apply Hkept. rewrite Hcookies. apply elem_of_app. right. by apply list_elem_of_singleton. }
  apply is_authenticated_elem in Hin.
  destruct ct as [cookie0 files0 file0 mode0 address0 sock0 load0 wh0].
  destruct auth_node as [auth_host0 auth_port0].
  exists c. eexists _, _, _, _, _.
  split; [by rewrite Hqueue|].
  rewrite Hs1. split; [reflexivity|]. split; [reflexivity|].
  split; [cbn; by rewrite <- app_assoc|].
  split; [reflexivity|].
  split; [intros typed'; eexists; split; reflexivity|].
  split.
  { unfold ContentNode.read.
    change (String.eqb ("CLIENT_COOKIE|" ++ c) "") with false.
    change (String.eqb "CLIENT" "CLIENT") with true. cbv iota. cbn [andb].
    rewrite Hs2. unfold ContentNode.handle_client, ContentNode.handle_client_cookie.
    change (String.eqb "CLIENT_COOKIE" "CLIENT_COOKIE") with true. cbv iota.
    rewrite Hnodes, Hsock. cbn [fst]. reflexivity. }
  cbn [ContentNode.client_cookie ContentNode.auth_address ContentNode.auth_sock
       ContentNode.load ContentNode.write_handler ContentNode.push ContentNode.music_files
       ContentNode.file_to_stream ContentNode.stream_mode Node.push_message Node.out_buffer
       Node.running].
  split; [done|]. split; [done|]. split; [done|]. split; [done|]. split; [done|].
  split; [reflexivity|].
  split.
  { unfold ContentNode.read.
    change (String.eqb "COOKIE_CHECK" "") with false.
    change (String.eqb "CLIENT" "CLIENT") with true.
    change (Py.split "|" "COOKIE_CHECK") with ["COOKIE_CHECK"].
    cbv iota. cbn. rewrite Nat.eqb_refl. reflexivity. }
  cbn [ContentNode.client_cookie ContentNode.auth_address ContentNode.auth_sock
       ContentNode.load ContentNode.write_handler ContentNode.push ContentNode.music_files
       ContentNode.file_to_stream ContentNode.stream_mode Node.push_message Node.out_buffer
       Node.running].
  split; [done|]. split; [done|].
  split.
  { unfold AuthNode.read.
    change (String.eqb ("AUTH_COOKIE|" ++ c) "") with false.
    change (String.eqb "CONTENT" "CLIENT") with false.
    change (String.eqb "CONTENT" "CONTENT") with true. cbv iota.
    rewrite Hs3. unfold AuthNode.handle_content.
    change (String.eqb "AUTH_COOKIE" "AUTH_COOKIE") with true. cbv iota.
    rewrite Hin. reflexivity. }
  split; [done|]. split; [done|].
  split.
  { unfold ContentNode.read.
    change (String.eqb "COOKIE_VALID" "") with false.
    change (String.eqb "CLIENT" "CLIENT") with true.
    change (Py.split "|" "COOKIE_VALID") with ["COOKIE_VALID"].
    cbv iota. cbn. rewrite Nat.eqb_refl. reflexivity. }
  split; [reflexivity|]. split; [cbn; lia|].
  split.
  { cbn. by rewrite <- !app_assoc. }
  intros typed'. eexists. split; reflexivity.
Qed.

End CookieJourney.

Lemma issued_cookie_is_accepted_witness :
  exists new_cookie auth' ct1,
    AuthNode.handle_client 1 block_generator ["LOGIN_DATA"; "bob"] auth_start = Some auth' /\
    ContentNode.read
      (ContentNode.mk_env [] (fun _ => None) (fun _ => ContentNode.Writable)
         [("10.0.0.9", 5009%Z)] third_time_lucky (fun _ => 0%Z))
      content_identity "CLIENT" 0 ContentNode.OwnSocket
      (Node.Data ("CLIENT_COOKIE|" ++ new_cookie)) (Node.mk_manager ∅ [0]) content_start
    = Some (Node.Returned tt, ct1, [], Node.mk_manager ∅ [0], false) /\
    ContentNode.auth_sock ct1 = Some 2 /\
    exists checker',
      AuthNode.read 0 block_generator "CONTENT" 0 (Node.Data ("AUTH_COOKIE|" ++ new_cookie))
        (Node.mk_manager ∅ [0]) auth'
      = Some (Node.Returned tt, checker', Node.mk_manager ∅ [0], false) /\
      Node.out_buffer (AuthNode.write_handler checker')
      = (Node.out_buffer (AuthNode.write_handler auth') ++ ["COOKIE_VALID"])%list.
Proof.
  destruct (AuthNode.handle_client 1 block_generator ["LOGIN_DATA"; "bob"] auth_start)
    as [auth'|] eqn:Hlogin; [|vm_compute in Hlogin; discriminate].
  assert (Hretried : forall j, j < 2 -> retried third_time_lucky j).
  { intros j Hj. left. destruct j as [|[|j]]; [reflexivity | reflexivity | lia]. }
  destruct (issued_cookie_is_accepted 1 0 block_generator block_generator ["bob"]
              auth_start auth' auth' (Node.Returned "bob") client_start client_links
              (ContentNode.mk_env [] (fun _ => None) (fun _ => ContentNode.Writable)
                 [("10.0.0.9", 5009%Z)] third_time_lucky (fun _ => 0%Z))
              content_identity content_start ("10.0.0.9", 5009%Z) [] 2 0 0
              (Node.mk_manager ∅ [0]) (Node.mk_manager ∅ [0])
              Hlogin (fun c H => H) eq_refl ltac:(lia) Hretried eq_refl)
    as (c & cl' & ct1 & ct2 & ct3 & checker' & H).
  destruct H as (_ & _ & _ & _ & _ & _ & Hread & _ & _ & Hsock & _ & _ & _ & _ & _ & _
                 & Hcheck & _ & Hvalid & _).
  exists c, auth', ct1. split; [reflexivity|]. split; [exact Hread|]. split; [exact Hsock|].
  exists checker'. split; [exact Hcheck | exact Hvalid].
Defined.

Section AuthThread.

Import Node AuthNode.
Local Open Scope list_scope.

Lemma generate_cookie_grows fuel draws pos cookies c pos' cookies' :
  generate_cookie fuel draws pos cookies = Some (c, pos', cookies') ->
  cookies' = cookies ++ [c].
Proof. intros H. by apply generate_cookie_some in H as (k & _ & _ & _ & _ & ->). Qed.

Lemma handle_client_cases fuel draws messages st st' :
  handle_client fuel draws messages st = Some st' ->
  (st' = st) \/
  (st' = mk_state (_client_cookies st) (rng_pos st) (kill_connection (write_handler st))) \/
  (exists c pos',
     st' = mk_state (_client_cookies st ++ [c]) pos'
             (push_message ("LOGIN_SUCCESS|" ++ c) (write_handler st))).
Proof.
  unfold handle_client. destruct messages as [|opcode args]; [intros [= <-]; by left|].
  destruct (String.eqb opcode "LOGIN_DATA").
  - destruct (generate_cookie fuel draws (rng_pos st) (_client_cookies st))
      as [[[c pos'] cookies']|] eqn:Hgen; [|done].
    intros [= <-]. apply generate_cookie_grows in Hgen as ->. right. right. eauto.
  - destruct (String.eqb opcode "DISCONNECT"); intros [= <-]; auto.
Qed.

Lemma handle_content_cases messages st :
  _client_cookies (snd (handle_content messages st)) = _client_cookies st /\
  rng_pos (snd (handle_content messages st)) = rng_pos st.
Proof.
  unfold handle_content. destruct messages as [|opcode args]; [done|].
  destruct (String.eqb opcode "AUTH_COOKIE"); [by destruct args|].
  by destruct (String.eqb opcode "DISCONNECT").
Qed.

(** What a call of [read] can do to the cookie list and to the registry. *)
Lemma read_effects fuel draws conn_type self event tm st o st' tm' closed :
  read fuel draws conn_type self event tm st = Some (o, st', tm', closed) ->
  (forall c, c ∈ _client_cookies st -> c ∈ _client_cookies st') /\
  (tm' = if closed then unregister self tm else tm).
Proof.
  unfold read. destruct event as [recv_data| |exn];
    [|by intros [= <- <- <- <-] | by intros [= <- <- <- <-]].
  destruct (String.eqb recv_data ""); [by intros [= <- <- <- <-]|].
  destruct (String.eqb conn_type "CLIENT").
  - destruct (handle_client fuel draws (Py.split "|" recv_data) st) as [st1|] eqn:Hc; [|done].
    intros [= <- <- <- <-]. split; [|done].
    apply handle_client_cases in Hc as [-> | [-> | (c & pos' & ->)]]; try done.
    intros c0 Hc0. simpl. apply elem_of_app. by left.
  - destruct (String.eqb conn_type "CONTENT").
    + pose proof (handle_content_cases (Py.split "|" recv_data) st) as [Hsame _].
      destruct (handle_content (Py.split "|" recv_data) st) as [o1 st1].
      intros [= <- <- <- <-]. simpl in Hsame. by rewrite Hsame.
    + by intros [= <- <- <- <-].
Qed.

(** X18. No packet revokes a cookie: whatever an Auth connection thread
    reads, from a peer of whatever role, a cookie that was authenticated
    before the call is authenticated after it.  (A client that says
    [DISCONNECT] or hangs up keeps a valid cookie.) *)
Theorem cookies_are_never_revoked (fuel : nat) (draws : generator) (conn_type : string)
    (self : nat) (event : recv_event) (tm tm' : NodeThreadManager) (st st' : state)
    (o : outcome unit) (closed : bool)
    (Hread : read fuel draws conn_type self event tm st = Some (o, st', tm', closed)) :
  forall cookie, is_authenticated cookie (_client_cookies st) = true ->
                 is_authenticated cookie (_client_cookies st') = true.
Proof.
  intros cookie Hin. apply is_authenticated_elem in Hin. apply is_authenticated_elem.
  by apply (proj1 (read_effects _ _ _ _ _ _ _ _ _ _ _ Hread)).
Qed.

(** X19. The roles of an Auth connection are separate.  A thread whose
    peer did not announce itself as [CLIENT] never issues a cookie (the
    cookie list and the generator are untouched); a thread whose peer did
    not announce itself as [CONTENT] never answers a cookie check (its
    queue is unchanged, or gains one [LOGIN_SUCCESS]); and a thread for any
    other role ignores every packet. *)
Theorem auth_roles_are_separate (fuel : nat) (draws : generator) (conn_type : string)
    (self : nat) (recv_data : string) (tm tm' : NodeThreadManager) (st st' : state)
    (o : outcome unit) (closed : bool)
    (Hread : read fuel draws conn_type self (Data recv_data) tm st
             = Some (o, st', tm', closed)) :
  (conn_type <> "CLIENT" ->
   _client_cookies st' = _client_cookies st /\ rng_pos st' = rng_pos st) /\
  (conn_type <> "CONTENT" ->
   out_buffer (write_handler st') = out_buffer (write_handler st) \/
   exists c, out_buffer (write_handler st')
             = out_buffer (write_handler st) ++ [("LOGIN_SUCCESS|" ++ c)%string]) /\
  (conn_type <> "CLIENT" -> conn_type <> "CONTENT" -> st' = st).
Proof.
  unfold read in Hread.
  destruct (String.eqb recv_data ""); [injection Hread as <- <- <- <-; auto|].
  destruct (String.eqb_spec conn_type "CLIENT") as [->|Hclient].
  - destruct (handle_client fuel draws (Py.split "|" recv_data) st) as [st1|] eqn:Hc; [|done].
    injection Hread as <- <- <- <-.
    split; [done|]. split; [|done]. intros _.
    apply handle_client_cases in Hc as [-> | [-> | (c & pos' & ->)]]; simpl; eauto.
  - destruct (String.eqb_spec conn_type "CONTENT") as [->|Hcontent].
    + pose proof (handle_content_cases (Py.split "|" recv_data) st) as Hsame.
      destruct (handle_content (Py.split "|" recv_data) st) as [o1 st1].
      injection Hread as <- <- <- <-. simpl in Hsame. split; [done|]. done.
    + injection Hread as <- <- <- <-. auto.
Qed.


End AuthThread.

Lemma cookies_are_never_revoked_witness :
  AuthNode.is_authenticated "abc"
    (AuthNode._client_cookies
       (AuthNode.mk_state ["abc"] 0 (Node.kill_connection (Node.mk_writer true []))))
  = true.
Proof.
  apply (cookies_are_never_revoked 0 block_generator "CLIENT" 0
           (Node.Data "DISCONNECT|10.0.0.9|5009") (Node.mk_manager ∅ [])
           (Node.mk_manager ∅ []) auth_with_cookie
           (AuthNode.mk_state ["abc"] 0 (Node.kill_connection (Node.mk_writer true [])))
           (Node.Returned tt) false).
  - reflexivity.
  - reflexivity.
Defined.

Lemma auth_roles_are_separate_witness :
  AuthNode.read 0 block_generator "CLIENT" 0 (Node.Data "AUTH_COOKIE|abc")
    (Node.mk_manager ∅ []) auth_with_cookie
  = Some (Node.Returned tt, auth_with_cookie, Node.mk_manager ∅ [], false) /\
  (Node.out_buffer (AuthNode.write_handler auth_with_cookie)
   = Node.out_buffer (AuthNode.write_handler auth_with_cookie) \/
   exists c, Node.out_buffer (AuthNode.write_handler auth_with_cookie)
             = (Node.out_buffer (AuthNode.write_handler auth_with_cookie)
                ++ [("LOGIN_SUCCESS|" ++ c)%string])%list).
Proof.
  split; [reflexivity|].
  apply (proj1 (proj2 (auth_roles_are_separate 0 block_generator "CLIENT" 0 "AUTH_COOKIE|abc"
                         (Node.mk_manager ∅ []) (Node.mk_manager ∅ []) auth_with_cookie
                         auth_with_cookie (Node.Returned tt) false eq_refl))).
  discriminate.
Defined.


(** ** The life of an Auth connection thread *)

Section AuthLifecycle.

Import Node AuthNode.
Local Open Scope list_scope.

Lemma unregister_idem self tm :
  NoDup (node_threads tm) -> unregister self (unregister self tm) = unregister self tm.
Proof.
  intros Hnd. unfold unregister at 1.
  destruct (existsb (Nat.eqb self) (node_threads (unregister self tm))) eqn:Hex; [|done].
  apply existsb_eqb_elem in Hex. exfalso. revert Hex. unfold unregister.
  destruct (existsb (Nat.eqb self) (node_threads tm)) eqn:Hin; simpl.
  - by apply not_elem_of_remove_first.
  - intros H. apply existsb_eqb_elem in H. congruence.
Qed.

Lemma run_loop_effects cookie_fuel draws conn_type self turns :
  forall fuel i tm st sent o st' tm' sent',
  run_loop fuel cookie_fuel draws conn_type self turns i tm st sent
  = Some (o, st', tm', sent') ->
  (forall c, c ∈ _client_cookies st -> c ∈ _client_cookies st') /\
  (tm' = tm \/ tm' = unregister self tm).
Proof.
  induction fuel as [|fuel IH]; intros i tm st sent o st' tm' sent'.
  - cbn [run_loop]. destruct (negb (running (write_handler st))); [|done].
    intros [= <- <- <- <-]. auto.
  - cbn [run_loop]. destruct (negb (running (write_handler st))).
    { intros [= <- <- <- <-]. auto. }
    destruct (turns i) as [ev|]; [|apply IH].
    destruct (if readable ev then read cookie_fuel draws conn_type self (received ev) tm st
              else Some (Returned tt, st, tm, false))
      as [[[[o1 st1] tm1] closed]|] eqn:Hread; [|done].
    assert (Hfx : (forall c, c ∈ _client_cookies st -> c ∈ _client_cookies st1) /\
                  tm1 = if closed then unregister self tm else tm).
    { destruct (readable ev).
      - by apply read_effects in Hread.
      - by injection Hread as <- <- <- <-. }
    destruct Hfx as [Hcookies Htm].
    assert (Htm' : tm1 = tm \/ tm1 = unregister self tm) by (destruct closed; auto).
    destruct o1 as [[]|exn]; [|intros [= <- <- <- <-]; auto].
    destruct (match writable ev, out_buffer (write_handler st1) with
              | true, _ :: _ => write_in_turn ev closed (write_handler st1)
              | _, _ => (Returned tt, write_handler st1, [])
              end) as [[o2 wh2] now].
    destruct o2 as [[]|exn]; [|intros [= <- <- <- <-]; auto].
    destruct closed; [intros [= <- <- <- <-]; auto|].
    intros Hrun. apply IH in Hrun as [Hc2 Ht2]. simpl in Hc2. subst tm1.
    split; [auto | exact Ht2].
Qed.

(** X21. Every way out of [AuthNodeThread.run] unregisters the thread.
    Whether the loop ends because [running] was cleared, because the peer
    hung up, or by an exception of [read] or [write] (swallowed or not),
    the registry afterwards is the registry at the start with the thread
    unregistered: with no object listed twice the thread is no longer
    listed and the other entries are; and no cookie was revoked on the
    way. *)
Theorem run_always_unregisters (fuel cookie_fuel : nat) (draws : generator)
    (conn_type : string) (self : nat) (turns : nat -> option ready_event)
    (tm tm' : NodeThreadManager) (st st' : state) (o : outcome unit) (sent : list string)
    (Hrun : run fuel cookie_fuel draws conn_type self turns tm st = Some (o, st', tm', sent))
    (Hnodup : NoDup (node_threads tm)) :
  tm' = unregister self tm /\
  (self ∉ node_threads tm') /\
  (forall r, r <> self -> r ∈ node_threads tm' <-> r ∈ node_threads tm) /\
  (forall cookie, is_authenticated cookie (_client_cookies st) = true ->
                  is_authenticated cookie (_client_cookies st') = true).
Proof.
  unfold run in Hrun.
  destruct (run_loop fuel cookie_fuel draws conn_type self turns 0 tm _ [])
    as [[[[o1 st1] tm1] sent1]|] eqn:Hloop; [|done].
  injection Hrun as <- <- <- <-.
  apply run_loop_effects in Hloop as [Hcookies Htm]. simpl in Hcookies.
  assert (Heq : unregister self tm1 = unregister self tm).
  { destruct Htm as [-> | ->]; [done | by apply unregister_idem]. }
  rewrite Heq. split; [done|].
  assert (Hgone : self ∉ node_threads (unregister self tm)).
  { unfold unregister.
    destruct (existsb (Nat.eqb self) (node_threads tm)) eqn:Hex; simpl.
    - by apply not_elem_of_remove_first.
    - intros Hin. apply existsb_eqb_elem in Hin. congruence. }
  split; [exact Hgone|]. split.
  - intros r Hr. unfold unregister.
    destruct (existsb (Nat.eqb self) (node_threads tm)); simpl; [|done].
    by apply elem_of_remove_first_ne.
  - intros cookie Hin. apply is_authenticated_elem. apply Hcookies.
    by apply is_authenticated_elem.
Qed.

Lemma write_in_turn_live ev flag m q :
  getsockname_ok (seen ev) = true -> fileno (seen ev) <> (-1)%Z ->
  send_ok (seen ev) = true -> m <> "" ->
  write_in_turn ev false (mk_writer flag (m :: q)) = (Returned tt, mk_writer flag q, [m]).
Proof.
  intros Hname Hfd Hsend Hm. unfold write_in_turn, write. rewrite Hname. cbn.
  destruct (Z.eqb_spec (fileno (seen ev)) (-1)) as [|_]; [done|].
  destruct (String.eqb_spec m "") as [|_]; [done|]. by rewrite Hsend.
Qed.

Local Ltac simpl_turn :=
  cbn [run_loop write_handler running negb readable writable received seen out_buffer
       _client_cookies rng_pos app].

(** X22. An Auth connection thread that serves one login.  For a client
    whose socket stays open and writable, the thread sends [LOGIN_REQUEST]
    in its first turn, reads [LOGIN_DATA], issues a cookie that was not in
    use and sends [LOGIN_SUCCESS] with it in the same turn, and on
    [DISCONNECT] leaves the loop: [run] returns with an empty queue,
    [running] cleared, the thread unregistered and the cookie still in the
    list. *)
Theorem auth_thread_serves_one_login (fuel k : nat) (draws : generator) (self : nat)
    (tm : NodeThreadManager) (cookies : list string) (pos : nat)
    (turns : nat -> option ready_event) (text goodbye : string) (live : socket_view)
    (r0 : recv_event) (w2 : bool) (e0 e1 e2 : string)
    (Hfuel : 3 <= fuel)
    (Hname : getsockname_ok live = true) (Hfd : fileno live <> (-1)%Z)
    (Hsend : send_ok live = true)
    (H0 : turns 0 = Some (mk_ready false true r0 live e0))
    (H1 : turns 1 = Some (mk_ready true true (Data ("LOGIN_DATA|" ++ text)) live e1))
    (H2 : turns 2 = Some (mk_ready true w2 (Data ("DISCONNECT|" ++ goodbye)) live e2))
    (Hfresh : candidate draws pos k ∉ cookies) :
  exists new_cookie pos',
    run fuel (S k) draws "CLIENT" self turns tm (mk_state cookies pos (mk_writer true []))
    = Some (Returned tt,
            mk_state (cookies ++ [new_cookie]) pos' (mk_writer false []),
            unregister self tm,
            ["LOGIN_REQUEST"; ("LOGIN_SUCCESS|" ++ new_cookie)%string]) /\
    (new_cookie ∉ cookies).
Proof.
  destruct (generate_cookie_returns draws cookies k pos Hfresh) as [[[c pos'] cookies'] Hgen].
  pose proof (generate_cookie_some _ _ _ _ _ _ _ Hgen) as (_ & _ & _ & Hnew & _ & ->).
  exists c, pos'. split; [|exact Hnew].
  destruct fuel as [|[|[|fuel]]]; [lia | lia | lia |].
  unfold run.
  change (run_greeting "CLIENT" (write_handler (mk_state cookies pos (mk_writer true []))))
    with (mk_writer true ["LOGIN_REQUEST"]).
  (* the first turn: the greeting is written *)
  simpl_turn. rewrite H0. simpl_turn.
  rewrite write_in_turn_live by done. simpl_turn.
  (* the second turn: the login is read and answered *)
  rewrite H1. simpl_turn.
  assert (Hread : read (S k) draws "CLIENT" self (Data ("LOGIN_DATA|" ++ text)) tm
                    (mk_state cookies pos (mk_writer true []))
                  = Some (Returned tt,
                          mk_state (cookies ++ [c]) pos'
                            (mk_writer true [("LOGIN_SUCCESS|" ++ c)%string]),
                          tm, false)).
  { unfold read.
    change (String.eqb ("LOGIN_DATA|" ++ text) "") with false. cbv iota.
    change (String.eqb "CLIENT" "CLIENT") with true. cbv iota.
    change ("LOGIN_DATA|" ++ text)%string with ("LOGIN_DATA" ++ "|" ++ text)%string.
    rewrite split_opcode by reflexivity.
    unfold handle_client. change (String.eqb "LOGIN_DATA" "LOGIN_DATA") with true. cbv iota.
    cbn [rng_pos _client_cookies]. rewrite Hgen. reflexivity. }
  rewrite Hread. simpl_turn.
  rewrite write_in_turn_live by done. simpl_turn.
  (* the third turn: the goodbye is read; nothing is left to write *)
  rewrite H2. simpl_turn.
  assert (Hbye : read (S k) draws "CLIENT" self (Data ("DISCONNECT|" ++ goodbye)) tm
                   (mk_state (cookies ++ [c]) pos' (mk_writer true []))
                 = Some (Returned tt, mk_state (cookies ++ [c]) pos' (mk_writer false []),
                         tm, false)).
  { unfold read.
    change (String.eqb ("DISCONNECT|" ++ goodbye) "") with false. cbv iota.
    change (String.eqb "CLIENT" "CLIENT") with true. cbv iota.
    change ("DISCONNECT|" ++ goodbye)%string with ("DISCONNECT" ++ "|" ++ goodbye)%string.
    rewrite split_opcode by reflexivity. reflexivity. }
  rewrite Hbye. simpl_turn.
  assert (Hnone : (match w2, @nil string with
                   | true, _ :: _ => write_in_turn
                                       (mk_ready true w2 (Data ("DISCONNECT|" ++ goodbye)) live e2)
                                       false (mk_writer false [])
                   | _, _ => (Returned tt, mk_writer false [], [])
                   end) = (Returned tt, mk_writer false [], [])) by (by destruct w2).
  rewrite Hnone. simpl_turn.
  (* the loop condition fails *)
  destruct fuel; reflexivity.
Qed.

End AuthLifecycle.

Lemma run_always_unregisters_witness :
  NoDup (Node.node_threads registry_example) /\
  (0 ∉ Node.node_threads (Node.unregister 0 registry_example)).
Proof.
  assert (H : NoDup (Node.node_threads registry_example)).
  { apply NoDup_ListNoDup. repeat constructor; simpl; intuition discriminate. }
  split; [exact H|].
  destruct (run_always_unregisters 1 1 block_generator "CLIENT" 0
              (fun _ => Some (AuthNode.mk_ready true false (Node.Data "")
                                (Node.mk_view true 7 true) "BrokenPipeError"))
              registry_example (Node.unregister 0 registry_example) auth_with_cookie
              (AuthNode.mk_state ["abc"] 0 (Node.mk_writer true ["LOGIN_REQUEST"]))
              (Node.Returned tt) [] eq_refl H)
    as (_ & Hgone & _).
  exact Hgone.
Defined.

Lemma auth_thread_serves_one_login_witness :
  exists new_cookie pos',
    AuthNode.run 3 1 block_generator "CLIENT" 0 one_login (Node.mk_manager ∅ []) auth_start
    = Some (Node.Returned tt,
            AuthNode.mk_state [new_cookie] pos' (Node.mk_writer false []),
            Node.mk_manager ∅ [],
            ["LOGIN_REQUEST"; ("LOGIN_SUCCESS|" ++ new_cookie)%string]).
Proof.
  destruct (auth_thread_serves_one_login 3 0 block_generator 0 (Node.mk_manager ∅ []) [] 0
              one_login "bob" "10.0.0.9|5009" (Node.mk_view true 7 true) Node.Blocking true
              "BrokenPipeError" "BrokenPipeError" "BrokenPipeError"
              (le_n 3) eq_refl ltac:(discriminate) eq_refl eq_refl eq_refl eq_refl)
    as (c & pos' & Hrun & _).
  { apply not_elem_of_nil. }
  exists c, pos'. exact Hrun.
Defined.

Section CookieVerdict.

Import Node.
Local Open Scope list_scope.

(** X23. The verdict on a presented cookie.  The Auth thread answers
    [COOKIE_VALID] exactly when the presented text is in the cookie list,
    [COOKIE_INVALID] otherwise.  On either verdict the Content thread
    queues its goodbye to the Auth node and then [COOKIE_CHECK_SUCCESS] or
    [COOKIE_CHECK_FAIL], forgets the Auth address and socket and gives back
    the unit of load.  The client answers success with [FILE_REQUEST] and
    failure with a [DISCONNECT], and that [DISCONNECT] stops the Content
    thread. *)
Theorem cookie_verdict_is_relayed (presented : string) (checker : AuthNode.state)
    (ct : ContentNode.state) (cl : ClientNode.state) (typed : string)
    (env : ContentNode.environment) (me : identity)
    (Hpipe : has_char "|" presented = false) :
  let valid := AuthNode.is_authenticated presented (AuthNode._client_cookies checker) in
  let verdict := if valid then "COOKIE_VALID" else "COOKIE_INVALID" in
  let result := if valid then "COOKIE_CHECK_SUCCESS" else "COOKIE_CHECK_FAIL" in
  let hang_up :=
    ("DISCONNECT|" ++ Py.str (ClientNode.content_host cl) ++ "|"
     ++ Py.str (ClientNode.content_port cl))%string in
  (* the Auth thread answers the question of the Content thread *)
  AuthNode.handle_content (Py.split "|" ("AUTH_COOKIE|" ++ presented)) checker
  = (Returned tt,
     AuthNode.mk_state (AuthNode._client_cookies checker) (AuthNode.rng_pos checker)
       (push_message verdict (AuthNode.write_handler checker))) /\
  (* the Content thread leaves Auth, gives its load back and tells the client *)
  ContentNode.handle_auth (Py.split "|" verdict) ct
  = ContentNode.mk_state (ContentNode.client_cookie ct) (ContentNode.music_files ct)
      (ContentNode.file_to_stream ct) (ContentNode.stream_mode ct) None None
      (ContentNode.load ct - 1)
      (mk_writer (running (ContentNode.write_handler ct))
         (out_buffer (ContentNode.write_handler ct)
          ++ [("DISCONNECT|" ++ ContentNode.auth_host_text ct ++ "|"
               ++ ContentNode.auth_port_text ct)%string; result])) /\
  (* the client goes on to the file list, or hangs up *)
  ClientNode.handle_content typed (Py.split "|" result) cl
  = (Returned tt, ClientNode.push (if valid then "FILE_REQUEST" else hang_up) cl) /\
  (* and a client that hangs up stops the Content thread *)
  (forall st,
     ContentNode.handle_client env me (Py.split "|" hang_up) st
     = Some (Returned tt,
             ContentNode.mk_state (ContentNode.client_cookie st) (ContentNode.music_files st)
               (ContentNode.file_to_stream st) (ContentNode.stream_mode st)
               (ContentNode.auth_address st) (ContentNode.auth_sock st)
               (ContentNode.load st)
               (kill_connection (ContentNode.write_handler st)),
             [])).
Proof.
  cbv zeta.
  assert (Hs : Py.split "|" ("AUTH_COOKIE|" ++ presented) = ["AUTH_COOKIE"; presented]).
  { change ("AUTH_COOKIE|" ++ presented)%string with ("AUTH_COOKIE" ++ "|" ++ presented)%string.
    by rewrite split_opcode, split_without. }
  rewrite Hs. split; [reflexivity|].
  split.
  { destruct (AuthNode.is_authenticated presented (AuthNode._client_cookies checker));
      cbn; unfold ContentNode.push, ContentNode.disconnect_from_auth_node, push_message;
      cbn; by rewrite <- app_assoc. }
  split.
  { by destruct (AuthNode.is_authenticated presented (AuthNode._client_cookies checker)). }
  intros st.
  change ("DISCONNECT|" ++ Py.str (ClientNode.content_host cl) ++ "|"
          ++ Py.str (ClientNode.content_port cl))%string
    with ("DISCONNECT" ++ "|" ++ (Py.str (ClientNode.content_host cl) ++ "|"
          ++ Py.str (ClientNode.content_port cl)))%string.
  rewrite split_opcode by reflexivity. reflexivity.
Qed.

(** X24. Serving files does not depend on the cookie check.  For every
    packet other than [CLIENT_COOKIE], [handle_client] neither reads nor
    changes the stored cookie, the Auth address, the Auth socket and the
    load: the call ends the same way, queues and sends the same, whatever
    these four attributes hold. *)
Theorem file_service_ignores_cookie_check (env : ContentNode.environment) (me : identity)
    (messages : list string) (st : ContentNode.state)
    (cookie : option string) (address : option (string * Z)) (sock : option nat)
    (load : Z) (Hother : hd "" messages <> "CLIENT_COOKIE") :
  ContentNode.handle_client env me messages (with_check cookie address sock load st)
  = match ContentNode.handle_client env me messages st with
    | Some (o, st', sent) => Some (o, with_check cookie address sock load st', sent)
    | None => None
    end.
Proof.
  destruct st as [c0 files0 file0 mode0 address0 sock0 load0 wh0].
  unfold ContentNode.handle_client, with_check.
  destruct messages as [|opcode args]; [done|].
  simpl in Hother. apply String.eqb_neq in Hother. rewrite Hother.
  cbn [ContentNode.client_cookie ContentNode.music_files ContentNode.file_to_stream
       ContentNode.stream_mode ContentNode.auth_address ContentNode.auth_sock
       ContentNode.load ContentNode.write_handler].
  destruct (String.eqb opcode "FILE_REQUEST").
  { unfold ContentNode.process_file_request, ContentNode.get_music_files.
    by destruct (ContentNode.listdir env). }
  destruct (String.eqb opcode "FILE_NAME").
  { unfold ContentNode.handle_file_name, ContentNode.get_music_files.
    destruct (ContentNode.listdir env) as [|f files]; [done|].
    destruct args as [|name rest]; [done|].
    unfold ContentNode.set_music_files.
    cbn [ContentNode.client_cookie ContentNode.music_files ContentNode.file_to_stream
         ContentNode.stream_mode ContentNode.auth_address ContentNode.auth_sock
         ContentNode.load ContentNode.write_handler].
    destruct (bool_decide (name ∈ ContentNode.catalog (f :: files))); [|reflexivity].
    destruct (List.find _ (f :: files)) as [file|]; [|reflexivity].
    destruct (ContentNode.wave_open env file); reflexivity. }
  destruct (String.eqb opcode "CLIENT_STREAM_MODE_ENTER" && mode0)%bool.
  { destruct file0 as [file|]; [|done].
    by destruct (ContentNode.wave_open env file). }
  destruct (String.eqb opcode "CLIENT_STREAM_MODE_LEAVE" && mode0)%bool.
  { unfold ContentNode.process_file_request, ContentNode.get_music_files.
    by destruct (ContentNode.listdir env). }
  by destruct (String.eqb opcode "DISCONNECT").
Qed.

End CookieVerdict.

Lemma cookie_verdict_is_relayed_witness :
  AuthNode.handle_content (Py.split "|" "AUTH_COOKIE|forged") auth_with_cookie
  = (Node.Returned tt,
     AuthNode.mk_state ["abc"] 0 (Node.mk_writer true ["COOKIE_INVALID"])) /\
  ClientNode.handle_content "" (Py.split "|" "COOKIE_CHECK_FAIL") client_start
  = (Node.Returned tt, ClientNode.push "DISCONNECT|10.30.8.123|50012" client_start).
Proof.
  pose proof (cookie_verdict_is_relayed "forged" auth_with_cookie content_start client_start
                "" streaming_directory content_identity eq_refl) as H.
  cbv zeta in H. destruct H as (Hauth & _ & Hclient & _).
  split; [exact Hauth | exact Hclient].
Defined.

Lemma file_service_ignores_cookie_check_witness :
  ContentNode.handle_client streaming_directory content_identity ["FILE_REQUEST"]
    (with_check None None None 1 content_streaming)
  = match ContentNode.handle_client streaming_directory content_identity ["FILE_REQUEST"]
            content_streaming with
    | Some (o, st', sent) => Some (o, with_check None None None 1 st', sent)
    | None => None
    end.
Proof.
  apply (file_service_ignores_cookie_check streaming_directory content_identity
           ["FILE_REQUEST"] content_streaming None None None 1).
  discriminate.
Defined.

(** ** Streaming sessions *)

Section Streaming.

Local Open Scope list_scope.

Lemma frame_is_frame_bytes chunk f : ContentNode.frame chunk = Some f -> f = frame_bytes chunk.
Proof.
  unfold ContentNode.frame, Struct.pack_I, frame_bytes.
  destruct ((0 <=? Z.of_nat (length chunk))%Z && (Z.of_nat (length chunk) <? 2 ^ 32)%Z)%bool;
    [|done].
  by intros [= <-].
Qed.

Lemma stream_chunks_ext chunks ready1 ready2 :
  (forall i, ready1 i = ready2 i) ->
  forall i, ContentNode.stream_chunks chunks ready1 i
            = ContentNode.stream_chunks chunks ready2 i.
Proof.
  intros Hext. induction chunks as [|c chunks IH]; intros i; [done|].
  cbn [ContentNode.stream_chunks]. destruct c; [done|].
  rewrite Hext. destruct (ready2 i) as [|[]|]; [|done|apply IH|done].
  destruct (ContentNode.frame _); [|done]. by rewrite IH.
Qed.

(** X25. The frames sent during streaming are frames of chunks of the
    file, in file order and none twice, whatever the socket does; and
    nothing is sent from the first turn on that reads an empty chunk,
    meets an exception, or finds the socket closed. *)
Theorem sent_frames_follow_file_order (chunks : list (list byte))
    (ready : nat -> ContentNode.write_ready) (i : nat) :
  sublist (ContentNode.stream_chunks chunks ready i) (map frame_bytes chunks) /\
  (forall k chunk, chunks !! k = Some chunk ->
     (chunk = [] \/ ready (i + k) = ContentNode.Failing
      \/ ready (i + k) = ContentNode.NoEvents true) ->
     length (ContentNode.stream_chunks chunks ready i) <= k).
Proof.
  split.
  - revert i. induction chunks as [|c chunks IH]; intros i; [done|].
    cbn [ContentNode.stream_chunks map]. destruct c as [|b c]; [apply sublist_nil_l|].
    destruct (ready i) as [|[]|]; try apply sublist_nil_l.
    + destruct (ContentNode.frame (b :: c)) as [f|] eqn:Hf; [|apply sublist_nil_l].
      apply frame_is_frame_bytes in Hf as ->. apply sublist_skip, IH.
    + apply sublist_cons, IH.
  - revert i. induction chunks as [|c chunks IH]; intros i k chunk Hk Hstop; [done|].
    cbn [ContentNode.stream_chunks]. destruct k as [|k].
    + injection Hk as ->. rewrite Nat.add_0_r in Hstop.
      destruct chunk as [|b chunk]; [done|].
      destruct Hstop as [?|[-> | ->]]; done.
    + simpl in Hk. replace (i + S k) with (S i + k) in Hstop by lia.
      specialize (IH (S i) k chunk Hk Hstop).
      destruct c as [|b c]; [simpl; lia|].
      destruct (ready i) as [|[]|]; try (simpl; lia).
      destruct (ContentNode.frame (b :: c)); simpl; lia.
Qed.

Lemma stream_loop_plays closed chunks packets :
  Forall (fun c => (Z.of_nat (length c) < 2 ^ 32)%Z) chunks ->
  Forall (fun p => p <> []) packets ->
  concat packets = concat (map frame_bytes chunks) ->
  exists fuel,
    ClientNode.stream_loop fuel [] (delivering packets closed) []
    = Some (ClientNode.Caught (starved closed), chunks).
Proof.
  intros Hchunks Hne Heq.
  destruct (stream_loop_frames closed [] chunks packets []) as
    (N & data' & packets' & Hend & Hne' & Hrun); [done | done | by rewrite app_nil_r |].
  apply app_eq_nil in Hend as [-> Hend].
  apply (concat_nil_nonempty _ Hne') in Hend as ->.
  exists (length chunks + S (S N)). rewrite Hrun by lia. by rewrite stream_loop_end.
Qed.

(** X26. One streaming session.  With a file accepted and a socket that
    stays writable, [CLIENT_STREAM_MODE_ENTER] makes the Content thread
    send the frames of all chunks of that file; the client, given these
    bytes in any split into non-empty packets, plays exactly the chunks of
    the file, in order, and queues [CLIENT_STREAM_MODE_LEAVE]; on that
    packet the Content thread leaves stream mode and lists the files again
    (the names of the catalog, in the order in which the set yields them),
    and a further [CLIENT_STREAM_MODE_ENTER] sends nothing. *)
Theorem streaming_session (env : ContentNode.environment) (me : Node.identity)
    (st : ContentNode.state) (cl : ClientNode.state) (file : string)
    (waveform : ContentNode.wave_file) (closed : bool)
    (Hmode : ContentNode.stream_mode st = true)
    (Hfile : ContentNode.file_to_stream st = Some file)
    (Hopen : ContentNode.wave_open env file = Some waveform)
    (Hready : forall i, ContentNode.ready env i = ContentNode.Writable)
    (Hchunks : Forall (fun c => c <> [] /\ (Z.of_nat (length c) < 2 ^ 32)%Z)
                 (ContentNode.frames waveform)) :
  (* the client's answer to STREAM_MODE_ENTER starts the transfer of the file *)
  ContentNode.handle_client env me (Py.split "|" "CLIENT_STREAM_MODE_ENTER") st
  = Some (Node.Returned tt, st, map frame_bytes (ContentNode.frames waveform)) /\
  (* the client plays the chunks of the file, in order, and announces the end *)
  (forall packets,
     Forall (fun p => p <> []) packets ->
     concat packets = concat (map frame_bytes (ContentNode.frames waveform)) ->
     exists fuel,
       ClientNode.handle_stream_mode fuel (delivering packets closed) cl
       = Some (ClientNode.Caught (starved closed), ContentNode.frames waveform,
               after_stream cl)) /\
  (* the Content thread then leaves stream mode and lists the files again *)
  (exists st' names,
     ContentNode.handle_client env me (Py.split "|" "CLIENT_STREAM_MODE_LEAVE") st
     = Some (Node.Returned tt, st', []) /\
     ContentNode.stream_mode st' = false /\
     names ≡ₚ elements (ContentNode.catalog (ContentNode.listdir env)) /\
     Node.out_buffer (ContentNode.write_handler st')
     = Node.out_buffer (ContentNode.write_handler st)
       ++ [match ContentNode.listdir env with
           | [] => "NO_FILES_AVAILABLE"
           | _ => ("FILES_AVAILABLE|" ++ Py.join "|" names)%string
           end] /\
     (* and sends nothing more until another file name is accepted *)
     ContentNode.handle_client env me (Py.split "|" "CLIENT_STREAM_MODE_ENTER") st'
     = Some (Node.Returned tt, st', [])).
Proof.
  change (Py.split "|" "CLIENT_STREAM_MODE_ENTER") with ["CLIENT_STREAM_MODE_ENTER"].
  change (Py.split "|" "CLIENT_STREAM_MODE_LEAVE") with ["CLIENT_STREAM_MODE_LEAVE"].
  assert (Henter : forall s : ContentNode.state,
            ContentNode.handle_client env me ["CLIENT_STREAM_MODE_ENTER"] s
            = if ContentNode.stream_mode s then
                match ContentNode.file_to_stream s with
                | None => Some (Node.Raised "TypeError", s, [])
                | Some f =>
                    match ContentNode.wave_open env f with
                    | None => Some (Node.Raised "wave.Error", s, [])
                    | Some w =>
                        Some (Node.Returned tt, s,
                              ContentNode.stream_chunks (ContentNode.frames w)
                                (ContentNode.ready env) 0)
                    end
                end
              else Some (Node.Returned tt, s, [])).
  { intros s. unfold ContentNode.handle_client.
    change (String.eqb "CLIENT_STREAM_MODE_ENTER" "CLIENT_COOKIE") with false.
    change (String.eqb "CLIENT_STREAM_MODE_ENTER" "FILE_REQUEST") with false.
    change (String.eqb "CLIENT_STREAM_MODE_ENTER" "FILE_NAME") with false.
    change (String.eqb "CLIENT_STREAM_MODE_ENTER" "CLIENT_STREAM_MODE_ENTER") with true.
    change (String.eqb "CLIENT_STREAM_MODE_ENTER" "CLIENT_STREAM_MODE_LEAVE") with false.
    change (String.eqb "CLIENT_STREAM_MODE_ENTER" "DISCONNECT") with false.
    cbv iota. by destruct (ContentNode.stream_mode s). }
  assert (Hoff : ContentNode.stream_mode
                   (ContentNode.process_file_request (ContentNode.place_in_set env)
                      (ContentNode.listdir env)
                      (ContentNode.set_stream_mode false st)) = false).
  { unfold ContentNode.process_file_request, ContentNode.get_music_files.
    by destruct (ContentNode.listdir env). }
  split.
  { rewrite Henter, Hmode, Hfile, Hopen.
    rewrite (stream_chunks_ext _ _ (fun _ => ContentNode.Writable) Hready).
    by rewrite stream_chunks_frames. }
  split.
  { intros packets Hne Heq.
    destruct (stream_loop_plays closed (ContentNode.frames waveform) packets) as [fuel Hrun];
      [|exact Hne|exact Heq|].
    { eapply Forall_impl; [exact Hchunks|]. by intros c [_ Hc]. }
    exists fuel. unfold ClientNode.handle_stream_mode. by rewrite Hrun. }
  exists (ContentNode.process_file_request (ContentNode.place_in_set env)
            (ContentNode.listdir env) (ContentNode.set_stream_mode false st)),
         (ContentNode.iteration (ContentNode.place_in_set env)
            (ContentNode.catalog (ContentNode.listdir env))).
  split.
  { unfold ContentNode.handle_client.
    change (String.eqb "CLIENT_STREAM_MODE_LEAVE" "CLIENT_COOKIE") with false.
    change (String.eqb "CLIENT_STREAM_MODE_LEAVE" "FILE_REQUEST") with false.
    change (String.eqb "CLIENT_STREAM_MODE_LEAVE" "FILE_NAME") with false.
    change (String.eqb "CLIENT_STREAM_MODE_LEAVE" "CLIENT_STREAM_MODE_ENTER") with false.
    change (String.eqb "CLIENT_STREAM_MODE_LEAVE" "CLIENT_STREAM_MODE_LEAVE") with true.
    cbv iota. by rewrite Hmode. }
  split; [exact Hoff|]. split; [apply iteration_Permutation|].
  split; [by rewrite file_request_reply|].
  by rewrite Henter, Hoff.
Qed.

End Streaming.

Lemma sent_frames_follow_file_order_witness :
  length (ContentNode.stream_chunks two_chunks
            (fun i => if Nat.eqb i 1 then ContentNode.Failing else ContentNode.Writable) 0)
  <= 1.
Proof.
  apply (proj2 (sent_frames_follow_file_order two_chunks
                  (fun i => if Nat.eqb i 1 then ContentNode.Failing else ContentNode.Writable)
                  0) 1 ["A"%byte]).
  - reflexivity.
  - right. left. reflexivity.
Defined.

Lemma streaming_session_witness :
  ContentNode.handle_client streaming_directory content_identity
    (Py.split "|" "CLIENT_STREAM_MODE_ENTER") content_streaming
  = Some (Node.Returned tt, content_streaming, map frame_bytes two_chunks) /\
  (exists fuel,
     ClientNode.handle_stream_mode fuel (delivering three_packets false) client_start
     = Some (ClientNode.Caught "BlockingIOError", two_chunks,
             after_stream client_start)) /\
  exists st',
    ContentNode.handle_client streaming_directory content_identity
      (Py.split "|" "CLIENT_STREAM_MODE_LEAVE") content_streaming
    = Some (Node.Returned tt, st', []) /\
    Node.out_buffer (ContentNode.write_handler st') = ["FILES_AVAILABLE|song"].
Proof.
  destruct (streaming_session streaming_directory content_identity content_streaming
              client_start "song.wav" (ContentNode.mk_wave 44100 two_chunks) false
              eq_refl eq_refl eq_refl (fun _ => eq_refl))
    as (Henter & Hplay & st' & names & Hleave & _ & Hperm & Hqueue & _).
  { repeat constructor; try discriminate; vm_compute; lia. }
  split; [exact Henter|]. split.
  - apply (Hplay three_packets).
    + repeat constructor; intros H; vm_compute in H; discriminate.
    + vm_compute. reflexivity.
  - assert (Hcat : elements (ContentNode.catalog (ContentNode.listdir streaming_directory))
                   = ["song"]) by (vm_compute; reflexivity).
    rewrite Hcat in Hperm. apply Permutation_singleton_r in Hperm as ->.
    exists st'. split; [exact Hleave | exact Hqueue].
Defined.

Section Names.

Local Open Scope list_scope.

Lemma lower_char_idem c : Py.lower_char (Py.lower_char c) = Py.lower_char c.
Proof. destruct c as [[] [] [] [] [] [] [] []]; reflexivity. Qed.

Lemma lower_idem s : Py.lower (Py.lower s) = Py.lower s.
Proof. induction s as [|c s IH]; simpl; [done | by rewrite IH, lower_char_idem]. Qed.

Lemma catalog_lower files name : name ∈ ContentNode.catalog files -> Py.lower name = name.
Proof.
  intros H. apply elem_of_catalog in H as (file & _ & _ & ->). apply lower_idem.
Qed.

(** X27. A name that is not in the catalogue is refused.  In a directory
    that is not empty, for a name without [|], the Content thread queues
    [FILE_NAME_INVALID] and leaves stream mode and the selected file as
    they were, and the client asks for the list again.  Every name that
    [lower] changes (a name with a capital letter) is refused in this way,
    since the catalogue holds lower-cased stems only and the Content thread
    compares the name as it arrives. *)
Theorem unlisted_name_is_refused (env : ContentNode.environment) (me : Node.identity)
    (st : ContentNode.state) (cl : ClientNode.state) (typed name : string)
    (Hdir : ContentNode.listdir env <> [])
    (Hpipe : has_char "|" name = false)
    (Hname : name ∉ ContentNode.catalog (ContentNode.listdir env) \/ Py.lower name <> name) :
  exists st',
    ContentNode.handle_client env me (Py.split "|" ("FILE_NAME|" ++ name)) st
    = Some (Node.Returned tt, st', []) /\
    Node.out_buffer (ContentNode.write_handler st')
    = Node.out_buffer (ContentNode.write_handler st) ++ ["FILE_NAME_INVALID"] /\
    ContentNode.stream_mode st' = ContentNode.stream_mode st /\
    ContentNode.file_to_stream st' = ContentNode.file_to_stream st /\
    ClientNode.handle_content typed (Py.split "|" "FILE_NAME_INVALID") cl
    = (Node.Returned tt, client_queued "FILE_REQUEST" cl).
Proof.
  assert (Hnot : name ∉ ContentNode.catalog (ContentNode.listdir env)).
  { destruct Hname as [H|H]; [done|]. intros Hin. by apply catalog_lower in Hin. }
  assert (Hs : Py.split "|" ("FILE_NAME|" ++ name) = ["FILE_NAME"; name]).
  { change ("FILE_NAME|" ++ name)%string with ("FILE_NAME" ++ "|" ++ name)%string.
    by rewrite split_opcode, split_without. }
  rewrite Hs. unfold ContentNode.handle_client.
  change (String.eqb "FILE_NAME" "CLIENT_COOKIE") with false.
  change (String.eqb "FILE_NAME" "FILE_REQUEST") with false.
  change (String.eqb "FILE_NAME" "FILE_NAME") with true. cbv iota.
  unfold ContentNode.handle_file_name, ContentNode.get_music_files.
  destruct (ContentNode.listdir env) as [|f files] eqn:Hl; [done|].
  change (ContentNode.music_files (ContentNode.set_music_files
            (ContentNode.catalog (f :: files)) st))
    with (ContentNode.catalog (f :: files)).
  rewrite bool_decide_eq_false_2 by done.
  eexists. split; [reflexivity|]. done.
Qed.

End Names.

Section ContentThread.

Import Node.
Local Open Scope list_scope.

(** X28. A verdict counts only on the Auth socket.  [COOKIE_VALID] and
    [COOKIE_INVALID] are handled by [handle_auth] only when they arrive on
    the socket stored in [auth_sock]; on the client's own socket, on any
    other socket, and in a thread whose peer is not a [CLIENT], they change
    nothing. *)
Theorem verdict_only_from_auth_socket (env : ContentNode.environment) (me : identity)
    (self : nat) (key : ContentNode.fileobj) (verdict : string)
    (tm : NodeThreadManager) (st : ContentNode.state)
    (Hverdict : verdict = "COOKIE_VALID" \/ verdict = "COOKIE_INVALID") :
  ContentNode.read env me "CLIENT" self key (Data verdict) tm st
  = Some (Returned tt,
          (if ContentNode.is_auth_sock key st then ContentNode.handle_auth [verdict] st
           else st),
          [], tm, false) /\
  (ContentNode.is_auth_sock key st = true <->
   exists s, key = ContentNode.Connection s /\ ContentNode.auth_sock st = Some s) /\
  (forall conn_type, conn_type <> "CLIENT" ->
     ContentNode.read env me conn_type self key (Data verdict) tm st
     = Some (Returned tt, st, [], tm, false)).
Proof.
  split; [|split].
  - destruct Hverdict as [-> | ->]; unfold ContentNode.read;
      destruct key as [|s]; try reflexivity.
    + by destruct (ContentNode.is_auth_sock (ContentNode.Connection s) st).
    + by destruct (ContentNode.is_auth_sock (ContentNode.Connection s) st).
  - unfold ContentNode.is_auth_sock. destruct key as [|s].
    + split; [done | by intros (s & ? & _)].
    + destruct (ContentNode.auth_sock st) as [s'|].
      * rewrite Nat.eqb_eq. split; [intros ->; eauto | by intros (s0 & [= <-] & [= <-])].
      * split; [done | by intros (s0 & _ & ?)].
  - intros conn_type Hne. apply String.eqb_neq in Hne.
    unfold ContentNode.read. rewrite Hne.
    by destruct Hverdict as [-> | ->].
Qed.

End ContentThread.

Lemma unlisted_name_is_refused_witness :
  exists st',
    ContentNode.handle_client streaming_directory content_identity
      (Py.split "|" "FILE_NAME|Song") content_start
    = Some (Node.Returned tt, st', []) /\
    Node.out_buffer (ContentNode.write_handler st') = ["FILE_NAME_INVALID"].
Proof.
  destruct (unlisted_name_is_refused streaming_directory content_identity content_start
              client_start "" "Song")
    as (st' & Hrun & Hqueue & _).
  - discriminate.
  - reflexivity.
  - right. discriminate.
  - exists st'. split; [exact Hrun | exact Hqueue].
Defined.

Lemma verdict_only_from_auth_socket_witness :
  ContentNode.read streaming_directory content_identity "CLIENT" 0 ContentNode.OwnSocket
    (Node.Data "COOKIE_VALID") (Node.mk_manager ∅ []) content_streaming
  = Some (Node.Returned tt, content_streaming, [], Node.mk_manager ∅ [], false).
Proof.
  exact (proj1 (verdict_only_from_auth_socket streaming_directory content_identity 0
                  ContentNode.OwnSocket "COOKIE_VALID" (Node.mk_manager ∅ [])
                  content_streaming (or_introl eq_refl))).
Defined.
